(** * Stage A contract lint validator: a shallow embedding

    The validator of [stageA/lint/contract_lint_validator.py] walks a
    document tree produced by [json.load] and collects findings.  The tree is
    dynamically typed, and several operations of the source raise a Python
    exception on a value of the wrong shape, so the embedding keeps both:
    documents are values of one type [json], and every check returns in an
    error monad whose failures are the exceptions Python raises. *)

From Stdlib Require Import ZArith QArith List String Ascii Bool Arith Lia.
From Stdlib Require Import DecimalString DecimalNat Permutation.
Import ListNotations.

Close Scope Q_scope.
Open Scope string_scope.
Open Scope list_scope.

(** ** Python values and exceptions *)

Module Py.

#[local] Set Warnings "-register-all".

(** What [json.load] builds.  Objects keep their insertion order, as Python
    dicts do; a loaded object never has two entries with one key (the last
    one read wins), and [lookup] below takes the first.  Floats are the
    finite ones, kept as the rational they denote, which is what [==] and
    hashing compare; text is a sequence of code points below 256. *)
Inductive json : Type :=
| JNull
| JBool (b : bool)
| JInt (z : Z)
| JFloat (q : Q)
| JStr (s : string)
| JArr (l : list json)
| JObj (m : list (string * json)).

Inductive exn : Type :=
| TypeError
| AttributeError
| ContractLintError.

Inductive result (A : Type) : Type :=
| Ok (a : A)
| Raise (e : exn).

Arguments Ok {A} a.
Arguments Raise {A} e.

Definition bind {A B} (c : result A) (k : A -> result B) : result B :=
  match c with
  | Ok a => k a
  | Raise e => Raise e
  end.

Notation "x <- c ;; k" := (bind c (fun x => k))
  (at level 61, c at next level, right associativity).
Notation "' pat <- c ;; k" := (bind c (fun x => match x with pat => k end))
  (at level 61, pat pattern, c at next level, right associativity).

Definition isinstance_dict (v : json) : bool :=
  match v with JObj _ => true | _ => false end.

Definition isinstance_list (v : json) : bool :=
  match v with JArr _ => true | _ => false end.

(** Truth value of an object, as [if v:] and [not v] take it. *)
Definition truthy (v : json) : bool :=
  match v with
  | JNull => false
  | JBool b => b
  | JInt z => negb (z =? 0)%Z
  | JFloat q => negb (Qeq_bool q 0%Q)
  | JStr s => negb (s =? "")
  | JArr l => match l with [] => false | _ => true end
  | JObj m => match m with [] => false | _ => true end
  end.

Fixpoint lookup (k : string) (m : list (string * json)) : option json :=
  match m with
  | [] => None
  | (k', v) :: r => if k =? k' then Some v else lookup k r
  end.

(** [c.get(k, d)]: only a dict has the method. *)
Definition py_get (c : json) (k : string) (d : json) : result json :=
  match c with
  | JObj m => Ok (match lookup k m with Some v => v | None => d end)
  | _ => Raise AttributeError
  end.

(** [c.keys()] and [c.values()]. *)
Definition py_keys (c : json) : result (list string) :=
  match c with
  | JObj m => Ok (map fst m)
  | _ => Raise AttributeError
  end.

Definition py_values (c : json) : result (list json) :=
  match c with
  | JObj m => Ok (map snd m)
  | _ => Raise AttributeError
  end.

(** [v == "lit"]: only a string can equal a string. *)
Definition eq_str (v : json) (s : string) : bool :=
  match v with JStr t => t =? s | _ => false end.

Fixpoint prefix_of (p s : string) : bool :=
  match p, s with
  | EmptyString, _ => true
  | String a p', String b s' => Ascii.eqb a b && prefix_of p' s'
  | String _ _, EmptyString => false
  end.

Fixpoint substring_of (p s : string) : bool :=
  prefix_of p s ||
  match s with
  | EmptyString => false
  | String _ s' => substring_of p s'
  end.

(** [k in c] for a string [k]: a key of a dict, an element of a list, a
    substring of a string; the other values are not containers. *)
Definition py_in (k : string) (c : json) : result bool :=
  match c with
  | JObj m => Ok (match lookup k m with Some _ => true | None => false end)
  | JArr l => Ok (existsb (fun v => eq_str v k) l)
  | JStr s => Ok (substring_of k s)
  | _ => Raise TypeError
  end.

Fixpoint chars (s : string) : list json :=
  match s with
  | EmptyString => []
  | String a r => JStr (String a EmptyString) :: chars r
  end.

(** The elements a [for] loop or a comprehension draws from [c]. *)
Definition py_iter (c : json) : result (list json) :=
  match c with
  | JArr l => Ok l
  | JObj m => Ok (map (fun kv => JStr (fst kv)) m)
  | JStr s => Ok (chars s)
  | _ => Raise TypeError
  end.

(** *** Sets

    A set holds hashable values, at most one of each class of [==]; Python
    compares [True], [1] and [1.0] equal.  Iteration order of a Python set
    is unspecified; the model iterates in insertion order. *)
Definition hashable (v : json) : bool :=
  match v with JArr _ | JObj _ => false | _ => true end.

Definition number (v : json) : option Q :=
  match v with
  | JBool b => Some (if b then 1 else 0)%Q
  | JInt z => Some (inject_Z z)
  | JFloat q => Some q
  | _ => None
  end.

Definition atom_eqb (a b : json) : bool :=
  match a, b with
  | JNull, JNull => true
  | JStr s, JStr t => s =? t
  | _, _ =>
      match number a, number b with
      | Some p, Some q => Qeq_bool p q
      | _, _ => false
      end
  end.

Definition pyset : Type := list json.

Definition set_mem (a : json) (s : pyset) : bool := existsb (atom_eqb a) s.

(** [a in s] hashes [a] first. *)
Definition py_in_set (a : json) (s : pyset) : result bool :=
  if hashable a then Ok (set_mem a s) else Raise TypeError.

Definition set_add (a : json) (s : pyset) : result pyset :=
  if hashable a then Ok (if set_mem a s then s else s ++ [a])
  else Raise TypeError.

Fixpoint set_update (s : pyset) (l : list json) : result pyset :=
  match l with
  | [] => Ok s
  | a :: r => s' <- set_add a s ;; set_update s' r
  end.

(** [s | t] of two sets. *)
Fixpoint set_union (s t : pyset) : pyset :=
  match t with
  | [] => s
  | a :: r => set_union (if set_mem a s then s else s ++ [a]) r
  end.

(** [a in S] for one of the class constants, a set of strings. *)
Definition py_in_strings (a : json) (S : list string) : result bool :=
  if hashable a then Ok (existsb (eq_str a) S) else Raise TypeError.

(** [{x.get(field) for x in c}]. *)
Fixpoint set_of_field (field : string) (s : pyset) (l : list json)
  : result pyset :=
  match l with
  | [] => Ok s
  | x :: r =>
      v <- py_get x field JNull ;;
      s' <- set_add v s ;;
      set_of_field field s' r
  end.

Definition set_comprehension (field : string) (c : json) : result pyset :=
  l <- py_iter c ;; set_of_field field [] l.

End Py.

Import Py.

(** ** Regular expressions

    The seven patterns of the class, each as the recogniser [re.match]
    computes for it.  All are anchored at both ends; [$] also matches just
    before a newline that ends the string.  [\d] matches the decimal digits,
    which among the code points below 256 are [0] to [9]. *)

Module Re.

Definition code_of (c : ascii) : nat := nat_of_ascii c.

Definition is_digit (c : ascii) : bool :=
  (48 <=? code_of c)%nat && (code_of c <=? 57)%nat.

Definition is_upper (c : ascii) : bool :=
  (65 <=? code_of c)%nat && (code_of c <=? 90)%nat.

Definition is_roman (c : ascii) : bool :=
  existsb (Ascii.eqb c) (list_ascii_of_string "IVXLCDM").

Fixpoint span (p : ascii -> bool) (l : list ascii)
  : list ascii * list ascii :=
  match l with
  | [] => ([], [])
  | c :: r =>
      if p c then let (a, b) := span p r in (c :: a, b) else ([], l)
  end.

(** [$] *)
Definition at_end (l : list ascii) : bool :=
  match l with
  | [] => true
  | [c] => Ascii.eqb c "010"%char
  | _ => false
  end.

(** A literal character. *)
Definition lit (x : ascii) (k : list ascii -> bool) (l : list ascii) : bool :=
  match l with
  | c :: r => Ascii.eqb c x && k r
  | [] => false
  end.

(** [\d] *)
Definition digit (k : list ascii -> bool) (l : list ascii) : bool :=
  match l with
  | c :: r => is_digit c && k r
  | [] => false
  end.

(** [p+], greedy; what follows in each pattern cannot start with a
    character of [p], so the longest run is the only candidate. *)
Definition plus (p : ascii -> bool) (k : list ascii -> bool)
  (l : list ascii) : bool :=
  let (a, r) := span p l in
  match a with [] => false | _ => k r end.

(** [^A-(?:[IVXLCDM]+)-\d+(?:\.\d+)?$] *)
Definition MODULE_ID_PATTERN (s : string) : bool :=
  lit "A" (lit "-" (plus is_roman (lit "-" (plus is_digit (fun r =>
    at_end r || lit "." (plus is_digit at_end) r)))))
    (list_ascii_of_string s).

(** [^[A-Z0-9]{2,8}$] *)
Definition MODULE_ABBR_PATTERN (s : string) : bool :=
  let (a, r) := span (fun c => is_upper c || is_digit c)
                     (list_ascii_of_string s) in
  (2 <=? List.length a)%nat && (List.length a <=? 8)%nat && at_end r.

(** [^\d+\.\d+\.\d+$] *)
Definition SEMVER_PATTERN (s : string) : bool :=
  plus is_digit (lit "." (plus is_digit (lit "." (plus is_digit at_end))))
    (list_ascii_of_string s).

(** [^\d{4}-\d{2}-\d{2}T\d{2}:\d{2}:\d{2}\+02:00$] *)
Definition TIMESTAMP_PATTERN (s : string) : bool :=
  digit (digit (digit (digit (lit "-" (digit (digit (lit "-" (digit (digit
  (lit "T" (digit (digit (lit ":" (digit (digit (lit ":" (digit (digit
  (lit "+" (lit "0" (lit "2" (lit ":" (lit "0" (lit "0"
  at_end))))))))))))))))))))))))
    (list_ascii_of_string s).

Definition letter_3digits (x : ascii) (s : string) : bool :=
  lit x (digit (digit (digit at_end))) (list_ascii_of_string s).

(** [^E\d{3}$], [^W\d{3}$], [^S\d{3}$] *)
Definition ERROR_CODE_PATTERN : string -> bool := letter_3digits "E".
Definition WARNING_CODE_PATTERN : string -> bool := letter_3digits "W".
Definition STEP_ID_PATTERN : string -> bool := letter_3digits "S".

(** [PATTERN.match(v)] as a truth value; the argument must be a string. *)
Definition re_match (p : string -> bool) (v : json) : result bool :=
  match v with
  | JStr s => Ok (p s)
  | _ => Raise TypeError
  end.

End Re.

Import Re.

(** ** Findings and results *)

Inductive Severity : Type := ERROR | WARNING.

Definition Severity_eqb (a b : Severity) : bool :=
  match a, b with
  | ERROR, ERROR | WARNING, WARNING => true
  | _, _ => false
  end.

(** A message is an f-string; it is kept as its parts, the literal text and
    the interpolated values, and not rendered. *)
Inductive part : Type :=
| Txt (s : string)
| Fmt (v : json)
| FmtSet (S : list string).

Record LintIssue : Type := mkIssue {
  code : string;
  severity : Severity;
  message : list part;
  path : string
}.

Record LintResult : Type := mkResult {
  file_path : string;
  passed : bool;
  score : Z;
  errors : list LintIssue;
  warnings : list LintIssue
}.

(** [{i}] inside a path. *)
Definition dec (i : nat) : string := NilEmpty.string_of_uint (Nat.to_uint i).

Definition idx (i : nat) : part := Fmt (JInt (Z.of_nat i)).

(** [if b: issues.append(x)] *)
Definition when (b : bool) (x : LintIssue) : list LintIssue :=
  if b then [x] else [].

(** *** Loops

    A loop whose body only appends to [issues], and a loop that also
    carries a local variable of type [S]. *)
Fixpoint for_each {A} (body : A -> result (list LintIssue)) (l : list A)
  : result (list LintIssue) :=
  match l with
  | [] => Ok []
  | x :: r => a <- body x ;; b <- for_each body r ;; Ok (a ++ b)
  end.

Fixpoint for_state {A S} (body : S -> A -> result (S * list LintIssue))
  (s : S) (l : list A) : result (S * list LintIssue) :=
  match l with
  | [] => Ok (s, [])
  | x :: r =>
      ' (s1, a) <- body s x ;;
      ' (s2, b) <- for_state body s1 r ;;
      Ok (s2, a ++ b)
  end.

Fixpoint enumerate_from {A} (i : nat) (l : list A) : list (nat * A) :=
  match l with
  | [] => []
  | x :: r => (i, x) :: enumerate_from (S i) r
  end.

Definition enumerate {A} (l : list A) : list (nat * A) := enumerate_from 0 l.

(** ** The validator *)

Module ContractLintValidator.

Definition REQUIRED_FIELDS : list string :=
  ["_schema"; "module_id"; "module_abbr"; "module_type"; "module_name";
   "version"; "description"; "io_contract"; "parameters"; "parameter_groups";
   "constraints"; "validation"; "error_codes"; "algorithm"; "relations";
   "test_cases"; "policies"].

Definition REQUIRED_SCHEMA_FIELDS : list string :=
  ["name"; "version"; "stage"; "maturity_stage";
   "static_frame_only"; "underpainting_intent"; "created_at"; "updated_at"].

Definition VALID_MODULE_TYPES : list string := ["RULESET"; "PROCESS"; "BRIDGE"].
Definition VALID_MATURITY_STAGES : list string := ["pilot"; "draft"; "stable"].
Definition VALID_UNDERPAINTING_INTENTS : list string :=
  ["structure_only"; "structure_plus_masks"; "structure_plus_metadata"].
Definition VALID_PARAM_TYPES : list string :=
  ["float"; "int"; "boolean"; "enum"; "string"].
Definition VALID_STEP_TYPES : list string :=
  ["load"; "transform"; "filter"; "validate"; "normalize"; "classify";
   "export"; "validate_module"].
Definition VALID_TEST_TYPES : list string := ["positive"; "negative"; "warning"].

(** The file system as the validator sees it: at a path there is nothing,
    or a file [json.load] fails on, or a file holding a document. *)
Inductive file : Type :=
| Missing
| Unparseable
| Holds (j : json).

Definition filesystem : Type := string -> file.

Definition exists_ (fs : filesystem) (p : string) : bool :=
  match fs p with Missing => false | _ => true end.

Definition _load_json (fs : filesystem) (p : string) : result json :=
  match fs p with
  | Holds j => Ok j
  | _ => Raise ContractLintError
  end.

Record validator : Type := mkValidator {
  schema_path : string;
  glossary_path : option string;
  strict_mode : bool;
  schema : json;
  glossary : option json
}.

Definition __init__ (fs : filesystem) (schema_path : string)
  (glossary_path : option string) (strict_mode : bool) : result validator :=
  schema <- _load_json fs schema_path ;;
  glossary <-
    match glossary_path with
    | Some g =>
        if exists_ fs g then j <- _load_json fs g ;; Ok (Some j) else Ok None
    | None => Ok None
    end ;;
  Ok (mkValidator schema_path glossary_path strict_mode schema glossary).

Definition _calculate_score (errors warnings : list LintIssue) : Z :=
  match errors with
  | _ :: _ => Z.max 0 (50 - Z.of_nat (List.length errors) * 10)
  | [] => Z.max 70 (100 - Z.of_nat (List.length warnings) * 5)
  end.

Definition _check_required_fields (data : json) : result (list LintIssue) :=
  for_each (fun field =>
    present <- py_in field data ;;
    Ok (when (negb present)
          (mkIssue "E010" ERROR
             [Txt "Missing required field: "; Fmt (JStr field)]
             ("$." ++ field))))
    REQUIRED_FIELDS.

Definition _check_schema_block (data : json) : result (list LintIssue) :=
  schema <- py_get data "_schema" (JObj []) ;;
  if negb (isinstance_dict schema) then
    Ok [mkIssue "E011" ERROR [Txt "_schema must be an object"] "$._schema"]
  else
    i1 <- for_each (fun field =>
            present <- py_in field schema ;;
            Ok (when (negb present)
                  (mkIssue "E011" ERROR
                     [Txt "Missing _schema."; Fmt (JStr field)]
                     ("$._schema." ++ field))))
            REQUIRED_SCHEMA_FIELDS ;;
    name <- py_get schema "name" JNull ;;
    let i2 := when (negb (eq_str name "A-PRACTICAL.contract"))
                (mkIssue "E011" ERROR
                   [Txt "_schema.name must be 'A-PRACTICAL.contract'"]
                   "$._schema.name") in
    stage <- py_get schema "stage" JNull ;;
    let i3 := when (negb (eq_str stage "A.contract_only"))
                (mkIssue "E011" ERROR
                   [Txt "_schema.stage must be 'A.contract_only'"]
                   "$._schema.stage") in
    maturity <- py_get schema "maturity_stage" JNull ;;
    ok4 <- py_in_strings maturity VALID_MATURITY_STAGES ;;
    let i4 := when (negb ok4)
                (mkIssue "E011" ERROR
                   [Txt "_schema.maturity_stage must be one of ";
                    FmtSet VALID_MATURITY_STAGES]
                   "$._schema.maturity_stage") in
    intent <- py_get schema "underpainting_intent" JNull ;;
    ok5 <- py_in_strings intent VALID_UNDERPAINTING_INTENTS ;;
    let i5 := when (negb ok5)
                (mkIssue "E011" ERROR
                   [Txt "_schema.underpainting_intent must be one of ";
                    FmtSet VALID_UNDERPAINTING_INTENTS]
                   "$._schema.underpainting_intent") in
    i6 <- for_each (fun ts_field =>
            ts <- py_get schema ts_field (JStr "") ;;
            if truthy ts then
              m <- re_match TIMESTAMP_PATTERN ts ;;
              Ok (when (negb m)
                    (mkIssue "E012" ERROR
                       [Txt "_schema."; Fmt (JStr ts_field);
                        Txt " must be ISO8601 with +02:00"]
                       ("$._schema." ++ ts_field)))
            else Ok [])
            ["created_at"; "updated_at"] ;;
    Ok (i1 ++ i2 ++ i3 ++ i4 ++ i5 ++ i6).

Definition _check_module_identity (data : json) : result (list LintIssue) :=
  module_id <- py_get data "module_id" (JStr "") ;;
  m1 <- re_match MODULE_ID_PATTERN module_id ;;
  let i1 := when (negb m1)
              (mkIssue "E013" ERROR
                 [Txt "Invalid module_id format: "; Fmt module_id]
                 "$.module_id") in
  abbr <- py_get data "module_abbr" (JStr "") ;;
  m2 <- re_match MODULE_ABBR_PATTERN abbr ;;
  let i2 := when (negb m2)
              (mkIssue "E013" ERROR
                 [Txt "Invalid module_abbr format: "; Fmt abbr]
                 "$.module_abbr") in
  mtype <- py_get data "module_type" (JStr "") ;;
  ok3 <- py_in_strings mtype VALID_MODULE_TYPES ;;
  let i3 := when (negb ok3)
              (mkIssue "E013" ERROR
                 [Txt "Invalid module_type: "; Fmt mtype]
                 "$.module_type") in
  version <- py_get data "version" (JStr "") ;;
  m4 <- re_match SEMVER_PATTERN version ;;
  let i4 := when (negb m4)
              (mkIssue "E013" ERROR
                 [Txt "Invalid version format: "; Fmt version]
                 "$.version") in
  mname <- py_get data "module_name" (JObj []) ;;
  bad <- (if negb (isinstance_dict mname) then Ok true
          else
            uk <- py_in "uk" mname ;;
            if negb uk then Ok true
            else en <- py_in "en" mname ;; Ok (negb en)) ;;
  let i5 := when bad
              (mkIssue "E014" ERROR
                 [Txt "module_name must have 'uk' and 'en' keys"]
                 "$.module_name") in
  Ok (i1 ++ i2 ++ i3 ++ i4 ++ i5).

(** The body of [for name, param in params.items()]. *)
Definition check_parameter (entry : string * json) : result (list LintIssue) :=
  let (name, param) := entry in
  if negb (isinstance_dict param) then
    Ok [mkIssue "E020" ERROR
          [Txt "Parameter "; Fmt (JStr name); Txt " must be an object"]
          ("$.parameters." ++ name)]
  else
    has_type <- py_in "type" param ;;
    let i1 := when (negb has_type)
                (mkIssue "E020" ERROR
                   [Txt "Parameter "; Fmt (JStr name); Txt " missing 'type'"]
                   ("$.parameters." ++ name ++ ".type")) in
    has_unit <- py_in "unit" param ;;
    let i2 := when (negb has_unit)
                (mkIssue "E020" ERROR
                   [Txt "Parameter "; Fmt (JStr name); Txt " missing 'unit'"]
                   ("$.parameters." ++ name ++ ".unit")) in
    has_description <- py_in "description" param ;;
    let i3 := when (negb has_description)
                (mkIssue "E020" ERROR
                   [Txt "Parameter "; Fmt (JStr name);
                    Txt " missing 'description'"]
                   ("$.parameters." ++ name ++ ".description")) in
    ptype <- py_get param "type" (JStr "") ;;
    valid <- py_in_strings ptype VALID_PARAM_TYPES ;;
    let i4 := when (negb valid)
                (mkIssue "E021" ERROR
                   [Txt "Parameter "; Fmt (JStr name);
                    Txt " has invalid type: "; Fmt ptype]
                   ("$.parameters." ++ name ++ ".type")) in
    no_enum <- (if eq_str ptype "enum"
                then has_enum <- py_in "enum" param ;; Ok (negb has_enum)
                else Ok false) ;;
    let i5 := when no_enum
                (mkIssue "E021" ERROR
                   [Txt "Parameter "; Fmt (JStr name);
                    Txt " with type 'enum' must have 'enum' array"]
                   ("$.parameters." ++ name ++ ".enum")) in
    Ok (i1 ++ i2 ++ i3 ++ i4 ++ i5).

(** [for group_params in groups.values(): ...update(group_params)] *)
Fixpoint collect_groups (grouped : pyset) (vals : list json) : result pyset :=
  match vals with
  | [] => Ok grouped
  | group_params :: r =>
      grouped' <- match group_params with
                  | JArr l => set_update grouped l
                  | _ => Ok grouped
                  end ;;
      collect_groups grouped' r
  end.

Definition _check_parameters (data : json) : result (list LintIssue) :=
  params <- py_get data "parameters" (JObj []) ;;
  match params with
  | JObj ((_ :: _) as items) =>
      i1 <- for_each check_parameter items ;;
      groups <- py_get data "parameter_groups" (JObj []) ;;
      vals <- py_values groups ;;
      grouped_params <- collect_groups [] vals ;;
      i2 <- for_each (fun pname =>
              grouped <- py_in_set (JStr pname) grouped_params ;;
              Ok (when (negb grouped)
                    (mkIssue "W020" WARNING
                       [Txt "Parameter "; Fmt (JStr pname);
                        Txt " not in any parameter_group"]
                       ("$.parameters." ++ pname))))
              (map fst items) ;;
      Ok (i1 ++ i2)
  | _ =>
      Ok [mkIssue "E020" ERROR [Txt "parameters must be a non-empty object"]
            "$.parameters"]
  end.

(** The body of [for i, c in enumerate(constraints)]. *)
Definition check_constraint (error_codes_defined : pyset) (ic : nat * json)
  : result (list LintIssue) :=
  let (i, c) := ic in
  if negb (isinstance_dict c) then
    Ok [mkIssue "E030" ERROR
          [Txt "Constraint ["; idx i; Txt "] must be an object"]
          ("$.constraints[" ++ dec i ++ "]")]
  else
    has_expr <- py_in "expr" c ;;
    let i1 := when (negb has_expr)
                (mkIssue "E030" ERROR
                   [Txt "Constraint ["; idx i; Txt "] missing 'expr'"]
                   ("$.constraints[" ++ dec i ++ "].expr")) in
    ec <- py_get c "error_code" (JStr "") ;;
    i2 <- (if negb (truthy ec) then
             Ok [mkIssue "E030" ERROR
                   [Txt "Constraint ["; idx i; Txt "] missing 'error_code'"]
                   ("$.constraints[" ++ dec i ++ "].error_code")]
           else
             m <- re_match ERROR_CODE_PATTERN ec ;;
             if negb m then
               Ok [mkIssue "E030" ERROR
                     [Txt "Constraint ["; idx i;
                      Txt "] error_code must match E### format"]
                     ("$.constraints[" ++ dec i ++ "].error_code")]
             else
               defined <- py_in_set ec error_codes_defined ;;
               Ok (when (negb defined)
                     (mkIssue "E031" ERROR
                        [Txt "Constraint error_code "; Fmt ec;
                         Txt " not defined in error_codes"]
                        ("$.constraints[" ++ dec i ++ "].error_code")))) ;;
    Ok (i1 ++ i2).

Definition _check_constraints (data : json) : result (list LintIssue) :=
  constraints <- py_get data "constraints" (JArr []) ;;
  match constraints with
  | JArr ((_ :: _) as l) =>
      error_codes <- py_get data "error_codes" (JArr []) ;;
      error_codes_defined <- set_comprehension "code" error_codes ;;
      for_each (check_constraint error_codes_defined) (enumerate l)
  | _ =>
      Ok [mkIssue "E030" ERROR [Txt "constraints must be a non-empty array"]
            "$.constraints"]
  end.

(** The body of [for i, rule in enumerate(rules)]. *)
Definition check_rule (error_codes_defined : pyset) (ir : nat * json)
  : result (list LintIssue) :=
  let (i, rule) := ir in
  if negb (isinstance_dict rule) then Ok []
  else
    i1 <- for_each (fun field =>
            present <- py_in field rule ;;
            Ok (when (negb present)
                  (mkIssue "E040" ERROR
                     [Txt "Validation rule ["; idx i; Txt "] missing '";
                      Fmt (JStr field); Txt "'"]
                     ("$.validation.rules[" ++ dec i ++ "]." ++ field))))
            ["name"; "condition"; "severity"; "message"; "error_code"] ;;
    sev <- py_get rule "severity" JNull ;;
    let i2 := when (negb (eq_str sev "warning"))
                (mkIssue "E040" ERROR
                   [Txt "Validation rule ["; idx i;
                    Txt "] severity must be 'warning'"]
                   ("$.validation.rules[" ++ dec i ++ "].severity")) in
    ec <- py_get rule "error_code" (JStr "") ;;
    i3 <- (if truthy ec then
             m <- re_match WARNING_CODE_PATTERN ec ;;
             if negb m then
               Ok [mkIssue "E040" ERROR
                     [Txt "Validation rule ["; idx i;
                      Txt "] error_code must match W### format"]
                     ("$.validation.rules[" ++ dec i ++ "].error_code")]
             else
               defined <- py_in_set ec error_codes_defined ;;
               Ok (when (negb defined)
                     (mkIssue "E041" ERROR
                        [Txt "Validation warning code "; Fmt ec;
                         Txt " not defined in error_codes"]
                        ("$.validation.rules[" ++ dec i ++ "].error_code")))
           else Ok []) ;;
    Ok (i1 ++ i2 ++ i3).

Definition _check_validation_rules (data : json) : result (list LintIssue) :=
  validation <- py_get data "validation" (JObj []) ;;
  rules <- py_get validation "rules" (JArr []) ;;
  match rules with
  | JArr l =>
      error_codes <- py_get data "error_codes" (JArr []) ;;
      error_codes_defined <- set_comprehension "code" error_codes ;;
      for_each (check_rule error_codes_defined) (enumerate l)
  | _ =>
      Ok [mkIssue "E040" ERROR [Txt "validation.rules must be an array"]
            "$.validation.rules"]
  end.

(** [s.startswith(p)]: a method of strings only. *)
Definition startswith (v : json) (p : string) : result bool :=
  match v with
  | JStr s => Ok (prefix_of p s)
  | _ => Raise AttributeError
  end.

(** The body of [for i, ec in enumerate(error_codes)], with [seen_codes]. *)
Definition check_error_code (seen_codes : pyset) (iec : nat * json)
  : result (pyset * list LintIssue) :=
  let (i, ec) := iec in
  if negb (isinstance_dict ec) then Ok (seen_codes, [])
  else
    code <- py_get ec "code" (JStr "") ;;
    level <- py_get ec "level" (JStr "") ;;
    i1 <- for_each (fun field =>
            present <- py_in field ec ;;
            Ok (when (negb present)
                  (mkIssue "E050" ERROR
                     [Txt "Error code ["; idx i; Txt "] missing '";
                      Fmt (JStr field); Txt "'"]
                     ("$.error_codes[" ++ dec i ++ "]." ++ field))))
            ["code"; "level"; "title"; "message"] ;;
    bad_format <- (if truthy code then
                     e <- re_match ERROR_CODE_PATTERN code ;;
                     if e then Ok false
                     else w <- re_match WARNING_CODE_PATTERN code ;;
                          Ok (negb w)
                   else Ok false) ;;
    let i2 := when bad_format
                (mkIssue "E050" ERROR
                   [Txt "Error code ["; idx i;
                    Txt "] code must match E### or W### format"]
                   ("$.error_codes[" ++ dec i ++ "].code")) in
    is_e <- startswith code "E" ;;
    let i3 := when (is_e && negb (eq_str level "error"))
                (mkIssue "E050" ERROR
                   [Txt "Error code "; Fmt code;
                    Txt " must have level 'error'"]
                   ("$.error_codes[" ++ dec i ++ "].level")) in
    is_w <- startswith code "W" ;;
    let i4 := when (is_w && negb (eq_str level "warning"))
                (mkIssue "E050" ERROR
                   [Txt "Warning code "; Fmt code;
                    Txt " must have level 'warning'"]
                   ("$.error_codes[" ++ dec i ++ "].level")) in
    seen <- py_in_set code seen_codes ;;
    let i5 := when seen
                (mkIssue "E051" ERROR
                   [Txt "Duplicate error code: "; Fmt code]
                   ("$.error_codes[" ++ dec i ++ "].code")) in
    seen_codes' <- set_add code seen_codes ;;
    Ok (seen_codes', i1 ++ i2 ++ i3 ++ i4 ++ i5).

Definition _check_error_codes (data : json) : result (list LintIssue) :=
  error_codes <- py_get data "error_codes" (JArr []) ;;
  match error_codes with
  | JArr ((_ :: _) as l) =>
      ' (_, issues) <- for_state check_error_code [] (enumerate l) ;;
      Ok issues
  | _ =>
      Ok [mkIssue "E050" ERROR [Txt "error_codes must be a non-empty array"]
            "$.error_codes"]
  end.

(** [for artifact in uses: if artifact not in available and artifact not
    in produced: ...] *)
Definition check_uses (available produced : pyset) (i : nat) (artifact : json)
  : result (list LintIssue) :=
  a <- py_in_set artifact available ;;
  missing <- (if negb a then p <- py_in_set artifact produced ;; Ok (negb p)
              else Ok false) ;;
  Ok (when missing
        (mkIssue "E061" ERROR
           [Txt "Step ["; idx i; Txt "] uses unknown artifact: "; Fmt artifact]
           ("$.algorithm.steps[" ++ dec i ++ "].uses"))).

(** The body of [for i, step in enumerate(steps)], with [produced]. *)
Definition check_step (available : pyset) (produced : pyset)
  (istep : nat * json) : result (pyset * list LintIssue) :=
  let (i, step) := istep in
  if negb (isinstance_dict step) then Ok (produced, [])
  else
    i1 <- for_each (fun field =>
            present <- py_in field step ;;
            Ok (when (negb present)
                  (mkIssue "E063" ERROR
                     [Txt "Step ["; idx i; Txt "] missing '";
                      Fmt (JStr field); Txt "'"]
                     ("$.algorithm.steps[" ++ dec i ++ "]." ++ field))))
            ["id"; "name"; "type"; "uses"; "produces"; "description"] ;;
    sid <- py_get step "id" (JStr "") ;;
    i2 <- (if truthy sid then
             m <- re_match STEP_ID_PATTERN sid ;;
             Ok (when (negb m)
                   (mkIssue "E063" ERROR
                      [Txt "Step ["; idx i; Txt "] id must match S### format"]
                      ("$.algorithm.steps[" ++ dec i ++ "].id")))
           else Ok []) ;;
    stype <- py_get step "type" (JStr "") ;;
    i3 <- (if truthy stype then
             valid <- py_in_strings stype VALID_STEP_TYPES ;;
             Ok (when (negb valid)
                   (mkIssue "E063" ERROR
                      [Txt "Step ["; idx i; Txt "] invalid type: "; Fmt stype]
                      ("$.algorithm.steps[" ++ dec i ++ "].type")))
           else Ok []) ;;
    uses <- py_get step "uses" (JArr []) ;;
    uses_l <- py_iter uses ;;
    i4 <- for_each (check_uses available produced i) uses_l ;;
    produces <- py_get step "produces" (JArr []) ;;
    produces_l <- py_iter produces ;;
    produced' <- set_update produced produces_l ;;
    Ok (produced', i1 ++ i2 ++ i3 ++ i4).

(** [{x.get("artifact_id") for x in
      data.get("io_contract", {}).get(direction, [])}] *)
Definition declared_artifacts (direction : string) (data : json)
  : result pyset :=
  io <- py_get data "io_contract" (JObj []) ;;
  declared <- py_get io direction (JArr []) ;;
  set_comprehension "artifact_id" declared.

(** [set(data.get("parameters", {}).keys())] *)
Definition parameter_names (data : json) : result pyset :=
  parameters <- py_get data "parameters" (JObj []) ;;
  names <- py_keys parameters ;;
  set_update [] (map JStr names).

Definition _check_algorithm (data : json) : result (list LintIssue) :=
  algorithm <- py_get data "algorithm" (JObj []) ;;
  if negb (isinstance_dict algorithm) then
    Ok [mkIssue "E060" ERROR [Txt "algorithm must be an object"]
          "$.algorithm"]
  else
    steps <- py_get algorithm "steps" (JArr []) ;;
    registry <- py_get algorithm "artifact_registry" (JArr []) ;;
    if negb (truthy steps) then
      Ok [mkIssue "E060" ERROR [Txt "algorithm.steps must be non-empty"]
            "$.algorithm.steps"]
    else
      inputs <- declared_artifacts "inputs" data ;;
      params <- parameter_names data ;;
      let available := set_union inputs params in
      steps_l <- py_iter steps ;;
      ' (produced, i1) <-
          for_state (check_step available) [] (enumerate steps_l) ;;
      outputs <- declared_artifacts "outputs" data ;;
      i2 <- for_each (fun out =>
              p <- py_in_set out produced ;;
              Ok (when (negb p)
                    (mkIssue "E062" ERROR
                       [Txt "Output "; Fmt out;
                        Txt " not produced by any step"]
                       "$.io_contract.outputs")))
              outputs ;;
      registry_ids <- set_comprehension "artifact_id" registry ;;
      i3 <- for_each (fun out =>
              r <- py_in_set out registry_ids ;;
              Ok (when (negb r)
                    (mkIssue "E070" ERROR
                       [Txt "Output "; Fmt out;
                        Txt " not in artifact_registry"]
                       "$.algorithm.artifact_registry")))
              outputs ;;
      Ok (i1 ++ i2 ++ i3).

(** The body of [for i, art in enumerate(artifacts)] for one direction. *)
Definition check_artifact (direction : string) (iart : nat * json)
  : result (list LintIssue) :=
  let (i, art) := iart in
  i1 <- for_each (fun field =>
          present <- py_in field art ;;
          Ok (when (negb present)
                (mkIssue "E015" ERROR
                   [Txt "io_contract."; Fmt (JStr direction); Txt "["; idx i;
                    Txt "] missing '"; Fmt (JStr field); Txt "'"]
                   ("$.io_contract." ++ direction ++ "[" ++ dec i ++ "]."
                    ++ field))))
          ["artifact_id"; "type"; "scope"] ;;
  i2 <- (if direction =? "outputs" then
           scope <- py_get art "scope" JNull ;;
           if negb (eq_str scope "public") then
             id <- py_get art "artifact_id" JNull ;;
             Ok [mkIssue "E071" ERROR
                   [Txt "Output "; Fmt id; Txt " must have scope 'public'"]
                   ("$.io_contract.outputs[" ++ dec i ++ "].scope")]
           else Ok []
         else Ok []) ;;
  Ok (i1 ++ i2).

Definition _check_io_contract (data : json) : result (list LintIssue) :=
  io <- py_get data "io_contract" (JObj []) ;;
  if negb (isinstance_dict io) then
    Ok [mkIssue "E015" ERROR [Txt "io_contract must be an object"]
          "$.io_contract"]
  else
    for_each (fun direction =>
      artifacts <- py_get io direction (JArr []) ;;
      match artifacts with
      | JArr ((_ :: _) as l) =>
          for_each (check_artifact direction) (enumerate l)
      | _ =>
          Ok [mkIssue "E015" ERROR
                [Txt "io_contract."; Fmt (JStr direction);
                 Txt " must be non-empty array"]
                ("$.io_contract." ++ direction)]
      end)
      ["inputs"; "outputs"].

(** The body of [for i, tc in enumerate(tests)], with [types_found]. *)
Definition check_test_case (types_found : pyset) (itc : nat * json)
  : result (pyset * list LintIssue) :=
  let (i, tc) := itc in
  if negb (isinstance_dict tc) then Ok (types_found, [])
  else
    i1 <- for_each (fun field =>
            present <- py_in field tc ;;
            Ok (when (negb present)
                  (mkIssue "E080" ERROR
                     [Txt "Test case ["; idx i; Txt "] missing '";
                      Fmt (JStr field); Txt "'"]
                     ("$.test_cases[" ++ dec i ++ "]." ++ field))))
            ["id"; "type"; "name"; "input"; "expected"] ;;
    ttype <- py_get tc "type" (JStr "") ;;
    valid <- py_in_strings ttype VALID_TEST_TYPES ;;
    let i2 := when (negb valid)
                (mkIssue "E080" ERROR
                   [Txt "Test case ["; idx i; Txt "] invalid type: ";
                    Fmt ttype]
                   ("$.test_cases[" ++ dec i ++ "].type")) in
    types_found' <- set_add ttype types_found ;;
    Ok (types_found', i1 ++ i2).

Definition _check_test_cases (data : json) : result (list LintIssue) :=
  tests <- py_get data "test_cases" (JArr []) ;;
  match tests with
  | JArr ((_ :: _ :: _ :: _) as l) =>
      ' (types_found, i1) <- for_state check_test_case [] (enumerate l) ;;
      let i2 := when (negb (set_mem (JStr "positive") types_found))
                  (mkIssue "E080" ERROR
                     [Txt "test_cases must include at least one 'positive' case"]
                     "$.test_cases") in
      let i3 := when (negb (set_mem (JStr "negative") types_found))
                  (mkIssue "E080" ERROR
                     [Txt "test_cases must include at least one 'negative' case"]
                     "$.test_cases") in
      let i4 := when (negb (set_mem (JStr "warning") types_found))
                  (mkIssue "W081" WARNING
                     [Txt "test_cases should include a 'warning' case"]
                     "$.test_cases") in
      Ok (i1 ++ i2 ++ i3 ++ i4)
  | _ =>
      Ok [mkIssue "E080" ERROR [Txt "test_cases must have at least 3 cases"]
            "$.test_cases"]
  end.

Definition _check_policies (data : json) : result (list LintIssue) :=
  policies <- py_get data "policies" (JObj []) ;;
  if negb (isinstance_dict policies) then
    Ok [mkIssue "E016" ERROR [Txt "policies must be an object"] "$.policies"]
  else
    i1 <- for_each (fun field =>
            present <- py_in field policies ;;
            Ok (when (negb present)
                  (mkIssue "E016" ERROR
                     [Txt "policies missing '"; Fmt (JStr field); Txt "'"]
                     ("$.policies." ++ field))))
            ["unit_policy"; "constraints_dsl"; "glossary_policy";
             "i18n_policy"] ;;
    unit_policy <- py_get policies "unit_policy" JNull ;;
    let i2 := when (negb (eq_str unit_policy "strict"))
                (mkIssue "E016" ERROR
                   [Txt "policies.unit_policy must be 'strict'"]
                   "$.policies.unit_policy") in
    Ok (i1 ++ i2).

Definition _check_relations (data : json) : result (list LintIssue) :=
  relations <- py_get data "relations" (JObj []) ;;
  match relations with
  | JObj m =>
      for_each (fun field =>
        match lookup field m with
        | None =>
            Ok [mkIssue "E017" ERROR
                  [Txt "relations missing '"; Fmt (JStr field); Txt "'"]
                  ("$.relations." ++ field)]
        | Some v =>
            Ok (when (negb (isinstance_list v))
                  (mkIssue "E017" ERROR
                     [Txt "relations."; Fmt (JStr field);
                      Txt " must be an array"]
                     ("$.relations." ++ field)))
        end)
        ["depends_on"; "influences"; "conflicts_with"]
  | _ =>
      Ok [mkIssue "E017" ERROR [Txt "relations must be an object"]
            "$.relations"]
  end.

(** [if self.glossary:] and [not self.glossary] *)
Definition glossary_truthy (g : option json) : bool :=
  match g with
  | Some j => truthy j
  | None => false
  end.

(** [data.get("policies", {}).get("glossary_policy", "off")] *)
Definition glossary_policy_of (data : json) : result json :=
  policies <- py_get data "policies" (JObj []) ;;
  py_get policies "glossary_policy" (JStr "off").

(** [set(glossary.get("terms", {}).keys())] *)
Definition glossary_terms_of (g : json) : result pyset :=
  terms <- py_get g "terms" (JObj []) ;;
  keys <- py_keys terms ;;
  set_update [] (map JStr keys).

Definition _check_glossary_coverage (self : validator) (data : json)
  : result (list LintIssue) :=
  policy <- glossary_policy_of data ;;
  if eq_str policy "off" || negb (glossary_truthy (glossary self)) then Ok []
  else
    match glossary self with
    | None => Raise AttributeError
    | Some g =>
        glossary_terms <- glossary_terms_of g ;;
        abbr <- py_get data "module_abbr" (JStr "") ;;
        absent <- (if truthy abbr
                   then t <- py_in_set abbr glossary_terms ;; Ok (negb t)
                   else Ok false) ;;
        let strict := eq_str policy "strict" in
        Ok (when absent
              (mkIssue (if strict then "E100" else "W101")
                 (if strict then ERROR else WARNING)
                 [Txt "module_abbr '"; Fmt abbr; Txt "' not in glossary"]
                 "$.module_abbr"))
    end.

(** [if self.glossary: issues.extend(self._check_glossary_coverage(data))] *)
Definition glossary_step (self : validator) (data : json)
  : result (list LintIssue) :=
  if glossary_truthy (glossary self)
  then _check_glossary_coverage self data
  else Ok [].

(** The findings of all checks, in the order [validate_contract] runs
    them. *)
Definition run_checks (self : validator) (data : json)
  : result (list LintIssue) :=
  c1 <- _check_required_fields data ;;
  c2 <- _check_schema_block data ;;
  c3 <- _check_module_identity data ;;
  c4 <- _check_parameters data ;;
  c5 <- _check_constraints data ;;
  c6 <- _check_validation_rules data ;;
  c7 <- _check_error_codes data ;;
  c8 <- _check_algorithm data ;;
  c9 <- _check_io_contract data ;;
  c10 <- _check_test_cases data ;;
  c11 <- _check_policies data ;;
  c12 <- _check_relations data ;;
  c13 <- glossary_step self data ;;
  Ok (c1 ++ c2 ++ c3 ++ c4 ++ c5 ++ c6 ++ c7 ++ c8 ++ c9 ++ c10 ++ c11
      ++ c12 ++ c13).

Definition is_error (i : LintIssue) : bool := Severity_eqb (severity i) ERROR.
Definition is_warning (i : LintIssue) : bool :=
  Severity_eqb (severity i) WARNING.

(** The tail of [validate_contract]: separate errors and warnings,
    calculate the score, build the result. *)
Definition build_result (path : string) (issues : list LintIssue)
  : LintResult :=
  let errors := filter is_error issues in
  let warnings := filter is_warning issues in
  let score := _calculate_score errors warnings in
  let passed := (List.length errors =? 0)%nat in
  mkResult path passed score errors warnings.

Definition validate_contract (self : validator) (fs : filesystem)
  (path : string) : result LintResult :=
  if negb (exists_ fs path) then Raise ContractLintError
  else
    data <- _load_json fs path ;;
    issues <- run_checks self data ;;
    Ok (build_result path issues).

(** [validate_contract_strict] returns nothing or raises. *)
Definition validate_contract_strict (self : validator) (fs : filesystem)
  (path : string) : result unit :=
  r <- validate_contract self fs path ;;
  if negb (passed r) then Raise ContractLintError else Ok tt.

(** [for p in ...: results.append(self.validate_contract(p))] *)
Fixpoint validate_each (self : validator) (fs : filesystem)
  (results : list LintResult) (paths : list string)
  : result (list LintResult) :=
  match paths with
  | [] => Ok results
  | p :: rest =>
      r <- validate_contract self fs p ;;
      validate_each self fs (results ++ [r]) rest
  end.

(** [found] stands for what
    [sorted(contracts_root.rglob("*_contract_stageA*.json"))] yields. *)
Definition validate_directory (self : validator) (fs : filesystem)
  (found : list string) (contracts_root : string)
  : result (list LintResult) :=
  if negb (exists_ fs contracts_root) then Raise ContractLintError
  else validate_each self fs [] found.

End ContractLintValidator.

Import ContractLintValidator.

(** ** The batch validator

    [stageA/tools/batch_validator.py].  Paths are [pathlib] objects; what the
    script asks of them is taken as given: the final component [p.name],
    whether [p.relative_to(d)] succeeds, and [str(p)].  The import of the
    validator class is taken to succeed.  Console output and the writing of
    the report files are left out, and so are the summary entries computed
    from the clock or by number formatting. *)

Module BatchValidator.

(** [s.endswith(p)] *)
Fixpoint endswith (s p : string) : bool :=
  (s =? p) ||
  match s with
  | EmptyString => false
  | String _ s' => endswith s' p
  end.

Section Paths.

Variable Path : Type.
Variable name : Path -> string.
Variable relative_to : Path -> Path -> bool.
Variable str : Path -> string.

Definition _is_contract_file (p : Path) : bool :=
  let name := name p in
  if existsb (fun x => prefix_of x name)
       ["katalog_"; "glossary_"; "contract_schema_"]
  then false
  else if existsb (endswith name)
            ["_lint.json"; "_report.json"; "summary.json"]
  then false
  else substring_of "_contract_stageA" name || endswith name "_contract.json".

(** The loop of [_find_contracts] over [found], which stands for
    [sorted(root.rglob("*.json"))]. *)
Fixpoint find_loop (exclude_dir : option Path) (contracts : list Path)
  (found : list Path) : list Path :=
  match found with
  | [] => contracts
  | p :: rest =>
      let excluded := match exclude_dir with
                      | Some d => relative_to p d
                      | None => false
                      end in
      if excluded then find_loop exclude_dir contracts rest
      else if _is_contract_file p
           then find_loop exclude_dir (contracts ++ [p]) rest
           else find_loop exclude_dir contracts rest
  end.

Definition _find_contracts (found : list Path) (exclude_dir : option Path)
  : list Path :=
  find_loop exclude_dir [] found.

(** The command line after parsing; an option that is absent or empty is
    [None]. *)
Record arguments : Type := mkArguments {
  contracts_root : Path;
  schema_arg : option Path;
  glossary_arg : option Path;
  out : Path;
  strict : bool;
  verbose : bool
}.

(** An entry of [results]: [result.to_dict()] of a validation, or the
    entry written for a contract on which validation raised. *)
Inductive report : Type :=
| Validated (r : LintResult)
| Fatal (file_path : string).

(** The local variables of the validation loop. *)
Record counts : Type := mkCounts {
  results : list report;
  passed_count : nat;
  failed_count : nat;
  failed_files : list string
}.

(** The body of [for contract_path in contracts], with its [try]. *)
Definition validate_one (validator : ContractLintValidator.validator)
  (fs : filesystem) (c : counts) (contract_path : Path) : counts :=
  match validate_contract validator fs (str contract_path) with
  | Ok result =>
      if passed result
      then mkCounts (results c ++ [Validated result])
             (passed_count c + 1) (failed_count c) (failed_files c)
      else mkCounts (results c ++ [Validated result])
             (passed_count c) (failed_count c + 1)
             (failed_files c ++ [str contract_path])
  | Raise _ =>
      mkCounts (results c ++ [Fatal (str contract_path)])
        (passed_count c) (failed_count c + 1)
        (failed_files c ++ [str contract_path])
  end.

(** What [summary.json] holds of the run. *)
Record summary : Type := mkSummary {
  total : nat;
  total_passed : nat;
  total_failed : nat;
  summary_failed_files : list string;
  summary_results : list report
}.

(** [main]: the exit code, and the summary when one is written.
    [is_dir] answers [contracts_root.is_dir()], [default_schema] is the
    schema of the repository, [found] stands for
    [sorted(contracts_root.rglob("*.json"))]. *)
Definition main (fs : filesystem) (is_dir : Path -> bool)
  (default_schema : Path) (found : list Path) (args : arguments)
  : result (Z * option summary) :=
  let contracts_root := contracts_root args in
  let out_dir := out args in
  if negb (exists_ fs (str contracts_root)) || negb (is_dir contracts_root)
  then Ok (2%Z, None)
  else
    let schema_path := match schema_arg args with
                       | Some s => s
                       | None => default_schema
                       end in
    if negb (exists_ fs (str schema_path)) then Ok (2%Z, None)
    else
      let glossary_path :=
        match glossary_arg args with
        | Some gp => if exists_ fs (str gp) then Some gp else None
        | None => None
        end in
      validator <- __init__ fs (str schema_path)
                     (option_map str glossary_path) (strict args) ;;
      let contracts := _find_contracts found (Some out_dir) in
      match contracts with
      | [] => Ok (0%Z, Some (mkSummary 0 0 0 [] []))
      | _ :: _ =>
          let c := fold_left (validate_one validator fs) contracts
                     (mkCounts [] 0 0 []) in
          Ok (if (failed_count c =? 0)%nat then 0%Z else 1%Z,
              Some (mkSummary (List.length contracts) (passed_count c)
                      (failed_count c) (failed_files c) (results c)))
      end.

End Paths.

End BatchValidator.

(** ** The Stage B runner

    [run_stageB.py].  A subprocess changes the world and returns a code;
    [subprocess_run] stands for [subprocess.run] with the repository root as
    working directory, and [executable] for [sys.executable].  Console
    output is left out. *)

Module RunStageB.

Section Commands.

Variable World : Type.
Variable executable : string.
Variable subprocess_run : list string -> bool -> World -> Z * World.

Definition run_command (cmd : list string) (description : string)
  (verbose : bool) (w : World) : bool * World :=
  let (returncode, w') := subprocess_run cmd (negb verbose) w in
  ((returncode =? 0)%Z, w').

Definition generate_command : list string :=
  [executable; "-m"; "stageB.generator.generate_module"; "--all"].

Definition test_command (verbose : bool) : list string :=
  let verbosity := if verbose then "-v" else "-q" in
  [executable; "-m"; "unittest"; "discover"; "-s"; "stageB/tests";
   "-p"; "test_*.py"; verbosity].

Definition main (verbose generate_only test_only : bool) (w : World)
  : Z * World :=
  let (results1, w1) :=
    if negb test_only then
      let (ok, w') := run_command generate_command
                        "Generating *_autogen.* from contracts" verbose w in
      ([ok], w')
    else ([], w) in
  let (results2, w2) :=
    if negb generate_only then
      let (ok, w') := run_command (test_command verbose)
                        "Running B-Gate tests" verbose w1 in
      (results1 ++ [ok], w')
    else (results1, w1) in
  (if forallb (fun b => b) results2 then 0%Z else 1%Z, w2).

End Commands.

End RunStageB.

(** * Vocabulary of the properties *)

(** ** Failure classes *)

(** A computation that does not raise the load error. *)
Definition no_load_error {A} (c : result A) : Prop :=
  c <> Raise ContractLintError.

(** ** Score *)

(** The numbers of error and of warning findings in a list. *)
Definition error_count (issues : list LintIssue) : Z :=
  Z.of_nat (List.length (filter is_error issues)).

Definition warning_count (issues : list LintIssue) : Z :=
  Z.of_nat (List.length (filter is_warning issues)).

(** The score of a list of findings, as [validate_contract] computes it. *)
Definition score_of (issues : list LintIssue) : Z :=
  score (build_result "" issues).

(** ** Error-code registry *)

(** The code of a registry entry as [_check_error_codes] reads it; entries
    that are not objects are skipped. *)
Definition entry_code (e : json) : option json :=
  match e with
  | JObj m => Some (match lookup "code" m with Some v => v | None => JStr "" end)
  | _ => None
  end.

(** [c] is the code of one of the entries [earlier]. *)
Definition appeared (c : json) (earlier : list json) : bool :=
  existsb (fun e => match entry_code e with
                    | Some c' => atom_eqb c c'
                    | None => false
                    end) earlier.

(** The finding of [_check_error_codes] for a repeated code [c] at entry
    [i]. *)
Definition duplicate_finding (i : nat) (c : json) : LintIssue :=
  mkIssue "E051" ERROR [Txt "Duplicate error code: "; Fmt c]
    ("$.error_codes[" ++ dec i ++ "].code").

(** The duplicate-code findings attributed to entry [i]. *)
Definition is_duplicate_finding_at (i : nat) (x : LintIssue) : bool :=
  (code x =? "E051") && (path x =? "$.error_codes[" ++ dec i ++ "].code").

(** ** Data flow *)

(** The artifacts a step lists under [field], as the loops of
    [_check_algorithm] draw them; a step that is not an object is skipped. *)
Definition step_list (field : string) (step : json) : list json :=
  match step with
  | JObj m =>
      match py_iter (match lookup field m with
                     | Some v => v
                     | None => JArr []
                     end) with
      | Ok l => l
      | Raise _ => []
      end
  | _ => []
  end.

(** Everything the steps [steps] produce. *)
Definition produced_by (steps : list json) : list json :=
  flat_map (step_list "produces") steps.

(** The finding of [_check_algorithm] for step [i] using the unknown
    artifact [a]. *)
Definition dataflow_finding (i : nat) (a : json) : LintIssue :=
  mkIssue "E061" ERROR
    [Txt "Step ["; idx i; Txt "] uses unknown artifact: "; Fmt a]
    ("$.algorithm.steps[" ++ dec i ++ "].uses").

(** The data-flow findings of step [i]. *)
Definition is_dataflow_finding_at (i : nat) (x : LintIssue) : bool :=
  (code x =? "E061") && (path x =? "$.algorithm.steps[" ++ dec i ++ "].uses").

(** The findings of [_check_algorithm] for an output that no step
    produces, and for an output that the registry lacks. *)
Definition undeclared_producer_finding (out : json) : LintIssue :=
  mkIssue "E062" ERROR
    [Txt "Output "; Fmt out; Txt " not produced by any step"]
    "$.io_contract.outputs".

Definition unregistered_finding (out : json) : LintIssue :=
  mkIssue "E070" ERROR
    [Txt "Output "; Fmt out; Txt " not in artifact_registry"]
    "$.algorithm.artifact_registry".

(** [{r.get("artifact_id") for r in algorithm.get("artifact_registry", [])}] *)
Definition registered_artifacts (algorithm : json) : result pyset :=
  registry <- py_get algorithm "artifact_registry" (JArr []) ;;
  set_comprehension "artifact_id" registry.

(** Not an input, not a parameter, not produced by one of [earlier]. *)
Definition unavailable (inputs params : pyset) (earlier : list json)
  (a : json) : bool :=
  negb (set_mem a inputs) && negb (set_mem a params) &&
  negb (set_mem a (produced_by earlier)).

(** [x] occurs in [l] at one position and nowhere else. *)
Definition exactly_once {A} (x : A) (l : list A) : Prop :=
  exists l1 l2, l = l1 ++ x :: l2 /\ ~ In x l1 /\ ~ In x l2.

(** C1 as the specification words it: one finding for a step and an
    unavailable artifact of its [uses] list. *)
Definition dataflow_claim_as_stated : Prop :=
  forall (data algorithm : json) (steps : list json)
    (issues : list LintIssue) (i : nat) (step : json)
    (inputs params : pyset) (a : json),
  _check_algorithm data = Ok issues ->
  py_get data "algorithm" (JObj []) = Ok algorithm ->
  py_get algorithm "steps" (JArr []) = Ok (JArr steps) ->
  nth_error steps i = Some step ->
  declared_artifacts "inputs" data = Ok inputs ->
  parameter_names data = Ok params ->
  In a (step_list "uses" step) ->
  unavailable inputs params (firstn i steps) a = true ->
  exactly_once (dataflow_finding i a) issues.

(** [x] has one of the two codes of the step loop. *)
Definition step_code (x : LintIssue) : Prop :=
  code x = "E063" \/ code x = "E061".

(** The message of [x] interpolates the artifact [out]. *)
Definition names_artifact (out : json) (x : LintIssue) : Prop :=
  In (Fmt out) (message x).

(** C6 as the specification words it: an output that no step produces gets
    an error finding naming it, whatever the step list is. *)
Definition outputs_claim_as_stated : Prop :=
  forall (data algorithm steps_v : json) (steps : list json)
    (issues : list LintIssue) (outputs : pyset) (out : json),
  _check_algorithm data = Ok issues ->
  py_get data "algorithm" (JObj []) = Ok algorithm ->
  py_get algorithm "steps" (JArr []) = Ok steps_v ->
  py_iter steps_v = Ok steps ->
  declared_artifacts "outputs" data = Ok outputs ->
  In out outputs ->
  set_mem out (produced_by steps) = false ->
  exists x, In x issues /\ severity x = ERROR /\ names_artifact out x.

(** ** Glossary coverage *)

(** The finding of [_check_glossary_coverage] under [policy] for the short
    code [abbr]. *)
Definition glossary_finding (policy abbr : json) : LintIssue :=
  let strict := eq_str policy "strict" in
  mkIssue (if strict then "E100" else "W101")
    (if strict then ERROR else WARNING)
    [Txt "module_abbr '"; Fmt abbr; Txt "' not in glossary"]
    "$.module_abbr".

(** C9 as the specification words it: whenever the check runs and the short
    module code is not a glossary term, a finding of the policy's severity
    is emitted. *)
Definition glossary_claim_as_stated : Prop :=
  forall (self : validator) (data g policy abbr : json) (terms : pyset)
    (issues : list LintIssue),
  glossary self = Some g ->
  truthy g = true ->
  glossary_policy_of data = Ok policy ->
  eq_str policy "off" = false ->
  glossary_terms_of g = Ok terms ->
  py_get data "module_abbr" (JStr "") = Ok abbr ->
  set_mem abbr terms = false ->
  glossary_step self data = Ok issues ->
  exists x, In x issues /\
            severity x = if eq_str policy "strict" then ERROR else WARNING.

(** ** Structural checks *)

(** The first three checks of [validate_contract], in its order. *)
Definition structural_checks (data : json) : result (list LintIssue) :=
  c1 <- _check_required_fields data ;;
  c2 <- _check_schema_block data ;;
  c3 <- _check_module_identity data ;;
  Ok (c1 ++ c2 ++ c3).

(** The [_schema] block the checks look into: an absent block counts as an
    empty one. *)
Definition schema_of (m : list (string * json)) : json :=
  match lookup "_schema" m with
  | Some v => v
  | None => JObj []
  end.

Definition has_names (v : json) : bool :=
  match v with
  | JObj n =>
      match lookup "uk" n, lookup "en" n with
      | Some _, Some _ => true
      | _, _ => false
      end
  | _ => false
  end.

(** The fields of a document object that are missing or malformed, each by
    its dotted path.  An empty timestamp is not listed. *)
Inductive offending (m : list (string * json)) : string -> Prop :=
| missing_required (f : string) :
    In f REQUIRED_FIELDS -> lookup f m = None ->
    offending m ("$." ++ f)
| schema_not_object (v : json) :
    lookup "_schema" m = Some v -> isinstance_dict v = false ->
    offending m "$._schema"
| missing_schema_field (s : list (string * json)) (f : string) :
    schema_of m = JObj s -> In f REQUIRED_SCHEMA_FIELDS ->
    lookup f s = None ->
    offending m ("$._schema." ++ f)
| bad_schema_name (s : list (string * json)) (v : json) :
    schema_of m = JObj s -> lookup "name" s = Some v ->
    eq_str v "A-PRACTICAL.contract" = false ->
    offending m "$._schema.name"
| bad_schema_stage (s : list (string * json)) (v : json) :
    schema_of m = JObj s -> lookup "stage" s = Some v ->
    eq_str v "A.contract_only" = false ->
    offending m "$._schema.stage"
| bad_maturity_stage (s : list (string * json)) (v : json) :
    schema_of m = JObj s -> lookup "maturity_stage" s = Some v ->
    existsb (eq_str v) VALID_MATURITY_STAGES = false ->
    offending m "$._schema.maturity_stage"
| bad_underpainting_intent (s : list (string * json)) (v : json) :
    schema_of m = JObj s -> lookup "underpainting_intent" s = Some v ->
    existsb (eq_str v) VALID_UNDERPAINTING_INTENTS = false ->
    offending m "$._schema.underpainting_intent"
| bad_timestamp (s : list (string * json)) (f t : string) :
    schema_of m = JObj s -> In f ["created_at"; "updated_at"] ->
    lookup f s = Some (JStr t) -> t <> "" -> TIMESTAMP_PATTERN t = false ->
    offending m ("$._schema." ++ f)
| bad_module_id (t : string) :
    lookup "module_id" m = Some (JStr t) -> MODULE_ID_PATTERN t = false ->
    offending m "$.module_id"
| bad_module_abbr (t : string) :
    lookup "module_abbr" m = Some (JStr t) -> MODULE_ABBR_PATTERN t = false ->
    offending m "$.module_abbr"
| bad_module_type (v : json) :
    lookup "module_type" m = Some v ->
    existsb (eq_str v) VALID_MODULE_TYPES = false ->
    offending m "$.module_type"
| bad_version (t : string) :
    lookup "version" m = Some (JStr t) -> SEMVER_PATTERN t = false ->
    offending m "$.version"
| bad_module_name (v : json) :
    lookup "module_name" m = Some v -> has_names v = false ->
    offending m "$.module_name".

(** The error findings at one path. *)
Definition error_at (p : string) (x : LintIssue) : bool :=
  is_error x && (path x =? p).

Definition errors_at (p : string) (issues : list LintIssue) : nat :=
  List.length (filter (error_at p) issues).

(** C8 as the specification words it. *)
Definition structural_claim_as_stated : Prop :=
  forall (m : list (string * json)) (issues : list LintIssue) (p : string),
  structural_checks (JObj m) = Ok issues ->
  offending m p ->
  errors_at p issues = 1%nat.

(** [m.get(k, d)] on an object. *)
Definition field (m : list (string * json)) (k : string) (d : json) : json :=
  match lookup k m with Some v => v | None => d end.

Definition lacks (m : list (string * json)) (k : string) : bool :=
  match lookup k m with Some _ => false | None => true end.

(** The pattern is tried on [v] and does not match. *)
Definition rejects (p : string -> bool) (v : json) : bool :=
  match v with JStr t => negb (p t) | _ => false end.

(** The timestamp [f] of the block [s] is reported. *)
Definition timestamp_reported (s : list (string * json)) (f : string) : bool :=
  truthy (field s f (JStr "")) && rejects TIMESTAMP_PATTERN (field s f (JStr "")).

(** Findings, each under the condition that appends it. *)
Definition collect (gs : list (bool * LintIssue)) : list LintIssue :=
  flat_map (fun g => when (fst g) (snd g)) gs.

Definition count_true (bs : list bool) : nat :=
  List.length (filter (fun b => b) bs).

(** ** Construction and discovery *)

(** The glossary a constructed validator holds: the decoded file when a
    path is given and the file decodes, nothing when no path is given or
    the file is missing. *)
Definition glossary_loaded (fs : filesystem) (glossary_path : option string)
  : option json :=
  match glossary_path with
  | Some g => match fs g with Holds j => Some j | _ => None end
  | None => None
  end.

(** What the batch validator is asked about paths, as in
    [BatchValidator]. *)
Section BatchVocabulary.

Variable Path : Type.
Variable name : Path -> string.
Variable relative_to : Path -> Path -> bool.
Variable str : Path -> string.

(** The paths [_find_contracts] keeps. *)
Definition kept (exclude_dir : option Path) (p : Path) : bool :=
  negb match exclude_dir with
       | Some d => relative_to p d
       | None => false
       end && BatchValidator._is_contract_file Path name p.

(** Validation of [p] fails: it raises or its result did not pass. *)
Definition fails (validator : ContractLintValidator.validator)
  (fs : filesystem) (p : Path) : bool :=
  match validate_contract validator fs (str p) with
  | Ok r => negb (passed r)
  | Raise _ => true
  end.

(** The schema and the glossary a batch run constructs its validator
    from. *)
Definition schema_path_of (default_schema : Path)
  (args : BatchValidator.arguments Path) : Path :=
  match BatchValidator.schema_arg Path args with
  | Some s => s
  | None => default_schema
  end.

Definition glossary_path_of (fs : filesystem)
  (args : BatchValidator.arguments Path) : option Path :=
  match BatchValidator.glossary_arg Path args with
  | Some gp => if exists_ fs (str gp) then Some gp else None
  | None => None
  end.

(** The run stops with code 2 before anything is validated. *)
Definition unusable (fs : filesystem) (is_dir : Path -> bool)
  (default_schema : Path) (args : BatchValidator.arguments Path) : Prop :=
  exists_ fs (str (BatchValidator.contracts_root Path args)) = false \/
  is_dir (BatchValidator.contracts_root Path args) = false \/
  exists_ fs (str (schema_path_of default_schema args)) = false.

End BatchVocabulary.

Section RunnerVocabulary.

Variable World : Type.
Variable executable : string.
Variable subprocess_run : list string -> bool -> World -> Z * World.

(** The world after the generation step of a run. *)
Definition after_generation (verbose test_only : bool) (w : World) : World :=
  if test_only then w
  else snd (subprocess_run (RunStageB.generate_command executable)
              (negb verbose) w).

End RunnerVocabulary.

(** ** Codes and severities *)

(** The code of a finding starts with the letter of its severity. *)
Definition coherent (x : LintIssue) : bool :=
  match severity x with
  | ERROR => prefix_of "E" (code x)
  | WARNING => prefix_of "W" (code x)
  end.

(** What a computation returns, when it returns, satisfies [P]. *)
Definition returns {A} (P : A -> Prop) (c : result A) : Prop :=
  forall a, c = Ok a -> P a.

(** ** Relations and policies *)

(** The relation list [f] of the block [r] is there and is an array. *)
Definition relation_ok (r : list (string * json)) (f : string) : bool :=
  match lookup f r with
  | Some (JArr _) => true
  | _ => false
  end.

(** The document has a relations block with its three lists. *)
Definition relations_ok (m : list (string * json)) : bool :=
  match lookup "relations" m with
  | Some (JObj r) =>
      relation_ok r "depends_on" && relation_ok r "influences" &&
      relation_ok r "conflicts_with"
  | _ => false
  end.

(** The document has a policies block with its four fields, the unit
    policy being "strict". *)
Definition policies_ok (m : list (string * json)) : bool :=
  match lookup "policies" m with
  | Some (JObj p) =>
      negb (lacks p "unit_policy") && negb (lacks p "constraints_dsl") &&
      negb (lacks p "glossary_policy") && negb (lacks p "i18n_policy") &&
      eq_str (field p "unit_policy" JNull) "strict"
  | _ => false
  end.

Definition all_errors (code_ : string) (issues : list LintIssue) : Prop :=
  Forall (fun x => code x = code_ /\ severity x = ERROR) issues.

(** ** Findings of one kind, in order *)

Definition has_code (c : string) (x : LintIssue) : bool := code x =? c.

(** [e.get(f)] of an entry of a list of objects. *)
Definition get_field (f : string) (e : json) : json :=
  match e with
  | JObj m => field m f JNull
  | _ => JNull
  end.

(** The names listed by the parameter groups; a group that is not a list
    contributes nothing. *)
Definition grouped_names (groups : list (string * json)) : list json :=
  flat_map (fun v => match v with JArr l => l | _ => [] end) (map snd groups).

Definition ungrouped (groups : list (string * json)) (pname : string) : bool :=
  negb (set_mem (JStr pname) (grouped_names groups)).

Definition ungrouped_finding (pname : string) : LintIssue :=
  mkIssue "W020" WARNING
    [Txt "Parameter "; Fmt (JStr pname); Txt " not in any parameter_group"]
    ("$.parameters." ++ pname).

(** ** Codes cited outside the registry *)

(** The code a constraint or a validation rule cites. *)
Definition cited_code (c : json) : json :=
  match c with
  | JObj m => field m "error_code" (JStr "")
  | _ => JStr ""
  end.

(** [v] is a string the pattern matches. *)
Definition matches (p : string -> bool) (v : json) : bool :=
  match v with JStr s => p s | _ => false end.

(** The codes the registry [entries] defines. *)
Definition registered_codes (entries : list json) : list json :=
  map (get_field "code") entries.

(** [c] cites a code of the format [p] that the registry does not define. *)
Definition cites_unregistered (p : string -> bool) (entries : list json)
  (c : json) : bool :=
  matches p (cited_code c) &&
  negb (set_mem (cited_code c) (registered_codes entries)).

Definition constraint_code_finding (i : nat) (ec : json) : LintIssue :=
  mkIssue "E031" ERROR
    [Txt "Constraint error_code "; Fmt ec; Txt " not defined in error_codes"]
    ("$.constraints[" ++ dec i ++ "].error_code").

Definition rule_code_finding (i : nat) (ec : json) : LintIssue :=
  mkIssue "E041" ERROR
    [Txt "Validation warning code "; Fmt ec;
     Txt " not defined in error_codes"]
    ("$.validation.rules[" ++ dec i ++ "].error_code").

(** The findings for the entries of [l] that cite an unregistered code. *)
Definition unregistered_citations (p : string -> bool)
  (mk : nat -> json -> LintIssue) (entries l : list json) : list LintIssue :=
  flat_map (fun ic : nat * json =>
              when (cites_unregistered p entries (snd ic))
                (mk (fst ic) (cited_code (snd ic))))
    (enumerate l).

(** ** Scope of the outputs *)

(** The outputs [_check_io_contract] walks through. *)
Definition outputs_of (io : list (string * json)) : list json :=
  match lookup "outputs" io with
  | Some (JArr l) => l
  | _ => []
  end.

Definition is_public (art : json) : bool :=
  match art with
  | JObj a => eq_str (field a "scope" JNull) "public"
  | _ => false
  end.

Definition scope_finding (i : nat) (art : json) : LintIssue :=
  mkIssue "E071" ERROR
    [Txt "Output "; Fmt (get_field "artifact_id" art);
     Txt " must have scope 'public'"]
    ("$.io_contract.outputs[" ++ dec i ++ "].scope").

(** ** Coverage of the test cases *)

Definition at_path (p : string) (x : LintIssue) : bool := path x =? p.

(** The test case [tc] is an object of type [t]. *)
Definition has_type (t : string) (tc : json) : bool :=
  match tc with
  | JObj m => eq_str (field m "type" (JStr "")) t
  | _ => false
  end.

Definition coverage_error (t : string) : LintIssue :=
  mkIssue "E080" ERROR
    [Txt ("test_cases must include at least one '" ++ t ++ "' case")]
    "$.test_cases".

Definition coverage_warning : LintIssue :=
  mkIssue "W081" WARNING [Txt "test_cases should include a 'warning' case"]
    "$.test_cases".

(** ** Levels of the registered codes *)

(** [v] is a string that starts with [p]. *)
Definition starts (p : string) (v : json) : bool :=
  match v with JStr s => prefix_of p s | _ => false end.

Definition is_string (v : json) : bool :=
  match v with JStr _ => true | _ => false end.

(** The findings that say which level a code must have. *)
Definition level_finding (x : LintIssue) : bool :=
  match message x with
  | [Txt _; Fmt _; Txt t] => substring_of "must have level" t
  | _ => false
  end.

(** The level findings of entry [i]. *)
Definition entry_levels (ie : nat * json) : list LintIssue :=
  match snd ie with
  | JObj ec =>
      let code := field ec "code" (JStr "") in
      let level := field ec "level" (JStr "") in
      when (starts "E" code && negb (eq_str level "error"))
        (mkIssue "E050" ERROR
           [Txt "Error code "; Fmt code; Txt " must have level 'error'"]
           ("$.error_codes[" ++ dec (fst ie) ++ "].level")) ++
      when (starts "W" code && negb (eq_str level "warning"))
        (mkIssue "E050" ERROR
           [Txt "Warning code "; Fmt code; Txt " must have level 'warning'"]
           ("$.error_codes[" ++ dec (fst ie) ++ "].level"))
  | _ => []
  end.

(** ** Sample documents *)

Module Samples.

Definition artifact (id : string) : json :=
  JObj [("artifact_id", JStr id); ("type", JStr "image");
        ("scope", JStr "public")].

Definition step (id : string) (uses produces : list json) : json :=
  JObj [("id", JStr id); ("name", JStr "n"); ("type", JStr "transform");
        ("uses", JArr uses); ("produces", JArr produces);
        ("description", JStr "d")].

Definition error_code (c level : string) : json :=
  JObj [("code", JStr c); ("level", JStr level); ("title", JStr "t");
        ("message", JStr "m")].

Definition test_case (id kind : string) : json :=
  JObj [("id", JStr id); ("type", JStr kind); ("name", JStr "n");
        ("input", JObj []); ("expected", JObj [])].

Definition schema_block_with (created_at : json) : json :=
  JObj [("name", JStr "A-PRACTICAL.contract"); ("version", JStr "4.0");
        ("stage", JStr "A.contract_only"); ("maturity_stage", JStr "draft");
        ("static_frame_only", JBool true);
        ("underpainting_intent", JStr "structure_only");
        ("created_at", created_at);
        ("updated_at", JStr "2024-01-02T03:04:05+02:00")].

Definition schema_block : json :=
  schema_block_with (JStr "2024-01-02T03:04:05+02:00").

(** A contract with the given identity fields, error-code registry,
    algorithm and glossary policy; every other section is well formed. *)
Definition contract_fields (identity : list (string * json))
  (error_codes : list json) (algorithm : json) (glossary_policy : string)
  : list (string * json) :=
  [("_schema", schema_block)] ++ identity ++
    [("module_type", JStr "PROCESS");
     ("module_name", JObj [("uk", JStr "t"); ("en", JStr "tone")]);
     ("version", JStr "1.0.0"); ("description", JStr "d");
     ("io_contract",
        JObj [("inputs", JArr [artifact "img"]);
              ("outputs", JArr [artifact "map"])]);
     ("parameters",
        JObj [("gamma",
               JObj [("type", JStr "float"); ("unit", JStr "none");
                     ("description", JStr "g")])]);
     ("parameter_groups", JObj [("main", JArr [JStr "gamma"])]);
     ("constraints",
        JArr [JObj [("expr", JStr "gamma > 0");
                    ("error_code", JStr "E001")]]);
     ("validation",
        JObj [("rules",
               JArr [JObj [("name", JStr "r"); ("condition", JStr "c");
                           ("severity", JStr "warning");
                           ("message", JStr "m");
                           ("error_code", JStr "W001")]])]);
     ("error_codes", JArr error_codes);
     ("algorithm", algorithm);
     ("relations",
        JObj [("depends_on", JArr []); ("influences", JArr []);
              ("conflicts_with", JArr [])]);
     ("test_cases",
        JArr [test_case "T1" "positive"; test_case "T2" "negative";
              test_case "T3" "warning"]);
     ("policies",
        JObj [("unit_policy", JStr "strict"); ("constraints_dsl", JStr "x");
              ("glossary_policy", JStr glossary_policy);
              ("i18n_policy", JStr "y")])].

Definition contract (identity : list (string * json))
  (error_codes : list json) (algorithm : json) (glossary_policy : string)
  : json :=
  JObj (contract_fields identity error_codes algorithm glossary_policy).

Definition identity : list (string * json) :=
  [("module_id", JStr "A-IV-1"); ("module_abbr", JStr "TON")].

Definition registry : list json :=
  [error_code "E001" "error"; error_code "W001" "warning"].

Definition algorithm (steps : list json) : json :=
  JObj [("steps", JArr steps);
        ("artifact_registry", JArr [JObj [("artifact_id", JStr "map")]])].

(** A contract without defects. *)
Definition clean : json :=
  contract identity registry
    (algorithm [step "S001" [JStr "img"; JStr "gamma"] [JStr "map"]])
    "strict".

Definition no_glossary : validator :=
  mkValidator "schema.json" None true (JObj []) None.

Definition holding (doc : json) : filesystem := fun _ => Holds doc.

(** A document that loads: its registry holds a number where an entry
    object is expected. *)
Definition registry_of_numbers : json :=
  JObj [("constraints", JArr [JObj [("expr", JStr "x > 0");
                                    ("error_code", JStr "E001")]]);
        ("error_codes", JArr [JInt 1])].

(** One step that lists an artifact nobody provides, twice. *)
Definition repeated_steps : list json :=
  [step "S001" [JStr "ghost"; JStr "ghost"] [JStr "map"]].

Definition repeated_use : json :=
  contract identity registry (algorithm repeated_steps) "strict".

(** The first step uses what the second produces; the second uses what it
    produces itself. *)
Definition forward_steps : list json :=
  [step "S001" [JStr "img"; JStr "late"] [JStr "mid"];
   step "S002" [JStr "mid"; JStr "own"] [JStr "late"; JStr "own"; JStr "map"]].

Definition forward_reference : json :=
  contract identity registry (algorithm forward_steps) "strict".

(** An algorithm with an empty step list. *)
Definition no_steps : json :=
  contract identity registry (algorithm []) "strict".

(** The output [map] is neither produced nor registered. *)
Definition unproduced_steps : list json :=
  [step "S001" [JStr "img"] [JStr "mid"]].

Definition unproduced_algorithm : json :=
  JObj [("steps", JArr unproduced_steps); ("artifact_registry", JArr [])].

Definition unproduced_output : json :=
  contract identity registry unproduced_algorithm "strict".

(** The code [E001] is registered twice. *)
Definition repeated_registry : list json :=
  [error_code "E001" "error"; error_code "W001" "warning";
   error_code "E001" "error"].

Definition repeated_code : json :=
  contract identity repeated_registry (algorithm [step "S001" [JStr "img"]
                                                    [JStr "map"]]) "strict".

(** A contract without [module_id]. *)
Definition no_module_id : list (string * json) :=
  contract_fields [("module_abbr", JStr "TON")] registry
    (algorithm [step "S001" [JStr "img"] [JStr "map"]]) "strict".

(** A contract whose short code is the empty string. *)
Definition empty_abbr : json :=
  contract [("module_id", JStr "A-IV-1"); ("module_abbr", JStr "")] registry
    (algorithm [step "S001" [JStr "img"] [JStr "map"]]) "strict".

(** A contract whose creation timestamp is the empty string. *)
Definition empty_timestamp : list (string * json) :=
  ("_schema", schema_block_with (JStr "")) ::
  List.tl (contract_fields identity registry
             (algorithm [step "S001" [JStr "img"] [JStr "map"]]) "strict").

Definition glossary_xyz : json :=
  JObj [("terms", JObj [("XYZ", JObj [])])].

Definition with_xyz : validator :=
  mkValidator "schema.json" (Some "glossary.json") true (JObj [])
    (Some glossary_xyz).

(** A folder: [b.json] does not decode, [none.json] is not there, every
    other path holds the clean contract. *)
Definition folder : filesystem :=
  fun p =>
    if p =? "b.json" then Unparseable
    else if p =? "none.json" then Missing
    else Holds clean.

(** The validator constructed in [folder] with a glossary path that leads
    nowhere. *)
Definition glossary_missing : validator :=
  mkValidator "schema.json" (Some "none.json") true clean None.

(** A contract with defects the later checks report: the parameter [beta]
    is in no group, the constraint and the rule cite the codes [E002] and
    [W002] that the registry lacks, the code [E001] is registered with the
    level "warning", the output [aux] is private, and no test case has the
    type "warning". *)
Definition parameter (description : string) : json :=
  JObj [("type", JStr "float"); ("unit", JStr "none");
        ("description", JStr description)].

Definition defective_parameters : list (string * json) :=
  [("gamma", parameter "g"); ("beta", parameter "b")].

Definition defective_groups : list (string * json) :=
  [("main", JArr [JStr "gamma"]); ("note", JStr "beta")].

Definition constraint (code : string) : json :=
  JObj [("expr", JStr "gamma > 0"); ("error_code", JStr code)].

Definition defective_constraints : list json :=
  [constraint "E001"; constraint "E002"; constraint "bad"; JStr "gamma"].

Definition rule (code : string) : json :=
  JObj [("name", JStr "r"); ("condition", JStr "c");
        ("severity", JStr "warning"); ("message", JStr "m");
        ("error_code", JStr code)].

Definition defective_rules : list json := [rule "W002"; rule "W001"].

Definition defective_registry : list json :=
  [error_code "E001" "warning"; error_code "W001" "warning"].

Definition private_artifact (id : string) : json :=
  JObj [("artifact_id", JStr id); ("type", JStr "image");
        ("scope", JStr "private")].

Definition defective_io : list (string * json) :=
  [("inputs", JArr [artifact "img"]);
   ("outputs", JArr [artifact "map"; private_artifact "aux"])].

Definition defective_tests : list json :=
  [test_case "T1" "positive"; test_case "T2" "negative";
   test_case "T3" "negative"].

Definition defective : json :=
  JObj ([("_schema", schema_block)] ++ identity ++
        [("module_type", JStr "PROCESS");
         ("module_name", JObj [("uk", JStr "t"); ("en", JStr "tone")]);
         ("version", JStr "1.0.0"); ("description", JStr "d");
         ("io_contract", JObj defective_io);
         ("parameters", JObj defective_parameters);
         ("parameter_groups", JObj defective_groups);
         ("constraints", JArr defective_constraints);
         ("validation", JObj [("rules", JArr defective_rules)]);
         ("error_codes", JArr defective_registry);
         ("algorithm",
            algorithm [step "S001" [JStr "img"; JStr "gamma"]
                         [JStr "map"; JStr "aux"]]);
         ("relations",
            JObj [("depends_on", JArr []); ("influences", JArr []);
                  ("conflicts_with", JArr [])]);
         ("test_cases", JArr defective_tests);
         ("policies",
            JObj [("unit_policy", JStr "strict");
                  ("constraints_dsl", JStr "x");
                  ("glossary_policy", JStr "strict");
                  ("i18n_policy", JStr "y")])]).

(** What a check or a validation returned. *)
Definition findings_of (c : result (list LintIssue)) : list LintIssue :=
  match c with
  | Ok issues => issues
  | Raise _ => []
  end.

Definition result_of (c : result LintResult) : LintResult :=
  match c with
  | Ok r => r
  | Raise _ => mkResult "" false 0 [] []
  end.

(** A registry entry whose code is [null]. *)
Definition null_code_entry : list (string * json) :=
  [("code", JNull); ("level", JStr "error"); ("title", JStr "t");
   ("message", JStr "m")].

Definition null_code : json :=
  contract identity [error_code "E001" "error"; JObj null_code_entry]
    (algorithm [step "S001" [JStr "img"] [JStr "map"]]) "strict".

(** A batch run.  Paths are their own names; a path is under a directory
    when it starts with the name of the directory. *)
Definition path_name (p : string) : string := p.

Definition under (p d : string) : bool := prefix_of d p.

Definition batch_found : list string :=
  ["a_contract_stageA.json"; "a_contract_stageA_lint.json"; "b.json";
   "c_contract.json"; "d_contract.json"; "glossary_contract.json";
   "out/e_contract.json"].

Definition batch_files : filesystem :=
  fun p =>
    if p =? "c_contract.json" then Holds repeated_code
    else if p =? "d_contract.json" then Unparseable
    else Holds clean.

Definition batch_arguments : BatchValidator.arguments string :=
  BatchValidator.mkArguments string "contracts" None None "out" true false.

Definition batch_run : result (Z * option BatchValidator.summary) :=
  BatchValidator.main string path_name under path_name batch_files
    (fun _ => true) "schema.json" batch_found batch_arguments.

Definition batch_summary : BatchValidator.summary :=
  match batch_run with
  | Ok (_, Some s) => s
  | _ => BatchValidator.mkSummary 0 0 0 [] []
  end.

Definition batch_validator : validator :=
  mkValidator "schema.json" None true clean None.

Definition defective_result : LintResult :=
  result_of (validate_contract no_glossary (holding defective) "c.json").

End Samples.

(** * Properties *)

(** ** Generic facts about the error monad and the loops *)

Lemma bind_Ok {A B} (c : result A) (k : A -> result B) (b : B) :
  bind c k = Ok b -> exists a, c = Ok a /\ k a = Ok b.
Proof.
  destruct c as [a | e]; simpl; intros H.
  - exists a. split; [reflexivity | exact H].
  - discriminate H.
Qed.

(** Peel the binds of a hypothesis [H : ... = Ok _]. *)
Ltac bind_inv H :=
  let a := fresh "v" in
  let Ha := fresh "E" in
  apply bind_Ok in H; destruct H as (a & Ha & H).

Ltac ok_inv H := injection H as H; try subst.

(** ** Score and pass flag *)

Lemma score_of_eq (issues : list LintIssue) :
  score_of issues =
  if (0 <? error_count issues)%Z
  then Z.max 0 (50 - 10 * error_count issues)
  else Z.max 70 (100 - 5 * warning_count issues).
Proof.
  unfold score_of, build_result, error_count, warning_count.
  cbn [score]. unfold _calculate_score.
  destruct (Z.ltb_spec 0 (Z.of_nat (List.length (filter is_error issues))))
    as [H | H];
    destruct (filter is_error issues) as [| e es];
    cbn [List.length] in *; lia.
Qed.

Lemma score_of_path (p : string) (issues : list LintIssue) :
  score (build_result p issues) = score_of issues.
Proof. reflexivity. Qed.

(** C4: the score is max(0, 50 - 10 * errors) when there is an error and
    max(70, 100 - 5 * warnings) when there is none; it lies in [0, 100]; it
    does not increase when the error count grows, nor, without errors, when
    the warning count grows. *)
Theorem C4_score_formula (issues issues' : list LintIssue) :
  ((0 < error_count issues)%Z ->
     score_of issues = Z.max 0 (50 - 10 * error_count issues)) /\
  (error_count issues = 0%Z ->
     score_of issues = Z.max 70 (100 - 5 * warning_count issues)) /\
  (0 <= score_of issues <= 100)%Z /\
  ((error_count issues < error_count issues')%Z ->
     (score_of issues' <= score_of issues)%Z) /\
  ((error_count issues <= error_count issues')%Z ->
   (warning_count issues <= warning_count issues')%Z ->
     (score_of issues' <= score_of issues)%Z) /\
  (error_count issues = 0%Z -> error_count issues' = 0%Z ->
   (warning_count issues <= warning_count issues')%Z ->
     (score_of issues' <= score_of issues)%Z).
Proof.
  rewrite !score_of_eq.
  assert (He : (0 <= error_count issues)%Z) by (unfold error_count; lia).
  assert (He' : (0 <= error_count issues')%Z) by (unfold error_count; lia).
  assert (Hw : (0 <= warning_count issues)%Z) by (unfold warning_count; lia).
  assert (Hw' : (0 <= warning_count issues')%Z) by (unfold warning_count; lia).
  destruct (0 <? error_count issues)%Z eqn:E;
    destruct (0 <? error_count issues')%Z eqn:E';
    try apply Z.ltb_lt in E; try apply Z.ltb_ge in E;
    try apply Z.ltb_lt in E'; try apply Z.ltb_ge in E';
    repeat split; intros; lia.
Qed.

(** C10: the score never lies in 41..69: with an error it is at most 40,
    without one it is at least 70, so the score tells whether the document
    passed. *)
Theorem C10_score_gap (p : string) (issues : list LintIssue) :
  ((0 < error_count issues)%Z -> (score_of issues <= 40)%Z) /\
  (error_count issues = 0%Z -> (70 <= score_of issues)%Z) /\
  ~ (41 <= score_of issues <= 69)%Z /\
  (passed (build_result p issues) = true <->
   (70 <= score (build_result p issues))%Z).
Proof.
  rewrite score_of_path, score_of_eq.
  assert (He : (0 <= error_count issues)%Z) by (unfold error_count; lia).
  assert (Hp : passed (build_result p issues) = true <->
               error_count issues = 0%Z).
  { unfold build_result, error_count; cbn [passed].
    rewrite Nat.eqb_eq. lia. }
  rewrite Hp.
  destruct (0 <? error_count issues)%Z eqn:E;
    try apply Z.ltb_lt in E; try apply Z.ltb_ge in E;
    repeat split; intros; lia.
Qed.

Example clean_passes :
  validate_contract Samples.no_glossary (Samples.holding Samples.clean)
    "c.json" = Ok (mkResult "c.json" true 100 [] []).
Proof. vm_compute. reflexivity. Qed.

(** The whole validation on the samples used below. *)
Example repeated_use_validation :
  run_checks Samples.no_glossary Samples.repeated_use =
  Ok [dataflow_finding 0 (JStr "ghost"); dataflow_finding 0 (JStr "ghost")].
Proof. vm_compute. reflexivity. Qed.

Example no_steps_validation :
  run_checks Samples.no_glossary Samples.no_steps =
  Ok [mkIssue "E060" ERROR [Txt "algorithm.steps must be non-empty"]
        "$.algorithm.steps"].
Proof. vm_compute. reflexivity. Qed.

Example empty_abbr_validation :
  run_checks Samples.with_xyz Samples.empty_abbr =
  Ok [mkIssue "E013" ERROR [Txt "Invalid module_abbr format: "; Fmt (JStr "")]
        "$.module_abbr"].
Proof. vm_compute. reflexivity. Qed.

Example no_module_id_validation :
  run_checks Samples.no_glossary (JObj Samples.no_module_id) =
  Ok [mkIssue "E010" ERROR
        [Txt "Missing required field: "; Fmt (JStr "module_id")]
        "$.module_id";
      mkIssue "E013" ERROR [Txt "Invalid module_id format: "; Fmt (JStr "")]
        "$.module_id"].
Proof. vm_compute. reflexivity. Qed.

(** ** Pass flag *)



(** ** Exceptions on loaded documents *)

Lemma no_load_error_Ok {A} (a : A) : no_load_error (Ok a).
Proof. discriminate. Qed.

Lemma no_load_error_bind {A B} (c : result A) (k : A -> result B) :
  no_load_error c -> (forall a, no_load_error (k a)) ->
  no_load_error (bind c k).
Proof.
  unfold no_load_error. destruct c as [a | e]; cbn; intros Hc Hk.
  - apply Hk.
  - intros H. apply Hc. now injection H as ->.
Qed.

Lemma no_load_error_for_each {A} (body : A -> result (list LintIssue))
  (l : list A) :
  (forall x, no_load_error (body x)) -> no_load_error (for_each body l).
Proof.
  intros H. induction l as [| x l IH]; cbn [for_each].
  - apply no_load_error_Ok.
  - apply no_load_error_bind; [apply H | intros a].
    apply no_load_error_bind; [exact IH | intros b]. apply no_load_error_Ok.
Qed.

Lemma no_load_error_for_state {A S}
  (body : S -> A -> result (S * list LintIssue)) (l : list A) :
  (forall s x, no_load_error (body s x)) ->
  forall s, no_load_error (for_state body s l).
Proof.
  intros H. induction l as [| x l IH]; intros s; cbn [for_state].
  - apply no_load_error_Ok.
  - apply no_load_error_bind; [apply H | intros (s1, a)].
    apply no_load_error_bind; [apply IH | intros (s2, b)].
    apply no_load_error_Ok.
Qed.

Lemma no_load_error_set_update (l : list json) :
  forall s, no_load_error (set_update s l).
Proof.
  induction l as [| a l IH]; intros s; cbn [set_update].
  - apply no_load_error_Ok.
  - apply no_load_error_bind; [| intros s'; apply IH].
    unfold set_add. destruct (hashable a); discriminate.
Qed.

Lemma no_load_error_set_of_field (f : string) (l : list json) :
  forall s, no_load_error (set_of_field f s l).
Proof.
  induction l as [| a l IH]; intros s; cbn [set_of_field].
  - apply no_load_error_Ok.
  - apply no_load_error_bind; [destruct a; discriminate | intros v].
    apply no_load_error_bind; [| intros s'; apply IH].
    unfold set_add. destruct (hashable v); discriminate.
Qed.

Lemma no_load_error_collect_groups (l : list json) :
  forall s, no_load_error (collect_groups s l).
Proof.
  induction l as [| a l IH]; intros s; cbn [collect_groups].
  - apply no_load_error_Ok.
  - apply no_load_error_bind; [| intros s'; apply IH].
    destruct a; try apply no_load_error_Ok. apply no_load_error_set_update.
Qed.

(** Settle [no_load_error] for a computation built from the primitives. *)
Ltac no_load_error :=
  repeat first
    [ apply no_load_error_Ok
    | apply no_load_error_set_update
    | apply no_load_error_set_of_field
    | apply no_load_error_collect_groups
    | apply no_load_error_for_each; intros ?
    | apply no_load_error_for_state; intros ? ?
    | apply no_load_error_bind; [| intros ?]
    | match goal with
      | |- no_load_error (py_get ?c _ _) => destruct c; discriminate
      | |- no_load_error (py_keys ?c) => destruct c; discriminate
      | |- no_load_error (py_values ?c) => destruct c; discriminate
      | |- no_load_error (py_in _ ?c) => destruct c; discriminate
      | |- no_load_error (py_iter ?c) => destruct c; discriminate
      | |- no_load_error (re_match _ ?c) => destruct c; discriminate
      | |- no_load_error (startswith ?c _) => destruct c; discriminate
      | |- no_load_error (py_in_set ?a _) =>
          unfold py_in_set; destruct (hashable a); discriminate
      | |- no_load_error (py_in_strings ?a _) =>
          unfold py_in_strings; destruct (hashable a); discriminate
      | |- no_load_error (set_add ?a _) =>
          unfold set_add; destruct (hashable a); discriminate
      | |- no_load_error (set_comprehension _ _) => unfold set_comprehension
      | |- no_load_error (declared_artifacts _ _) => unfold declared_artifacts
      | |- no_load_error (parameter_names _) => unfold parameter_names
      | |- no_load_error (glossary_policy_of _) => unfold glossary_policy_of
      | |- no_load_error (glossary_terms_of _) => unfold glossary_terms_of
      | |- no_load_error (if ?b then _ else _) => destruct b
      | |- no_load_error (let (_, _) := ?p in _) => destruct p
      | |- no_load_error (match ?x with _ => _ end) => destruct x
      | |- no_load_error (Raise AttributeError) => discriminate
      | |- no_load_error (Raise TypeError) => discriminate
      end ].

Lemma run_checks_no_load_error (self : validator) (data : json) :
  no_load_error (run_checks self data).
Proof.
  unfold run_checks, _check_required_fields, _check_schema_block,
    _check_module_identity, _check_parameters, _check_constraints,
    _check_validation_rules, _check_error_codes, _check_algorithm,
    _check_io_contract, _check_test_cases, _check_policies, _check_relations,
    glossary_step, _check_glossary_coverage,
    check_parameter, check_constraint, check_rule, check_error_code,
    check_step, check_uses, check_artifact, check_test_case.
  no_load_error.
Qed.

(** [validate_contract] raises the load error exactly when the document is
    missing or cannot be decoded; what the checks raise is of another
    class. *)
Lemma load_failure_iff (self : validator) (fs : filesystem) (path : string) :
  validate_contract self fs path = Raise ContractLintError <->
  fs path = Missing \/ fs path = Unparseable.
Proof.
  unfold validate_contract, exists_, _load_json.
  destruct (fs path) as [| | data] eqn:F; cbn [negb bind].
  - split; auto.
  - split; auto.
  - split; [| intros [H | H]; discriminate H].
    intros H. exfalso.
    pose proof (run_checks_no_load_error self data) as Hs.
    destruct (run_checks self data) as [issues | e]; cbn [bind] in H.
    + discriminate H.
    + injection H as ->. now apply Hs.
Qed.

(** C3: the document [Samples.registry_of_numbers] is read and decoded, and
    [validate_contract] raises on it ([AttributeError], from the set
    comprehension of [_check_constraints]) instead of returning a result;
    [_check_error_codes] alone skips the same entry. *)
Theorem C3_raises_on_loaded_document :
  exists_ (Samples.holding Samples.registry_of_numbers) "c.json" = true /\
  _load_json (Samples.holding Samples.registry_of_numbers) "c.json"
    = Ok Samples.registry_of_numbers /\
  _check_constraints Samples.registry_of_numbers = Raise AttributeError /\
  (exists issues, _check_error_codes Samples.registry_of_numbers = Ok issues) /\
  validate_contract Samples.no_glossary
    (Samples.holding Samples.registry_of_numbers) "c.json" = Raise AttributeError.
Proof.
  repeat split; try (vm_compute; reflexivity).
  eexists. vm_compute. reflexivity.
Qed.

(** ** Paths *)

Lemma list_ascii_of_string_app (a b : string) :
  list_ascii_of_string (a ++ b) =
  (list_ascii_of_string a ++ list_ascii_of_string b)%list.
Proof. induction a as [| c a IH]; simpl; [reflexivity | now rewrite IH]. Qed.

Lemma list_ascii_of_string_inj (a b : string) :
  list_ascii_of_string a = list_ascii_of_string b -> a = b.
Proof.
  intros H. rewrite <- (string_of_list_ascii_of_string a),
    <- (string_of_list_ascii_of_string b). now rewrite H.
Qed.

Lemma append_inv_tail (a b c : string) : (a ++ c = b ++ c)%string -> a = b.
Proof.
  intros H. apply list_ascii_of_string_inj.
  apply (f_equal list_ascii_of_string) in H.
  rewrite !list_ascii_of_string_app in H.
  now apply app_inv_tail in H.
Qed.

Lemma append_inv_head (a b c : string) : (c ++ a = c ++ b)%string -> a = b.
Proof.
  induction c as [| x c IH]; simpl; intros H; [exact H |].
  injection H as H. auto.
Qed.

Lemma dec_inj (i j : nat) : dec i = dec j -> i = j.
Proof.
  unfold dec. intros H.
  apply Unsigned.to_uint_inj.
  assert (S : Some (Nat.to_uint i) = Some (Nat.to_uint j)).
  { rewrite <- !NilEmpty.usu. now rewrite H. }
  now injection S.
Qed.

(** Two indexed paths of one shape agree only at one index. *)
Lemma indexed_path_eqb (pre post : string) (i j : nat) :
  (pre ++ dec i ++ post =? pre ++ dec j ++ post)%string = (i =? j)%nat.
Proof.
  destruct (Nat.eqb_spec i j) as [-> | N].
  - apply String.eqb_refl.
  - apply String.eqb_neq. intros H. apply N, dec_inj.
    apply append_inv_head in H. now apply append_inv_tail in H.
Qed.

(** ** Sets *)

Lemma atom_eqb_sym (a b : json) : atom_eqb a b = atom_eqb b a.
Proof.
  destruct a, b; simpl; try reflexivity;
    try apply String.eqb_sym;
    match goal with
    | |- Qeq_bool ?p ?q = Qeq_bool ?q ?p =>
        destruct (Qeq_bool p q) eqn:E1, (Qeq_bool q p) eqn:E2; try reflexivity;
        [ apply Qeq_bool_iff in E1; symmetry in E1;
          apply Qeq_bool_iff in E1; congruence
        | apply Qeq_bool_iff in E2; symmetry in E2;
          apply Qeq_bool_iff in E2; congruence ]
    end.
Qed.

Lemma atom_eqb_trans (a b c : json) :
  atom_eqb a b = true -> atom_eqb b c = true -> atom_eqb a c = true.
Proof.
  destruct a, b; simpl; try discriminate; destruct c; simpl;
    try discriminate; try reflexivity;
    try (rewrite !String.eqb_eq; congruence);
    intros H1 H2; apply Qeq_bool_iff in H1; apply Qeq_bool_iff in H2;
    apply Qeq_bool_iff; now rewrite H1.
Qed.

Lemma set_mem_app (c : json) (s t : pyset) :
  set_mem c (s ++ t) = set_mem c s || set_mem c t.
Proof. apply existsb_app. Qed.

Lemma set_mem_eq (a c : json) (s : pyset) :
  atom_eqb c a = true -> set_mem a s = true -> set_mem c s = true.
Proof.
  unfold set_mem. rewrite !existsb_exists.
  intros H (b & Hb & E). exists b. split; [exact Hb |].
  eapply atom_eqb_trans; eauto.
Qed.

Lemma set_add_mem (a : json) (s s' : pyset) :
  set_add a s = Ok s' ->
  forall c, set_mem c s' = set_mem c s || atom_eqb c a.
Proof.
  unfold set_add. destruct (hashable a); [| discriminate].
  intros H c. ok_inv H.
  destruct (set_mem a s) eqn:M.
  - destruct (atom_eqb c a) eqn:E.
    + rewrite (set_mem_eq a c s E M). reflexivity.
    + now rewrite orb_false_r.
  - rewrite set_mem_app. simpl. now rewrite orb_false_r.
Qed.

Lemma set_add_hashable (a : json) (s s' : pyset) :
  set_add a s = Ok s' -> hashable a = true.
Proof. unfold set_add. now destruct (hashable a). Qed.

Lemma set_update_mem (l : list json) :
  forall s s', set_update s l = Ok s' ->
  forall c, set_mem c s' = set_mem c s || set_mem c l.
Proof.
  induction l as [| a l IH]; simpl; intros s s' H c.
  - ok_inv H. now rewrite orb_false_r.
  - bind_inv H. rewrite (IH _ _ H), (set_add_mem _ _ _ E).
    now rewrite orb_assoc.
Qed.

Lemma set_update_hashable (l : list json) :
  forall s s', set_update s l = Ok s' -> forallb hashable l = true.
Proof.
  induction l as [| a l IH]; simpl; intros s s' H; [reflexivity |].
  bind_inv H. rewrite (set_add_hashable _ _ _ E). simpl. eauto.
Qed.

Lemma set_union_mem (t : pyset) :
  forall s c, set_mem c (set_union s t) = set_mem c s || set_mem c t.
Proof.
  induction t as [| a t IH]; simpl; intros s c.
  - now rewrite orb_false_r.
  - rewrite IH. destruct (set_mem a s) eqn:M.
    + destruct (atom_eqb c a) eqn:E; simpl; [| reflexivity].
      rewrite (set_mem_eq a c s E M). reflexivity.
    + rewrite set_mem_app. simpl. rewrite orb_false_r. now rewrite orb_assoc.
Qed.

(** ** Loops *)

Lemma filter_when (q : LintIssue -> bool) (b : bool) (x : LintIssue) :
  filter q (when b x) = when (b && q x) x.
Proof. destruct b; simpl; [destruct (q x) |]; reflexivity. Qed.

Lemma filter_none (q : LintIssue -> bool) (l : list LintIssue) :
  Forall (fun x => q x = false) l -> filter q l = [].
Proof.
  induction 1 as [| x l Hx _ IH]; simpl; [reflexivity |].
  now rewrite Hx.
Qed.

Lemma Forall_when (P : LintIssue -> Prop) (b : bool) (x : LintIssue) :
  P x -> Forall P (when b x).
Proof. destruct b; simpl; auto. Qed.

Lemma for_each_Forall {A} (P : LintIssue -> Prop)
  (body : A -> result (list LintIssue)) (l : list A) :
  (forall x o, In x l -> body x = Ok o -> Forall P o) ->
  forall out, for_each body l = Ok out -> Forall P out.
Proof.
  induction l as [| x l IH]; simpl; intros Hb out H.
  - ok_inv H. constructor.
  - bind_inv H. bind_inv H. ok_inv H.
    apply Forall_app. split.
    + apply (Hb x); [now left | exact E].
    + apply IH; [| exact E0].
      intros y o Hy. apply Hb. now right.
Qed.

(** A presence loop over a fixed list of field names: every finding has the
    loop's code. *)
Lemma presence_loop_code (c : string) (v : json)
  (msg : string -> list part) (pth : string -> string)
  (fields : list string) (out : list LintIssue) :
  for_each (fun field =>
    present <- py_in field v ;;
    Ok (when (negb present) (mkIssue c ERROR (msg field) (pth field))))
    fields = Ok out ->
  Forall (fun x => code x = c) out.
Proof.
  apply for_each_Forall. intros x o _ H. bind_inv H. ok_inv H.
  now apply Forall_when.
Qed.

(** ** Duplicate codes in the registry *)

Lemma not_duplicate_finding (i : nat) (x : LintIssue) :
  code x = "E050" -> is_duplicate_finding_at i x = false.
Proof. unfold is_duplicate_finding_at. now intros ->. Qed.

Lemma duplicate_finding_at (i j : nat) (c : json) :
  is_duplicate_finding_at i (duplicate_finding j c) = (j =? i)%nat.
Proof.
  unfold is_duplicate_finding_at, duplicate_finding; cbn [code path].
  rewrite (indexed_path_eqb "$.error_codes[" "].code"). reflexivity.
Qed.

Lemma check_error_code_spec (seen seen' : pyset) (i j : nat) (e : json)
  (out : list LintIssue) :
  check_error_code seen (j, e) = Ok (seen', out) ->
  filter (is_duplicate_finding_at i) out =
    match entry_code e with
    | Some c => if (j =? i)%nat && set_mem c seen
                then [duplicate_finding i c] else []
    | None => []
    end /\
  forall c', set_mem c' seen' =
             set_mem c' seen ||
             match entry_code e with
             | Some c => atom_eqb c' c
             | None => false
             end.
Proof.
  unfold check_error_code.
  destruct (isinstance_dict e) eqn:D; cbn [negb].
  2:{ intros H. ok_inv H. destruct e; try discriminate D; simpl;
      split; intros; try reflexivity; now rewrite orb_false_r. }
  destruct e as [| | | | | | m]; try discriminate D.
  cbn [entry_code py_get bind].
  set (c := match lookup "code" m with Some v => v | None => JStr "" end).
  intros H. bind_inv H. apply presence_loop_code in E.
  do 5 bind_inv H. ok_inv H.
  unfold py_in_set in E3. destruct (hashable c); [| discriminate].
  ok_inv E3.
  split.
  - rewrite !filter_app.
    rewrite (filter_none _ v).
    2:{ eapply Forall_impl; [| exact E]. intros x. apply not_duplicate_finding. }
    rewrite !filter_when.
    rewrite !not_duplicate_finding by reflexivity.
    rewrite !andb_false_r.
    change (when false ?x) with (@nil LintIssue).
    rewrite !app_nil_l.
    change (mkIssue "E051" ERROR _ _) with (duplicate_finding j c).
    rewrite duplicate_finding_at.
    rewrite andb_comm.
    destruct (Nat.eqb_spec j i) as [-> | N]; cbn [andb];
      destruct (set_mem c seen); reflexivity.
  - intros c'. apply (set_add_mem _ _ _ E4).
Qed.

(** Entries from index [k] on get no finding attributed to an index
    below [k]. *)
Lemma error_code_loop_later (l : list json) :
  forall (k i : nat) (seen seen' : pyset) (out : list LintIssue),
  (i < k)%nat ->
  for_state check_error_code seen (enumerate_from k l) = Ok (seen', out) ->
  filter (is_duplicate_finding_at i) out = [].
Proof.
  induction l as [| e l IH]; intros k i seen seen' out Hk H.
  - cbn in H. now ok_inv H.
  - cbn [enumerate_from for_state] in H.
    bind_inv H. destruct v as (s1, a).
    bind_inv H. destruct v as (s2, b). ok_inv H.
    rewrite filter_app.
    destruct (check_error_code_spec _ _ i _ _ _ E) as (Ha & _).
    rewrite Ha, (IH (S k) i _ _ _ (Nat.lt_lt_succ_r _ _ Hk) E0).
    replace (k =? i)%nat with false by (symmetry; apply Nat.eqb_neq; lia).
    now destruct (entry_code e).
Qed.

Lemma error_code_loop (l : list json) :
  forall (k : nat) (seen seen' : pyset) (out : list LintIssue),
  for_state check_error_code seen (enumerate_from k l) = Ok (seen', out) ->
  forall (n : nat) (e c : json),
  nth_error l n = Some e -> entry_code e = Some c ->
  filter (is_duplicate_finding_at (k + n)) out =
  if set_mem c seen || appeared c (firstn n l)
  then [duplicate_finding (k + n) c] else [].
Proof.
  induction l as [| e0 l IH]; intros k seen seen' out H n e c Hn Hc.
  - destruct n; discriminate Hn.
  - cbn [enumerate_from for_state] in H.
    bind_inv H. destruct v as (s1, a).
    bind_inv H. destruct v as (s2, b). ok_inv H.
    rewrite filter_app.
    destruct (check_error_code_spec _ _ (k + n) _ _ _ E) as (Ha & Hs).
    destruct n as [| n].
    + cbn [nth_error] in Hn. injection Hn as ->.
      rewrite Hc in Ha. rewrite Ha, Nat.add_0_r, Nat.eqb_refl.
      cbn [firstn appeared existsb andb]. rewrite orb_false_r.
      rewrite (error_code_loop_later _ (S k) k _ _ _ (Nat.lt_succ_diag_r k) E0).
      now rewrite app_nil_r.
    + cbn [nth_error] in Hn.
      replace (k + S n)%nat with (S k + n)%nat in * by lia.
      rewrite (IH _ _ _ _ E0 n e c Hn Hc).
      replace (filter (is_duplicate_finding_at (S k + n)) a)
        with (@nil LintIssue).
      2:{ rewrite Ha. replace (k =? S k + n)%nat with false
            by (symmetry; apply Nat.eqb_neq; lia).
          now destruct (entry_code e0). }
      rewrite app_nil_l, Hs.
      cbn [firstn appeared existsb]. fold (appeared c (firstn n l)).
      now rewrite orb_assoc.
Qed.

(** C7: an entry of the error-code registry whose code appeared in an
    earlier entry gets exactly one duplicate-code finding, attributed to it
    by its index; an entry whose code did not appear before gets none. *)
Theorem C7_duplicate_codes (data : json) (l : list json)
  (issues : list LintIssue) (i : nat) (e c : json) :
  py_get data "error_codes" (JArr []) = Ok (JArr l) ->
  _check_error_codes data = Ok issues ->
  nth_error l i = Some e ->
  entry_code e = Some c ->
  filter (is_duplicate_finding_at i) issues =
  if appeared c (firstn i l) then [duplicate_finding i c] else [].
Proof.
  intros Hl H Hi Hc. unfold _check_error_codes in H. rewrite Hl in H.
  cbn [bind] in H. destruct l as [| e0 l]; [destruct i; discriminate Hi |].
  bind_inv H. destruct v as (s, out). ok_inv H.
  apply (error_code_loop _ 0 [] _ _ E i e c Hi Hc).
Qed.

Lemma C7_duplicate_codes_witness :
  filter (is_duplicate_finding_at 2) [duplicate_finding 2 (JStr "E001")] =
  if appeared (JStr "E001") (firstn 2 Samples.repeated_registry)
  then [duplicate_finding 2 (JStr "E001")] else [].
Proof.
  apply (C7_duplicate_codes Samples.repeated_code Samples.repeated_registry
           [duplicate_finding 2 (JStr "E001")] 2
           (Samples.error_code "E001" "error") (JStr "E001"));
    vm_compute; reflexivity.
Defined.

(** ** Data flow *)

Lemma not_dataflow_finding (i : nat) (x : LintIssue) :
  code x <> "E061" -> is_dataflow_finding_at i x = false.
Proof.
  unfold is_dataflow_finding_at. intros H.
  apply String.eqb_neq in H. now rewrite H.
Qed.

Lemma dataflow_finding_at (i j : nat) (a : json) :
  is_dataflow_finding_at i (dataflow_finding j a) = (j =? i)%nat.
Proof.
  unfold is_dataflow_finding_at, dataflow_finding; cbn [code path].
  rewrite (indexed_path_eqb "$.algorithm.steps[" "].uses"). reflexivity.
Qed.

Lemma dataflow_finding_inj (i : nat) (a b : json) :
  dataflow_finding i a = dataflow_finding i b -> a = b.
Proof. unfold dataflow_finding. intros H. now injection H. Qed.

(** The uses loop of one step. *)
Lemma uses_loop (available produced : pyset) (i : nat) (uses : list json) :
  forall out,
  for_each (check_uses available produced i) uses = Ok out ->
  out = map (dataflow_finding i)
          (filter (fun a => negb (set_mem a available) &&
                            negb (set_mem a produced)) uses).
Proof.
  induction uses as [| a uses IH]; intros out H.
  - cbn in H. now ok_inv H.
  - cbn [for_each] in H. bind_inv H. bind_inv H. ok_inv H.
    rewrite (IH _ E0). clear IH E0.
    unfold check_uses, py_in_set in E.
    destruct (hashable a); [| discriminate E]. cbn [bind] in E.
    cbn [filter].
    destruct (set_mem a available); cbn [negb andb bind] in *.
    + now ok_inv E.
    + destruct (set_mem a produced); cbn [negb] in *; now ok_inv E.
Qed.

Lemma filter_map_all (i : nat) (l : list json) :
  filter (is_dataflow_finding_at i) (map (dataflow_finding i) l) =
  map (dataflow_finding i) l.
Proof.
  induction l as [| a l IH]; cbn [map filter]; [reflexivity |].
  now rewrite dataflow_finding_at, Nat.eqb_refl, IH.
Qed.

Lemma filter_map_none (i j : nat) (l : list json) :
  j <> i ->
  filter (is_dataflow_finding_at i) (map (dataflow_finding j) l) = [].
Proof.
  intros N. induction l as [| a l IH]; cbn [map filter]; [reflexivity |].
  rewrite dataflow_finding_at. apply Nat.eqb_neq in N. now rewrite N.
Qed.

Lemma check_step_spec (available produced produced' : pyset) (i j : nat)
  (step : json) (out : list LintIssue) :
  check_step available produced (j, step) = Ok (produced', out) ->
  filter (is_dataflow_finding_at i) out =
    (if (j =? i)%nat
     then map (dataflow_finding i)
            (filter (fun a => negb (set_mem a available) &&
                              negb (set_mem a produced))
               (step_list "uses" step))
     else []) /\
  forall c, set_mem c produced' =
            set_mem c produced || set_mem c (step_list "produces" step).
Proof.
  unfold check_step.
  destruct (isinstance_dict step) eqn:D; cbn [negb].
  2:{ intros H. ok_inv H. destruct step; try discriminate D; cbn;
      split; intros; try (now rewrite orb_false_r); now destruct (j =? i)%nat. }
  destruct step as [| | | | | | m]; try discriminate D.
  cbn [py_get bind step_list].
  intros H. bind_inv H. apply presence_loop_code in E.
  do 6 bind_inv H. ok_inv H.
  split.
  - rewrite !filter_app.
    rewrite (filter_none _ v).
    2:{ eapply Forall_impl; [| exact E]. intros x Hx.
        apply not_dataflow_finding. rewrite Hx. discriminate. }
    rewrite (filter_none _ v0).
    2:{ match type of E0 with (if ?b then _ else _) = _ => destruct b end;
          [| ok_inv E0; constructor].
        bind_inv E0. ok_inv E0. apply Forall_when. reflexivity. }
    rewrite (filter_none _ v1).
    2:{ match type of E1 with (if ?b then _ else _) = _ => destruct b end;
          [| ok_inv E1; constructor].
        bind_inv E1. ok_inv E1. apply Forall_when. reflexivity. }
    rewrite !app_nil_l. rewrite E2.
    apply uses_loop in E3. subst v3.
    destruct (Nat.eqb_spec j i) as [-> | N].
    + apply filter_map_all.
    + now apply filter_map_none.
  - intros c. rewrite E4. apply (set_update_mem _ _ _ E5).
Qed.

Lemma step_loop_later (l : list json) (available : pyset) :
  forall (k i : nat) (produced produced' : pyset) (out : list LintIssue),
  (i < k)%nat ->
  for_state (check_step available) produced (enumerate_from k l)
    = Ok (produced', out) ->
  filter (is_dataflow_finding_at i) out = [].
Proof.
  induction l as [| e l IH]; intros k i produced produced' out Hk H.
  - cbn in H. now ok_inv H.
  - cbn [enumerate_from for_state] in H.
    bind_inv H. destruct v as (s1, a).
    bind_inv H. destruct v as (s2, b). ok_inv H.
    rewrite filter_app.
    destruct (check_step_spec _ _ _ i _ _ _ E) as (Ha & _).
    rewrite Ha, (IH (S k) i _ _ _ (Nat.lt_lt_succ_r _ _ Hk) E0).
    replace (k =? i)%nat with false by (symmetry; apply Nat.eqb_neq; lia).
    reflexivity.
Qed.

Lemma step_loop (l : list json) (available : pyset) :
  forall (k : nat) (produced produced' : pyset) (out : list LintIssue),
  for_state (check_step available) produced (enumerate_from k l)
    = Ok (produced', out) ->
  (forall c, set_mem c produced' =
             set_mem c produced || set_mem c (produced_by l)) /\
  forall (n : nat) (step : json),
  nth_error l n = Some step ->
  filter (is_dataflow_finding_at (k + n)) out =
  map (dataflow_finding (k + n))
    (filter (fun a => negb (set_mem a available) &&
                      negb (set_mem a produced ||
                            set_mem a (produced_by (firstn n l))))
       (step_list "uses" step)).
Proof.
  induction l as [| e0 l IH]; intros k produced produced' out H.
  - cbn in H. ok_inv H. split.
    + intros c. cbn. now rewrite orb_false_r.
    + intros n step Hn. destruct n; discriminate Hn.
  - cbn [enumerate_from for_state] in H.
    bind_inv H. destruct v as (s1, a).
    bind_inv H. destruct v as (s2, b). ok_inv H.
    destruct (IH _ _ _ _ E0) as (Hs2 & Hf). split.
    + intros c. rewrite Hs2.
      destruct (check_step_spec _ _ _ 0 _ _ _ E) as (_ & Hs1).
      rewrite Hs1. cbn [produced_by flat_map].
      fold (produced_by l). rewrite set_mem_app.
      now rewrite orb_assoc.
    + intros n step Hn. rewrite filter_app.
      destruct (check_step_spec _ _ _ (k + n) _ _ _ E) as (Ha & Hs1).
      destruct n as [| n].
      * cbn [nth_error] in Hn. injection Hn as ->.
        rewrite Ha, Nat.add_0_r, Nat.eqb_refl.
        rewrite (step_loop_later _ _ (S k) k _ _ _ (Nat.lt_succ_diag_r k) E0).
        cbn [firstn produced_by flat_map set_mem existsb].
        rewrite app_nil_r.
        f_equal. apply filter_ext. intros c. now rewrite orb_false_r.
      * cbn [nth_error] in Hn.
        replace (k + S n)%nat with (S k + n)%nat in * by lia.
        rewrite (Hf n step Hn), Ha.
        replace (k =? S k + n)%nat with false
          by (symmetry; apply Nat.eqb_neq; lia).
        rewrite app_nil_l. f_equal. apply filter_ext. intros c.
        rewrite Hs1. cbn [firstn produced_by flat_map].
        fold (produced_by (firstn n l)). rewrite set_mem_app.
        now rewrite orb_assoc.
Qed.

Lemma set_of_field_hashable (field : string) (l : list json) :
  forall s s', set_of_field field s l = Ok s' ->
  forallb hashable s = true -> forallb hashable s' = true.
Proof.
  induction l as [| x l IH]; intros s s' H Hs.
  - cbn in H. now ok_inv H.
  - cbn [set_of_field] in H. bind_inv H. bind_inv H.
    apply (IH _ _ H). unfold set_add in E0.
    destruct (hashable v) eqn:Hv; [| discriminate]. ok_inv E0.
    destruct (set_mem v s); [exact Hs |].
    rewrite forallb_app, Hs. cbn. now rewrite Hv.
Qed.

Lemma declared_artifacts_hashable (direction : string) (data : json)
  (s : pyset) :
  declared_artifacts direction data = Ok s -> forallb hashable s = true.
Proof.
  unfold declared_artifacts, set_comprehension. intros H.
  do 3 bind_inv H. now apply (set_of_field_hashable _ _ _ _ H).
Qed.

(** A loop over a set that reports the members outside [s]. *)
Lemma outputs_loop (mk : json -> LintIssue) (s : pyset) (outputs : pyset) :
  forallb hashable outputs = true ->
  for_each (fun out =>
    p <- py_in_set out s ;; Ok (when (negb p) (mk out))) outputs =
  Ok (map mk (filter (fun out => negb (set_mem out s)) outputs)).
Proof.
  induction outputs as [| o outputs IH]; cbn [forallb]; intros H.
  - reflexivity.
  - apply andb_prop in H. destruct H as (Ho & H).
    cbn [for_each filter]. unfold py_in_set at 1. rewrite Ho.
    cbn [bind]. rewrite (IH H). cbn [bind].
    now destruct (set_mem o s).
Qed.

Lemma check_algorithm_inv (data algorithm steps_v : json)
  (issues : list LintIssue) :
  _check_algorithm data = Ok issues ->
  py_get data "algorithm" (JObj []) = Ok algorithm ->
  isinstance_dict algorithm = true ->
  py_get algorithm "steps" (JArr []) = Ok steps_v ->
  truthy steps_v = true ->
  exists inputs params steps produced outputs registry_ids i1,
    declared_artifacts "inputs" data = Ok inputs /\
    parameter_names data = Ok params /\
    py_iter steps_v = Ok steps /\
    for_state (check_step (set_union inputs params)) [] (enumerate steps)
      = Ok (produced, i1) /\
    declared_artifacts "outputs" data = Ok outputs /\
    registered_artifacts algorithm = Ok registry_ids /\
    issues =
      i1 ++
      map undeclared_producer_finding
        (filter (fun out => negb (set_mem out produced)) outputs) ++
      map unregistered_finding
        (filter (fun out => negb (set_mem out registry_ids)) outputs).
Proof.
  intros H Ha Hd Hs Ht. unfold _check_algorithm in H.
  rewrite Ha in H. cbn [bind] in H. rewrite Hd in H. cbn [negb] in H.
  rewrite Hs in H. cbn [bind] in H.
  bind_inv H. rewrite Ht in H. cbn [negb] in H.
  do 4 bind_inv H. destruct v3 as (produced, i1).
  do 4 bind_inv H.
  pose proof (declared_artifacts_hashable _ _ _ E4) as Hh.
  rewrite (outputs_loop undeclared_producer_finding) in E5 by exact Hh.
  rewrite (outputs_loop unregistered_finding) in E7 by exact Hh.
  injection E5 as <-. injection E7 as <-. injection H as <-.
  exists v0, v1, v2, produced, v3, v5, i1.
  repeat split; try assumption.
  unfold registered_artifacts. rewrite E. cbn [bind]. exact E6.
Qed.

Lemma filter_dataflow_outputs (i : nat) (mk : json -> LintIssue)
  (l : list json) :
  (forall o, code (mk o) <> "E061") ->
  filter (is_dataflow_finding_at i) (map mk l) = [].
Proof.
  intros H. apply filter_none, Forall_map, Forall_forall.
  intros o _. now apply not_dataflow_finding.
Qed.

(** The data-flow findings of a step: one for each occurrence, in its
    [uses] list, of an artifact that is not available before the step. *)
Lemma dataflow_findings_of_step (data algorithm : json) (steps : list json)
  (issues : list LintIssue) (i : nat) (step : json) (inputs params : pyset) :
  _check_algorithm data = Ok issues ->
  py_get data "algorithm" (JObj []) = Ok algorithm ->
  py_get algorithm "steps" (JArr []) = Ok (JArr steps) ->
  nth_error steps i = Some step ->
  declared_artifacts "inputs" data = Ok inputs ->
  parameter_names data = Ok params ->
  filter (is_dataflow_finding_at i) issues =
  map (dataflow_finding i)
    (filter (unavailable inputs params (firstn i steps))
       (step_list "uses" step)).
Proof.
  intros H Ha Hs Hi Hin Hp.
  assert (Hd : isinstance_dict algorithm = true).
  { destruct algorithm; try discriminate Hs. reflexivity. }
  assert (Ht : truthy (JArr steps) = true).
  { destruct steps; [destruct i; discriminate Hi | reflexivity]. }
  destruct (check_algorithm_inv _ _ _ _ H Ha Hd Hs Ht)
    as (inputs' & params' & steps' & produced & outputs & registry_ids & i1 &
        Hin' & Hp' & Hit & Hloop & _ & _ & ->).
  rewrite Hin in Hin'. rewrite Hp in Hp'. ok_inv Hin'. ok_inv Hp'.
  cbn in Hit. ok_inv Hit.
  rewrite !filter_app.
  rewrite !filter_dataflow_outputs by (intros o; discriminate).
  rewrite !app_nil_r.
  destruct (step_loop _ _ 0 _ _ _ Hloop) as (_ & Hf).
  specialize (Hf i step Hi). cbn [Nat.add] in Hf. rewrite Hf. f_equal.
  apply filter_ext. intros a. unfold unavailable.
  rewrite set_union_mem. cbn [set_mem existsb orb].
  now rewrite negb_orb.
Qed.

Lemma exactly_once_filter {A} (q : A -> bool) (x : A) (l : list A) :
  q x = true -> exactly_once x l -> exactly_once x (filter q l).
Proof.
  intros Hq (l1 & l2 & -> & H1 & H2).
  exists (filter q l1), (filter q l2).
  rewrite filter_app. cbn [filter]. rewrite Hq.
  repeat split; try reflexivity; rewrite filter_In; tauto.
Qed.

Lemma exactly_once_map {A B} (f : A -> B) (x : A) (l : list A) :
  (forall a b, f a = f b -> a = b) ->
  exactly_once x l -> exactly_once (f x) (map f l).
Proof.
  intros Hf (l1 & l2 & -> & H1 & H2).
  exists (map f l1), (map f l2). rewrite map_app. cbn [map].
  repeat split; try reflexivity; rewrite in_map_iff;
    intros (b & E & Hb); apply Hf in E; subst b; tauto.
Qed.

Lemma filter_split {A} (q : A -> bool) (l : list A) :
  forall m1 x m2, filter q l = m1 ++ x :: m2 ->
  exists l1 l2, l = l1 ++ x :: l2 /\ filter q l1 = m1 /\ filter q l2 = m2.
Proof.
  induction l as [| y l IH]; intros m1 x m2 H.
  - destruct m1; discriminate H.
  - cbn [filter] in H. destruct (q y) eqn:Hy.
    + destruct m1 as [| z m1].
      * injection H as -> H. exists [], l. now rewrite H.
      * injection H as -> H. destruct (IH _ _ _ H) as (l1 & l2 & -> & <- & <-).
        exists (z :: l1), l2. cbn [filter app]. now rewrite Hy.
    + destruct (IH _ _ _ H) as (l1 & l2 & -> & <- & <-).
      exists (y :: l1), l2. cbn [filter app]. now rewrite Hy.
Qed.

Lemma exactly_once_unfilter {A} (q : A -> bool) (x : A) (l : list A) :
  q x = true -> exactly_once x (filter q l) -> exactly_once x l.
Proof.
  intros Hq (m1 & m2 & H & H1 & H2).
  destruct (filter_split _ _ _ _ _ H) as (l1 & l2 & -> & <- & <-).
  exists l1, l2. repeat split; try reflexivity;
    intros Hin; [apply H1 | apply H2]; apply filter_In; tauto.
Qed.

Lemma twice_not_once {A} (x : A) : ~ exactly_once x [x; x].
Proof.
  intros (l1 & l2 & H & H1 & H2).
  destruct l1 as [| y l1]; cbn [app] in H.
  - injection H as H. subst l2. apply H2. now left.
  - injection H as H _. subst y. apply H1. now left.
Qed.

(** C1, amended: the data-flow findings of a step are, in order, one for
    each occurrence of an unavailable artifact in its [uses] list; an
    unavailable artifact the list names once gets exactly one finding. *)
Theorem C1_dataflow_findings (data algorithm : json) (steps : list json)
  (issues : list LintIssue) (i : nat) (step : json) (inputs params : pyset) :
  _check_algorithm data = Ok issues ->
  py_get data "algorithm" (JObj []) = Ok algorithm ->
  py_get algorithm "steps" (JArr []) = Ok (JArr steps) ->
  nth_error steps i = Some step ->
  declared_artifacts "inputs" data = Ok inputs ->
  parameter_names data = Ok params ->
  filter (is_dataflow_finding_at i) issues =
    map (dataflow_finding i)
      (filter (unavailable inputs params (firstn i steps))
         (step_list "uses" step)) /\
  forall a,
    exactly_once a (step_list "uses" step) ->
    unavailable inputs params (firstn i steps) a = true ->
    exactly_once (dataflow_finding i a) issues.
Proof.
  intros H Ha Hs Hi Hin Hp.
  pose proof (dataflow_findings_of_step _ _ _ _ _ _ _ _ H Ha Hs Hi Hin Hp)
    as Hf.
  split; [exact Hf |].
  intros a Hone Hun.
  apply (exactly_once_unfilter (is_dataflow_finding_at i)).
  - now rewrite dataflow_finding_at, Nat.eqb_refl.
  - rewrite Hf. apply exactly_once_map; [apply dataflow_finding_inj |].
    now apply exactly_once_filter.
Qed.

Lemma C1_dataflow_findings_witness :
  filter (is_dataflow_finding_at 0)
    [dataflow_finding 0 (JStr "ghost"); dataflow_finding 0 (JStr "ghost")] =
    map (dataflow_finding 0)
      (filter (unavailable [JStr "img"] [JStr "gamma"]
                 (firstn 0 Samples.repeated_steps))
         (step_list "uses"
            (Samples.step "S001" [JStr "ghost"; JStr "ghost"] [JStr "map"])))
  /\
  forall a,
    exactly_once a
      (step_list "uses"
         (Samples.step "S001" [JStr "ghost"; JStr "ghost"] [JStr "map"])) ->
    unavailable [JStr "img"] [JStr "gamma"]
      (firstn 0 Samples.repeated_steps) a = true ->
    exactly_once (dataflow_finding 0 a)
      [dataflow_finding 0 (JStr "ghost"); dataflow_finding 0 (JStr "ghost")].
Proof.
  apply (C1_dataflow_findings Samples.repeated_use
           (Samples.algorithm Samples.repeated_steps) Samples.repeated_steps
           [dataflow_finding 0 (JStr "ghost");
            dataflow_finding 0 (JStr "ghost")]
           0 (Samples.step "S001" [JStr "ghost"; JStr "ghost"] [JStr "map"])
           [JStr "img"] [JStr "gamma"]);
    vm_compute; reflexivity.
Defined.

(** C1 fails as worded: the step of [Samples.repeated_use] lists the
    unknown artifact [ghost] twice and gets two findings for it. *)
Lemma C1_counterexample : ~ dataflow_claim_as_stated.
Proof.
  intros H. unfold dataflow_claim_as_stated in H.
  apply (twice_not_once (dataflow_finding 0 (JStr "ghost"))).
  apply (H Samples.repeated_use (Samples.algorithm Samples.repeated_steps)
           Samples.repeated_steps _ 0
           (Samples.step "S001" [JStr "ghost"; JStr "ghost"] [JStr "map"])
           [JStr "img"] [JStr "gamma"] (JStr "ghost"));
    try (vm_compute; reflexivity).
  cbn. now left.
Qed.

(** C2: a step's [uses] entry is reported exactly when it is neither an
    input, nor a parameter, nor produced by a step before it; what the step
    itself and the later steps produce plays no part. *)
Theorem C2_forward_references (data algorithm : json) (steps : list json)
  (issues : list LintIssue) (i : nat) (step : json) (inputs params : pyset)
  (a : json) :
  _check_algorithm data = Ok issues ->
  py_get data "algorithm" (JObj []) = Ok algorithm ->
  py_get algorithm "steps" (JArr []) = Ok (JArr steps) ->
  nth_error steps i = Some step ->
  declared_artifacts "inputs" data = Ok inputs ->
  parameter_names data = Ok params ->
  (In (dataflow_finding i a) issues <->
   In a (step_list "uses" step) /\
   set_mem a inputs = false /\ set_mem a params = false /\
   set_mem a (produced_by (firstn i steps)) = false).
Proof.
  intros H Ha Hs Hi Hin Hp.
  pose proof (dataflow_findings_of_step _ _ _ _ _ _ _ _ H Ha Hs Hi Hin Hp)
    as Hf.
  assert (Hq : is_dataflow_finding_at i (dataflow_finding i a) = true)
    by now rewrite dataflow_finding_at, Nat.eqb_refl.
  assert (Hu : unavailable inputs params (firstn i steps) a = true <->
               set_mem a inputs = false /\ set_mem a params = false /\
               set_mem a (produced_by (firstn i steps)) = false).
  { unfold unavailable. rewrite !andb_true_iff, !negb_true_iff. tauto. }
  rewrite <- Hu. split.
  - intros Hin'.
    assert (Hin2 : In (dataflow_finding i a)
                     (filter (is_dataflow_finding_at i) issues))
      by (apply filter_In; tauto).
    rewrite Hf in Hin2. apply in_map_iff in Hin2.
    destruct Hin2 as (b & E & Hb). apply dataflow_finding_inj in E. subst b.
    now apply filter_In in Hb.
  - intros Hb.
    assert (Hin2 : In (dataflow_finding i a)
                     (filter (is_dataflow_finding_at i) issues)).
    { rewrite Hf. apply in_map, filter_In. exact Hb. }
    now apply filter_In in Hin2.
Qed.

Lemma C2_forward_references_witness :
  In (dataflow_finding 1 (JStr "own"))
    [dataflow_finding 0 (JStr "late"); dataflow_finding 1 (JStr "own")] <->
  In (JStr "own")
    (step_list "uses"
       (Samples.step "S002" [JStr "mid"; JStr "own"]
          [JStr "late"; JStr "own"; JStr "map"])) /\
  set_mem (JStr "own") [JStr "img"] = false /\
  set_mem (JStr "own") [JStr "gamma"] = false /\
  set_mem (JStr "own") (produced_by (firstn 1 Samples.forward_steps)) = false.
Proof.
  apply (C2_forward_references Samples.forward_reference
           (Samples.algorithm Samples.forward_steps) Samples.forward_steps
           [dataflow_finding 0 (JStr "late"); dataflow_finding 1 (JStr "own")]
           1
           (Samples.step "S002" [JStr "mid"; JStr "own"]
              [JStr "late"; JStr "own"; JStr "map"])
           [JStr "img"] [JStr "gamma"] (JStr "own"));
    vm_compute; reflexivity.
Defined.

Lemma check_step_codes (available produced produced' : pyset) (j : nat)
  (step : json) (out : list LintIssue) :
  check_step available produced (j, step) = Ok (produced', out) ->
  Forall step_code out.
Proof.
  unfold check_step.
  destruct (isinstance_dict step) eqn:D; cbn [negb].
  2:{ intros H. ok_inv H. constructor. }
  intros H. bind_inv H. apply presence_loop_code in E.
  do 10 bind_inv H. ok_inv H.
  repeat (apply Forall_app; split).
  - eapply Forall_impl; [| exact E]. intros x Hx. now left.
  - match type of E1 with (if ?b then _ else _) = _ => destruct b end;
      [| ok_inv E1; constructor].
    bind_inv E1. ok_inv E1. apply Forall_when. now left.
  - match type of E3 with (if ?b then _ else _) = _ => destruct b end;
      [| ok_inv E3; constructor].
    bind_inv E3. ok_inv E3. apply Forall_when. now left.
  - apply uses_loop in E6. subst. apply Forall_map, Forall_forall.
    intros a _. now right.
Qed.

Lemma step_loop_codes (l : list json) (available : pyset) :
  forall (k : nat) (produced produced' : pyset) (out : list LintIssue),
  for_state (check_step available) produced (enumerate_from k l)
    = Ok (produced', out) ->
  Forall step_code out.
Proof.
  induction l as [| e l IH]; intros k produced produced' out H.
  - cbn in H. ok_inv H. constructor.
  - cbn [enumerate_from for_state] in H.
    bind_inv H. destruct v as (s1, a).
    bind_inv H. destruct v as (s2, b). ok_inv H.
    apply Forall_app. split; [eapply check_step_codes | eapply IH]; eauto.
Qed.

(** C6, amended: when the algorithm is an object with a non-empty step
    list, a declared output gets the undeclared-producer finding exactly
    when no step produces it, and the unregistered finding exactly when the
    artifact registry lacks it; the two findings differ. *)
Theorem C6_declared_outputs (data algorithm steps_v : json)
  (steps : list json) (issues : list LintIssue)
  (outputs registry_ids : pyset) (out : json) :
  _check_algorithm data = Ok issues ->
  py_get data "algorithm" (JObj []) = Ok algorithm ->
  isinstance_dict algorithm = true ->
  py_get algorithm "steps" (JArr []) = Ok steps_v ->
  truthy steps_v = true ->
  py_iter steps_v = Ok steps ->
  declared_artifacts "outputs" data = Ok outputs ->
  registered_artifacts algorithm = Ok registry_ids ->
  In out outputs ->
  (In (undeclared_producer_finding out) issues <->
   set_mem out (produced_by steps) = false) /\
  (In (unregistered_finding out) issues <->
   set_mem out registry_ids = false) /\
  undeclared_producer_finding out <> unregistered_finding out.
Proof.
  intros H Ha Hd Hs Ht Hit Ho Hr Hin.
  destruct (check_algorithm_inv _ _ _ _ H Ha Hd Hs Ht)
    as (inputs & params & steps' & produced & outputs' & registry_ids' & i1 &
        _ & _ & Hit' & Hloop & Ho' & Hr' & ->).
  rewrite Hit in Hit'. rewrite Ho in Ho'. rewrite Hr in Hr'.
  ok_inv Hit'. ok_inv Ho'. ok_inv Hr'.
  pose proof (step_loop_codes _ _ _ _ _ _ Hloop) as Hc.
  destruct (step_loop _ _ 0 _ _ _ Hloop) as (Hp & _).
  assert (Hi1 : forall x, In x i1 -> code x <> "E062" /\ code x <> "E070").
  { intros x Hx. rewrite Forall_forall in Hc.
    destruct (Hc x Hx) as [E | E]; rewrite E; split; discriminate. }
  split; [| split].
  - rewrite !in_app_iff, !in_map_iff. split.
    + intros [Hx | [(o & E & Hx) | (o & E & _)]].
      * apply Hi1 in Hx. now destruct Hx as (Hx & _).
      * injection E as ->. apply filter_In in Hx. destruct Hx as (_ & Hx).
        apply negb_true_iff in Hx. now rewrite Hp in Hx.
      * discriminate E.
    + intros Hx. right. left. exists out. split; [reflexivity |].
      apply filter_In. split; [exact Hin |].
      apply negb_true_iff. now rewrite Hp.
  - rewrite !in_app_iff, !in_map_iff. split.
    + intros [Hx | [(o & E & _) | (o & E & Hx)]].
      * apply Hi1 in Hx. now destruct Hx as (_ & Hx).
      * discriminate E.
      * injection E as ->. apply filter_In in Hx. destruct Hx as (_ & Hx).
        now apply negb_true_iff in Hx.
    + intros Hx. right. right. exists out. split; [reflexivity |].
      apply filter_In. split; [exact Hin |]. now apply negb_true_iff.
  - discriminate.
Qed.

Lemma C6_declared_outputs_witness :
  (In (undeclared_producer_finding (JStr "map"))
     [undeclared_producer_finding (JStr "map");
      unregistered_finding (JStr "map")] <->
   set_mem (JStr "map") (produced_by Samples.unproduced_steps) = false) /\
  (In (unregistered_finding (JStr "map"))
     [undeclared_producer_finding (JStr "map");
      unregistered_finding (JStr "map")] <->
   set_mem (JStr "map") [] = false) /\
  undeclared_producer_finding (JStr "map") <>
  unregistered_finding (JStr "map").
Proof.
  apply (C6_declared_outputs Samples.unproduced_output
           Samples.unproduced_algorithm (JArr Samples.unproduced_steps)
           Samples.unproduced_steps
           [undeclared_producer_finding (JStr "map");
            unregistered_finding (JStr "map")]
           [JStr "map"] [] (JStr "map"));
    try (vm_compute; reflexivity).
  now left.
Defined.

(** C6 fails as worded: the algorithm of [Samples.no_steps] has an empty
    step list; the check stops at it and reports nothing about the output
    [map], which no step produces. *)
Lemma C6_counterexample : ~ outputs_claim_as_stated.
Proof.
  intros H. unfold outputs_claim_as_stated in H.
  destruct (H Samples.no_steps (Samples.algorithm []) (JArr []) []
              [mkIssue "E060" ERROR [Txt "algorithm.steps must be non-empty"]
                 "$.algorithm.steps"]
              [JStr "map"] (JStr "map"))
    as (x & Hx & _ & Hn); try (vm_compute; reflexivity).
  - now left.
  - destruct Hx as [<- | []]. destruct Hn as [Hn | []]. discriminate Hn.
Qed.

(** ** Glossary coverage *)

(** C9, amended: the glossary step yields findings only with a glossary
    and a policy other than "off"; when it runs and the short module code is
    non-empty and not a glossary term, it yields one finding, an error under
    "strict" and a warning under any other policy. *)
Theorem C9_glossary_coverage (self : validator) (data : json)
  (issues : list LintIssue) :
  glossary_step self data = Ok issues ->
  (issues <> [] ->
   exists g policy,
     glossary self = Some g /\ truthy g = true /\
     glossary_policy_of data = Ok policy /\ eq_str policy "off" = false) /\
  (forall (g policy abbr : json) (terms : pyset),
     glossary self = Some g ->
     truthy g = true ->
     glossary_policy_of data = Ok policy ->
     eq_str policy "off" = false ->
     glossary_terms_of g = Ok terms ->
     py_get data "module_abbr" (JStr "") = Ok abbr ->
     truthy abbr = true ->
     set_mem abbr terms = false ->
     issues = [glossary_finding policy abbr] /\
     severity (glossary_finding policy abbr) =
       (if eq_str policy "strict" then ERROR else WARNING)).
Proof.
  unfold glossary_step, _check_glossary_coverage.
  destruct (glossary self) as [g |] eqn:G; cbn [glossary_truthy].
  2:{ intros H. ok_inv H. split; [congruence | discriminate]. }
  destruct (truthy g) eqn:T.
  2:{ intros H. ok_inv H. split; [congruence |].
      intros g' policy abbr terms Hg T'. congruence. }
  intros H. bind_inv H. cbn [negb] in H. rewrite orb_false_r in H.
  destruct (eq_str v "off") eqn:Off.
  { ok_inv H. split; [congruence |].
    intros g' policy abbr terms _ _ Hp Hoff. congruence. }
  split.
  - intros _. exists g, v. auto.
  - intros g' policy abbr terms Hg _ Hp _ Ht Ha Habbr Hmem.
    injection Hg as <-. rewrite E in Hp. injection Hp as <-.
    rewrite Ht, Ha in H. cbn [bind] in H. rewrite Habbr in H.
    unfold py_in_set in H. destruct (hashable abbr); [| discriminate H].
    cbn [bind] in H. rewrite Hmem in H. cbn [negb bind when] in H.
    ok_inv H. split; [reflexivity |].
    unfold glossary_finding. cbn [severity]. reflexivity.
Qed.

Lemma C9_glossary_coverage_witness :
  ([glossary_finding (JStr "strict") (JStr "TON")] <> [] ->
   exists g policy,
     glossary Samples.with_xyz = Some g /\ truthy g = true /\
     glossary_policy_of Samples.clean = Ok policy /\
     eq_str policy "off" = false) /\
  (forall (g policy abbr : json) (terms : pyset),
     glossary Samples.with_xyz = Some g ->
     truthy g = true ->
     glossary_policy_of Samples.clean = Ok policy ->
     eq_str policy "off" = false ->
     glossary_terms_of g = Ok terms ->
     py_get Samples.clean "module_abbr" (JStr "") = Ok abbr ->
     truthy abbr = true ->
     set_mem abbr terms = false ->
     [glossary_finding (JStr "strict") (JStr "TON")] =
       [glossary_finding policy abbr] /\
     severity (glossary_finding policy abbr) =
       (if eq_str policy "strict" then ERROR else WARNING)).
Proof.
  apply (C9_glossary_coverage Samples.with_xyz Samples.clean
           [glossary_finding (JStr "strict") (JStr "TON")]).
  vm_compute. reflexivity.
Defined.

(** C9 fails as worded: the short code of [Samples.empty_abbr] is the empty
    string, which is no glossary term, and the check that runs under the
    "strict" policy emits nothing. *)
Lemma C9_counterexample : ~ glossary_claim_as_stated.
Proof.
  intros H. unfold glossary_claim_as_stated in H.
  destruct (H Samples.with_xyz Samples.empty_abbr Samples.glossary_xyz
              (JStr "strict") (JStr "") [JStr "XYZ"] [])
    as (x & [] & _); vm_compute; reflexivity.
Qed.

(** ** Structural checks *)

Lemma errors_at_app (p : string) (l1 l2 : list LintIssue) :
  errors_at p (l1 ++ l2) = (errors_at p l1 + errors_at p l2)%nat.
Proof. unfold errors_at. now rewrite filter_app, length_app. Qed.

Lemma errors_at_when (p : string) (b : bool) (x : LintIssue) :
  errors_at p (when b x) = if b && error_at p x then 1%nat else 0%nat.
Proof.
  unfold errors_at. rewrite filter_when.
  now destruct (b && error_at p x).
Qed.

Lemma errors_at_nil (p : string) : errors_at p [] = 0%nat.
Proof. reflexivity. Qed.

Lemma errors_at_one (p : string) (x : LintIssue) :
  errors_at p [x] = if error_at p x then 1%nat else 0%nat.
Proof. unfold errors_at. cbn [filter]. now destruct (error_at p x). Qed.

Lemma collect_app (g1 g2 : list (bool * LintIssue)) :
  collect (g1 ++ g2) = collect g1 ++ collect g2.
Proof. apply flat_map_app. Qed.

Lemma presence_loop_object (c : string) (m : list (string * json))
  (msg : string -> list part) (pth : string -> string)
  (fields : list string) :
  for_each (fun f =>
    present <- py_in f (JObj m) ;;
    Ok (when (negb present) (mkIssue c ERROR (msg f) (pth f)))) fields =
  Ok (collect (map (fun f => (lacks m f, mkIssue c ERROR (msg f) (pth f)))
                 fields)).
Proof.
  induction fields as [| f fields IH]; [reflexivity |].
  cbn [for_each map]. rewrite IH. cbn [py_in bind]. unfold lacks.
  now destruct (lookup f m).
Qed.

Lemma re_match_rejects (p : string -> bool) (v : json) (b : bool) :
  re_match p v = Ok b -> negb b = rejects p v.
Proof. destruct v; try discriminate. cbn. now intros [= <-]. Qed.

Lemma py_in_strings_Ok (v : json) (S : list string) (b : bool) :
  py_in_strings v S = Ok b -> b = existsb (eq_str v) S.
Proof. unfold py_in_strings. destruct (hashable v); now intros [= <-]. Qed.

Lemma required_fields_spec (m : list (string * json)) :
  _check_required_fields (JObj m) =
  Ok (collect (map (fun f =>
        (lacks m f,
         mkIssue "E010" ERROR
           [Txt "Missing required field: "; Fmt (JStr f)] ("$." ++ f)))
        REQUIRED_FIELDS)).
Proof.
  unfold _check_required_fields.
  apply (presence_loop_object "E010" m
           (fun f => [Txt "Missing required field: "; Fmt (JStr f)])
           (fun f => ("$." ++ f)%string)).
Qed.

Lemma schema_block_spec (m s : list (string * json)) (c2 : list LintIssue) :
  _check_schema_block (JObj m) = Ok c2 ->
  schema_of m = JObj s ->
  exists n2 n3 n4 n5 n6 n7 : list part,
  c2 = collect (
    map (fun f =>
      (lacks s f,
       mkIssue "E011" ERROR [Txt "Missing _schema."; Fmt (JStr f)]
         ("$._schema." ++ f))) REQUIRED_SCHEMA_FIELDS ++
    [(negb (eq_str (field s "name" JNull) "A-PRACTICAL.contract"),
      mkIssue "E011" ERROR n2 "$._schema.name");
     (negb (eq_str (field s "stage" JNull) "A.contract_only"),
      mkIssue "E011" ERROR n3 "$._schema.stage");
     (negb (existsb (eq_str (field s "maturity_stage" JNull))
              VALID_MATURITY_STAGES),
      mkIssue "E011" ERROR n4 "$._schema.maturity_stage");
     (negb (existsb (eq_str (field s "underpainting_intent" JNull))
              VALID_UNDERPAINTING_INTENTS),
      mkIssue "E011" ERROR n5 "$._schema.underpainting_intent");
     (timestamp_reported s "created_at",
      mkIssue "E012" ERROR n6 "$._schema.created_at");
     (timestamp_reported s "updated_at",
      mkIssue "E012" ERROR n7 "$._schema.updated_at")]).
Proof.
  unfold _check_schema_block, schema_of. cbn [py_get bind].
  intros H Hs. rewrite Hs in H. cbn [isinstance_dict negb] in H.
  rewrite (presence_loop_object "E011" s
             (fun f => [Txt "Missing _schema."; Fmt (JStr f)])
             (fun f => ("$._schema." ++ f)%string)) in H.
  cbn [bind py_get] in H. fold (field s "name" JNull) in H.
  fold (field s "stage" JNull) in H.
  fold (field s "maturity_stage" JNull) in H.
  fold (field s "underpainting_intent" JNull) in H.
  bind_inv H. apply py_in_strings_Ok in E. subst v.
  bind_inv H. apply py_in_strings_Ok in E. subst v.
  bind_inv H. ok_inv H.
  cbn [for_each py_get bind] in E.
  fold (field s "created_at" (JStr "")) in E.
  fold (field s "updated_at" (JStr "")) in E.
  do 2 bind_inv E. ok_inv E. bind_inv E1. ok_inv E1.
  assert (T : forall f n t,
            (if truthy (field s f (JStr ""))
             then b <- re_match TIMESTAMP_PATTERN (field s f (JStr "")) ;;
                  Ok (when (negb b) (mkIssue "E012" ERROR n ("$._schema." ++ f)))
             else Ok []) = Ok t ->
            t = when (timestamp_reported s f)
                  (mkIssue "E012" ERROR n ("$._schema." ++ f))).
  { intros f n t. unfold timestamp_reported.
    destruct (truthy (field s f (JStr ""))); cbn [andb].
    - intros Hb. apply bind_Ok in Hb. destruct Hb as (b & Hr & Hb).
      ok_inv Hb. now rewrite (re_match_rejects _ _ _ Hr).
    - now intros [= <-]. }
  apply T in E0. apply T in E. subst.
  do 6 eexists. rewrite collect_app. f_equal.
  cbn [collect flat_map fst snd]. rewrite !app_nil_r. reflexivity.
Qed.

Lemma module_identity_spec (m : list (string * json)) (c3 : list LintIssue) :
  _check_module_identity (JObj m) = Ok c3 ->
  exists n1 n2 n3 n4 n5 : list part,
  c3 = collect
    [(rejects MODULE_ID_PATTERN (field m "module_id" (JStr "")),
      mkIssue "E013" ERROR n1 "$.module_id");
     (rejects MODULE_ABBR_PATTERN (field m "module_abbr" (JStr "")),
      mkIssue "E013" ERROR n2 "$.module_abbr");
     (negb (existsb (eq_str (field m "module_type" (JStr "")))
              VALID_MODULE_TYPES),
      mkIssue "E013" ERROR n3 "$.module_type");
     (rejects SEMVER_PATTERN (field m "version" (JStr "")),
      mkIssue "E013" ERROR n4 "$.version");
     (negb (has_names (field m "module_name" (JObj []))),
      mkIssue "E014" ERROR n5 "$.module_name")].
Proof.
  unfold _check_module_identity. cbn [py_get bind].
  fold (field m "module_id" (JStr "")). fold (field m "module_abbr" (JStr "")).
  fold (field m "module_type" (JStr "")). fold (field m "version" (JStr "")).
  fold (field m "module_name" (JObj [])).
  intros H. do 5 bind_inv H. ok_inv H.
  apply re_match_rejects in E, E0, E2. apply py_in_strings_Ok in E1.
  rewrite E, E0, E2, E1.
  do 5 eexists. cbn [collect flat_map fst snd]. rewrite app_nil_r.
  do 4 f_equal.
  replace v3 with (negb (has_names (field m "module_name" (JObj []))));
    [reflexivity |].
  destruct (field m "module_name" (JObj [])) as [| | | | | | n];
    cbn in E3; try now ok_inv E3.
  unfold has_names. destruct (lookup "uk" n); cbn in E3; [| now ok_inv E3].
  destruct (lookup "en" n); now ok_inv E3.
Qed.

Lemma schema_block_not_object (m : list (string * json)) :
  isinstance_dict (schema_of m) = false ->
  _check_schema_block (JObj m) =
  Ok (collect
        [(true, mkIssue "E011" ERROR [Txt "_schema must be an object"]
                  "$._schema")]).
Proof.
  unfold _check_schema_block, schema_of. cbn [py_get bind].
  now intros ->.
Qed.

Lemma Ok_inj {A} (a b : A) : Ok a = Ok b -> a = b.
Proof. now intros [= ->]. Qed.

Lemma errors_at_collect (p : string) (gs : list (bool * LintIssue)) :
  errors_at p (collect gs) =
  count_true (map fst (filter (fun g => error_at p (snd g)) gs)).
Proof.
  induction gs as [| (b, x) gs IH]; [reflexivity |].
  change (collect ((b, x) :: gs)) with (when b x ++ collect gs).
  rewrite errors_at_app, errors_at_when, IH. cbn [filter snd].
  destruct (error_at p x); [| now rewrite andb_false_r].
  rewrite andb_true_r. cbn [map fst]. unfold count_true. cbn [filter].
  now destruct b.
Qed.

Lemma field_lookup (m : list (string * json)) (k : string) (d v : json) :
  lookup k m = Some v -> field m k d = v.
Proof. unfold field. now intros ->. Qed.

Lemma lacks_lookup (m : list (string * json)) (k : string) :
  lookup k m = None -> lacks m k = true.
Proof. unfold lacks. now intros ->. Qed.

(** Evaluate the count of error findings at a literal path in a list of
    guarded findings, and settle the bounds. *)
Ltac count_errors :=
  rewrite errors_at_collect;
  lazy [REQUIRED_FIELDS REQUIRED_SCHEMA_FIELDS map filter app fst snd
        error_at is_error severity path Severity_eqb String.eqb Ascii.eqb
        Bool.eqb andb String.append count_true List.length];
  try match goal with
      | H : lookup ?k ?m = None |- _ => rewrite (lacks_lookup m k H)
      end;
  try match goal with
      | H : ?b = true |- context [?b] => rewrite H
      | H : ?b = false |- context [?b] => rewrite H
      end;
  repeat match goal with
         | |- context [if ?b then _ else _] => destruct b
         end;
  lia.




(** An empty timestamp is present and is no timestamp, and the structural
    checks report nothing about it. *)
Example empty_timestamp_unreported :
  structural_checks (JObj Samples.empty_timestamp) = Ok [].
Proof. vm_compute. reflexivity. Qed.

(** * Further properties of the code *)

(** ** Results of a validation *)

Lemma validate_contract_Ok (self : validator) (fs : filesystem)
  (path : string) (r : LintResult) :
  validate_contract self fs path = Ok r ->
  exists data issues,
    fs path = Holds data /\ run_checks self data = Ok issues /\
    r = build_result path issues.
Proof.
  unfold validate_contract, exists_, _load_json.
  destruct (fs path) as [| | data]; cbn [negb bind]; try discriminate.
  intros H. bind_inv H. exists data, v. injection H as <-. auto.
Qed.

Lemma passed_iff_errors_nil (p : string) (issues : list LintIssue) :
  passed (build_result p issues) = true <->
  errors (build_result p issues) = [].
Proof.
  unfold build_result; cbn [passed errors].
  rewrite Nat.eqb_eq. apply length_zero_iff_nil.
Qed.

(** ** Exceptions of a validation *)


(** ** Strict validation *)

(** X2: [validate_contract_strict] returns exactly when validation returns a
    result without error findings; a result with error findings becomes the
    load-class error, and what validation raises passes through. *)
Theorem strict_validation (self : validator) (fs : filesystem)
  (path : string) :
  (validate_contract_strict self fs path = Ok tt <->
   exists r, validate_contract self fs path = Ok r /\ errors r = []) /\
  (forall r, validate_contract self fs path = Ok r -> errors r <> [] ->
     validate_contract_strict self fs path = Raise ContractLintError) /\
  (forall e, validate_contract self fs path = Raise e ->
     validate_contract_strict self fs path = Raise e).
Proof.
  unfold validate_contract_strict.
  assert (P : forall r, validate_contract self fs path = Ok r ->
                passed r = true <-> errors r = []).
  { intros r H. destruct (validate_contract_Ok _ _ _ _ H)
      as (d & i & _ & _ & ->). apply passed_iff_errors_nil. }
  destruct (validate_contract self fs path) as [r | e] eqn:V; cbn [bind].
  - specialize (P r eq_refl). split; [| split].
    + split.
      * intros H. exists r. split; [reflexivity |]. apply P.
        destruct (passed r); [reflexivity | discriminate H].
      * intros (r' & [= <-] & E). apply P in E. now rewrite E.
    + intros r' [= <-] N. destruct (passed r); [| reflexivity].
      exfalso. apply N, P. reflexivity.
    + discriminate.
  - split; [| split].
    + split; [discriminate | intros (r & H & _); discriminate H].
    + discriminate.
    + now intros e' [= <-].
Qed.

(** ** Partition of the findings *)

Lemma partition_by_severity (issues : list LintIssue) :
  Permutation issues (filter is_error issues ++ filter is_warning issues).
Proof.
  induction issues as [| x l IH]; [constructor |].
  cbn [filter]. unfold is_error at 1, is_warning at 1.
  destruct (severity x); cbn [Severity_eqb app].
  - now constructor.
  - now apply Permutation_cons_app.
Qed.

(** X3: No finding is dropped and none is invented: the errors and the
    warnings of a result are the findings of the checks, each once, every
    error among [errors] and every warning among [warnings], both in the order
    of the checks. *)
Theorem findings_partitioned (self : validator) (fs : filesystem)
  (path : string) (r : LintResult) :
  validate_contract self fs path = Ok r ->
  exists data issues,
    fs path = Holds data /\ run_checks self data = Ok issues /\
    Permutation issues (errors r ++ warnings r) /\
    Forall (fun x => severity x = ERROR) (errors r) /\
    Forall (fun x => severity x = WARNING) (warnings r) /\
    (List.length (errors r) + List.length (warnings r) =
     List.length issues)%nat /\
    file_path r = path.
Proof.
  intros H. destruct (validate_contract_Ok _ _ _ _ H) as (d & i & F & R & ->).
  exists d, i. unfold build_result; cbn [errors warnings file_path].
  split; [exact F |]. split; [exact R |].
  split; [apply partition_by_severity |].
  split; [| split; [| split; [| reflexivity]]].
  - apply Forall_forall. intros x Hx. apply filter_In in Hx.
    destruct Hx as (_ & Hx). unfold is_error in Hx.
    now destruct (severity x).
  - apply Forall_forall. intros x Hx. apply filter_In in Hx.
    destruct Hx as (_ & Hx). unfold is_warning in Hx.
    now destruct (severity x).
  - rewrite <- length_app. symmetry. apply Permutation_length.
    apply partition_by_severity.
Qed.

Lemma findings_partitioned_witness :
  exists data issues,
    Samples.holding Samples.defective "c.json" = Holds data /\
    run_checks Samples.no_glossary data = Ok issues /\
    Permutation issues
      (errors Samples.defective_result ++ warnings Samples.defective_result) /\
    Forall (fun x => severity x = ERROR) (errors Samples.defective_result) /\
    Forall (fun x => severity x = WARNING)
      (warnings Samples.defective_result) /\
    (List.length (errors Samples.defective_result) +
     List.length (warnings Samples.defective_result) =
     List.length issues)%nat /\
    file_path Samples.defective_result = "c.json".
Proof.
  apply (findings_partitioned Samples.no_glossary
           (Samples.holding Samples.defective) "c.json"
           Samples.defective_result).
  vm_compute. reflexivity.
Defined.

(** ** Perfect and floor scores *)

(** X4: The score is 100 exactly when the checks report nothing at all, and 0
    exactly when they report five errors or more. *)
Theorem score_extremes (p : string) (issues : list LintIssue) :
  (score (build_result p issues) = 100%Z <-> issues = []) /\
  (score (build_result p issues) = 0%Z <-> (5 <= error_count issues)%Z).
Proof.
  rewrite score_of_path, score_of_eq.
  assert (He : (0 <= error_count issues)%Z) by (unfold error_count; lia).
  assert (Hw : (0 <= warning_count issues)%Z) by (unfold warning_count; lia).
  assert (Hn : issues = [] <->
               error_count issues = 0%Z /\ warning_count issues = 0%Z).
  { unfold error_count, warning_count. split.
    - now intros ->.
    - intros (E & W).
      pose proof (Permutation_length (partition_by_severity issues)) as L.
      rewrite length_app in L. apply length_zero_iff_nil. lia. }
  rewrite Hn.
  destruct (0 <? error_count issues)%Z eqn:E;
    [apply Z.ltb_lt in E | apply Z.ltb_ge in E]; split; split; intros; lia.
Qed.

(** ** Construction of the validator *)

Lemma init_cases (fs : filesystem) (schema_path : string)
  (glossary_path : option string) (strict_mode : bool) :
  __init__ fs schema_path glossary_path strict_mode =
  match fs schema_path with
  | Holds j =>
      if match glossary_path with
         | Some g => match fs g with Unparseable => true | _ => false end
         | None => false
         end
      then Raise ContractLintError
      else Ok (mkValidator schema_path glossary_path strict_mode j
                 (glossary_loaded fs glossary_path))
  | _ => Raise ContractLintError
  end.
Proof.
  unfold __init__, _load_json, exists_, glossary_loaded.
  destruct (fs schema_path); cbn [bind]; try reflexivity.
  destruct glossary_path as [g |]; [| reflexivity].
  destruct (fs g); reflexivity.
Qed.

Lemma init_raises (fs : filesystem) (schema_path : string)
  (glossary_path : option string) (strict_mode : bool) (e : exn) :
  __init__ fs schema_path glossary_path strict_mode = Raise e <->
  e = ContractLintError /\
  (fs schema_path = Missing \/ fs schema_path = Unparseable \/
   exists g, glossary_path = Some g /\ fs g = Unparseable).
Proof.
  rewrite init_cases.
  destruct (fs schema_path) as [| | j].
  - split; [intros [= <-]; auto | now intros (-> & _)].
  - split; [intros [= <-]; auto | now intros (-> & _)].
  - destruct glossary_path as [g |].
    + destruct (fs g) eqn:G.
      * split; [discriminate |].
        intros (_ & [H | [H | (g' & [= <-] & H)]]); congruence.
      * split; [intros [= <-]; split; [reflexivity |] | now intros (-> & _)].
        right. right. now exists g.
      * split; [discriminate |].
        intros (_ & [H | [H | (g' & [= <-] & H)]]); congruence.
    + split; [discriminate |].
      intros (_ & [H | [H | (g' & H & _)]]); congruence.
Qed.


(** X6: A validator constructed without a glossary file, because no path was
    given or because the file is missing, never reports on glossary coverage. *)
Theorem no_glossary_no_findings (fs : filesystem) (schema_path : string)
  (glossary_path : option string) (strict_mode : bool) (v : validator)
  (data : json) :
  __init__ fs schema_path glossary_path strict_mode = Ok v ->
  (glossary_path = None \/
   exists g, glossary_path = Some g /\ fs g = Missing) ->
  glossary_step v data = Ok [].
Proof.
  intros H Hg.
  assert (G : glossary v = glossary_loaded fs glossary_path).
  { rewrite init_cases in H. destruct (fs schema_path); try discriminate H.
    destruct (match glossary_path with Some _ => _ | None => _ end);
      [discriminate H |].
    injection H as <-. reflexivity. }
  unfold glossary_step. rewrite G. unfold glossary_loaded.
  destruct Hg as [-> | (g & -> & M)]; [reflexivity |].
  now rewrite M.
Qed.

Lemma no_glossary_no_findings_witness :
  glossary_step Samples.glossary_missing Samples.clean = Ok [].
Proof.
  apply (no_glossary_no_findings Samples.folder "schema.json"
           (Some "none.json") true Samples.glossary_missing Samples.clean).
  - vm_compute. reflexivity.
  - right. exists "none.json". split; reflexivity.
Defined.

(** ** Validation of a directory *)

Lemma validate_each_spec (self : validator) (fs : filesystem)
  (paths : list string) :
  forall acc out,
  validate_each self fs acc paths = Ok out <->
  exists rs, out = acc ++ rs /\
             Forall2 (fun p r => validate_contract self fs p = Ok r) paths rs.
Proof.
  induction paths as [| p paths IH]; intros acc out; cbn [validate_each].
  - split.
    + intros [= <-]. exists []. rewrite app_nil_r. auto.
    + intros (rs & -> & F). inversion F. now rewrite app_nil_r.
  - split.
    + intros H. bind_inv H. apply IH in H. destruct H as (rs & -> & F).
      exists (v :: rs). rewrite <- app_assoc. split; [reflexivity |].
      now constructor.
    + intros (rs & -> & F). inversion F as [| p' r ps rs' Hr F' E1 E2].
      subst. rewrite Hr. cbn [bind]. apply IH. exists rs'.
      rewrite <- app_assoc. auto.
Qed.

(** X7: [validate_directory] returns exactly when the root exists and every
    found document validates; it then returns one result per document, in the
    order found, each the result of validating that document. *)
Theorem directory_results (self : validator) (fs : filesystem)
  (found : list string) (root : string) (out : list LintResult) :
  validate_directory self fs found root = Ok out <->
  exists_ fs root = true /\
  Forall2 (fun p r => validate_contract self fs p = Ok r) found out.
Proof.
  unfold validate_directory. destruct (exists_ fs root); cbn [negb].
  - rewrite validate_each_spec. split.
    + intros (rs & -> & F). auto.
    + intros (_ & F). exists out. auto.
  - split; [discriminate | intros (H & _); discriminate H].
Qed.

Lemma validate_each_abort (self : validator) (fs : filesystem)
  (pre : list string) :
  forall acc p post e,
  Forall (fun q => exists r, validate_contract self fs q = Ok r) pre ->
  validate_contract self fs p = Raise e ->
  validate_each self fs acc (pre ++ p :: post) = Raise e.
Proof.
  induction pre as [| q pre IH]; intros acc p post e F H; cbn [app validate_each].
  - now rewrite H.
  - inversion F as [| q' pre' (r & Hr) F' E]; subst.
    rewrite Hr. cbn [bind]. now apply IH.
Qed.

(** X8: The first found document on which validation raises aborts the whole
    directory run with that exception: the results computed before it are lost
    and the documents after it are not looked at. *)
Theorem directory_aborts (self : validator) (fs : filesystem)
  (pre post : list string) (p root : string) (e : exn) :
  exists_ fs root = true ->
  Forall (fun q => exists r, validate_contract self fs q = Ok r) pre ->
  validate_contract self fs p = Raise e ->
  validate_directory self fs (pre ++ p :: post) root = Raise e.
Proof.
  intros R F H. unfold validate_directory. rewrite R. cbn [negb].
  now apply validate_each_abort.
Qed.

Lemma directory_aborts_witness :
  validate_directory Samples.no_glossary Samples.folder
    (["a.json"] ++ "b.json" :: ["c.json"]) "contracts"
  = Raise ContractLintError.
Proof.
  apply (directory_aborts Samples.no_glossary Samples.folder
           ["a.json"] ["c.json"] "b.json" "contracts" ContractLintError).
  - reflexivity.
  - constructor; [| constructor].
    eexists. vm_compute. reflexivity.
  - reflexivity.
Defined.

(** ** Discovery of contract files *)

Lemma prefix_of_append (p s : string) : prefix_of p (p ++ s) = true.
Proof.
  induction p as [| c p IH]; [reflexivity |].
  cbn. now rewrite Ascii.eqb_refl, IH.
Qed.

Lemma endswith_append (s p : string) :
  BatchValidator.endswith (s ++ p) p = true.
Proof.
  induction s as [| c s IH].
  - cbn [append]. destruct p; cbn [BatchValidator.endswith];
      now rewrite String.eqb_refl.
  - cbn [append BatchValidator.endswith]. rewrite IH. apply orb_true_r.
Qed.

Section BatchProperties.

Variable Path : Type.
Variable name : Path -> string.
Variable relative_to : Path -> Path -> bool.
Variable str : Path -> string.

Local Abbreviation _is_contract_file := (BatchValidator._is_contract_file Path name).
Local Abbreviation _find_contracts :=
  (BatchValidator._find_contracts Path name relative_to).
Local Abbreviation validate_one := (BatchValidator.validate_one Path str).
Local Abbreviation main := (BatchValidator.main Path name relative_to str).
Local Abbreviation kept := (kept Path name relative_to).
Local Abbreviation fails := (fails Path str).
Local Abbreviation schema_path_of := (schema_path_of Path).
Local Abbreviation glossary_path_of := (glossary_path_of Path str).
Local Abbreviation unusable := (unusable Path str).

(** X9: A file the batch validator writes, or a service file, is never taken
    for a contract, whatever else its name contains: the per-contract report
    [<stem>_lint.json], a [_report.json], the [summary.json], and the names
    that start with [katalog_], [glossary_] or [contract_schema_]. *)
Theorem reports_are_not_contracts (p : Path) (s : string) :
  (name p = s ++ "_lint.json" \/ name p = s ++ "_report.json" \/
   name p = s ++ "summary.json" \/ name p = "katalog_" ++ s \/
   name p = "glossary_" ++ s \/ name p = "contract_schema_" ++ s)%string ->
  _is_contract_file p = false.
Proof.
  unfold BatchValidator._is_contract_file. cbn [existsb].
  intros [H | [H | [H | [H | [H | H]]]]]; rewrite H;
    rewrite ?prefix_of_append, ?endswith_append, ?orb_true_r;
    cbn [orb];
    repeat match goal with
           | |- (if ?b then false else _) = false => destruct b
           end; reflexivity.
Qed.

Lemma find_loop_spec (exclude_dir : option Path) (found : list Path) :
  forall contracts,
  BatchValidator.find_loop Path name relative_to exclude_dir contracts found
  = contracts ++ filter (kept exclude_dir) found.
Proof.
  unfold kept.
  induction found as [| p found IH]; intros contracts;
    cbn [BatchValidator.find_loop filter].
  - now rewrite app_nil_r.
  - destruct (match exclude_dir with
              | Some d => relative_to p d
              | None => false
              end); cbn [negb andb]; [apply IH |].
    destruct (_is_contract_file p); [| apply IH].
    rewrite IH, <- app_assoc. reflexivity.
Qed.

(** X10: [_find_contracts] returns, in the order found, exactly the found
    paths that are contract files outside the excluded directory; nothing
    under the excluded directory is ever returned. *)
Theorem found_contracts (found : list Path) (exclude_dir : option Path) :
  _find_contracts found exclude_dir = filter (kept exclude_dir) found /\
  (forall p, In p (_find_contracts found exclude_dir) <->
             In p found /\ _is_contract_file p = true /\
             forall d, exclude_dir = Some d -> relative_to p d = false) /\
  (forall d p, exclude_dir = Some d -> relative_to p d = true ->
               ~ In p (_find_contracts found exclude_dir)).
Proof.
  assert (E : _find_contracts found exclude_dir
              = filter (kept exclude_dir) found)
    by apply (find_loop_spec exclude_dir found []).
  assert (K : forall p, kept exclude_dir p = true <->
              _is_contract_file p = true /\
              forall d, exclude_dir = Some d -> relative_to p d = false).
  { intros p. unfold kept. rewrite andb_true_iff, negb_true_iff.
    destruct exclude_dir as [d |].
    - split.
      + intros (H1 & H2). split; [exact H2 |]. now intros d' [= <-].
      + intros (H1 & H2). split; [now apply H2 | exact H1].
    - split; [intros (_ & H); split; [exact H | discriminate] | tauto]. }
  split; [exact E |]. split.
  - intros p. rewrite E, filter_In, K. tauto.
  - intros d p -> R. rewrite E, filter_In, K. intros (_ & _ & H).
    specialize (H d eq_refl). congruence.
Qed.

(** ** The batch run *)

Lemma validate_one_step (validator : ContractLintValidator.validator)
  (fs : filesystem) (c : BatchValidator.counts) (p : Path) :
  let c' := validate_one validator fs c p in
  (BatchValidator.passed_count c' + BatchValidator.failed_count c'
   = BatchValidator.passed_count c + BatchValidator.failed_count c + 1)%nat /\
  BatchValidator.failed_count c'
  = (BatchValidator.failed_count c
     + List.length (filter (fails validator fs) [p]))%nat /\
  BatchValidator.failed_files c'
  = BatchValidator.failed_files c
    ++ map str (filter (fails validator fs) [p]) /\
  List.length (BatchValidator.results c')
  = (List.length (BatchValidator.results c) + 1)%nat.
Proof.
  cbn zeta. cbn [filter]. unfold BatchValidator.validate_one, fails.
  destruct (validate_contract validator fs (str p)) as [r | e];
    [destruct (passed r) |];
    cbn [negb BatchValidator.passed_count BatchValidator.failed_count
         BatchValidator.failed_files BatchValidator.results
         List.length map];
    rewrite ?length_app, ?app_nil_r; cbn [List.length];
    repeat split; lia.
Qed.

Lemma validate_loop (validator : ContractLintValidator.validator)
  (fs : filesystem) (contracts : list Path) :
  forall c,
  let c' := fold_left (validate_one validator fs) contracts c in
  (BatchValidator.passed_count c' + BatchValidator.failed_count c'
   = BatchValidator.passed_count c + BatchValidator.failed_count c
     + List.length contracts)%nat /\
  BatchValidator.failed_count c'
  = (BatchValidator.failed_count c
     + List.length (filter (fails validator fs) contracts))%nat /\
  BatchValidator.failed_files c'
  = BatchValidator.failed_files c
    ++ map str (filter (fails validator fs) contracts) /\
  List.length (BatchValidator.results c')
  = (List.length (BatchValidator.results c) + List.length contracts)%nat.
Proof.
  induction contracts as [| p contracts IH]; intros c; cbn [fold_left].
  - cbn [filter map List.length]. rewrite app_nil_r.
    repeat split; lia.
  - specialize (IH (validate_one validator fs c p)). cbn zeta in IH.
    destruct IH as (I1 & I2 & I3 & I4).
    destruct (validate_one_step validator fs c p) as (S1 & S2 & S3 & S4).
    cbn zeta. rewrite I3, I4, S3, S4.
    change (p :: contracts) with ([p] ++ contracts).
    rewrite filter_app, map_app, !length_app, <- app_assoc.
    cbn [List.length] in *. repeat split; try lia.
Qed.

Local Abbreviation contracts_of found args :=
  (_find_contracts found (Some (BatchValidator.out Path args))).

Lemma main_cases (fs : filesystem) (is_dir : Path -> bool)
  (default_schema : Path) (found : list Path)
  (args : BatchValidator.arguments Path) :
  (unusable fs is_dir default_schema args /\
   main fs is_dir default_schema found args = Ok (2%Z, None)) \/
  (~ unusable fs is_dir default_schema args /\
   exists_ fs (str (schema_path_of default_schema args)) = true /\
   match __init__ fs (str (schema_path_of default_schema args))
           (option_map str (glossary_path_of fs args))
           (BatchValidator.strict Path args) with
   | Raise e => main fs is_dir default_schema found args = Raise e
   | Ok v =>
       match contracts_of found args with
       | [] => main fs is_dir default_schema found args
               = Ok (0%Z, Some (BatchValidator.mkSummary 0 0 0 [] []))
       | _ :: _ =>
           let c := fold_left (validate_one v fs) (contracts_of found args)
                      (BatchValidator.mkCounts [] 0 0 []) in
           main fs is_dir default_schema found args
           = Ok (if (BatchValidator.failed_count c =? 0)%nat
                 then 0%Z else 1%Z,
                 Some (BatchValidator.mkSummary
                         (List.length (contracts_of found args))
                         (BatchValidator.passed_count c)
                         (BatchValidator.failed_count c)
                         (BatchValidator.failed_files c)
                         (BatchValidator.results c)))
       end
   end).
Proof.
  unfold unusable, BatchValidator.main, schema_path_of, glossary_path_of.
  destruct (exists_ fs (str (BatchValidator.contracts_root Path args)));
    cbn [negb orb]; [| left; auto].
  destruct (is_dir (BatchValidator.contracts_root Path args));
    cbn [negb]; [| left; auto].
  destruct (exists_ fs (str match BatchValidator.schema_arg Path args with
                            | Some s => s
                            | None => default_schema
                            end)) eqn:S; cbn [negb]; [| left; auto].
  right. split; [intros [H | [H | H]]; discriminate H |].
  split; [reflexivity |].
  destruct (__init__ _ _ _ _) as [v | e]; cbn [bind]; [| reflexivity].
  destruct (BatchValidator._find_contracts Path name relative_to found
              (Some (BatchValidator.out Path args))); reflexivity.
Qed.




End BatchProperties.

Lemma reports_are_not_contracts_witness :
  BatchValidator._is_contract_file string Samples.path_name
    "tone_contract_stageA_lint.json" = false.
Proof.
  apply (reports_are_not_contracts string Samples.path_name
           "tone_contract_stageA_lint.json" "tone_contract_stageA").
  left. reflexivity.
Defined.



(** ** The Stage B runner *)

Section RunnerProperties.

Variable World : Type.
Variable executable : string.
Variable subprocess_run : list string -> bool -> World -> Z * World.

Local Abbreviation main := (RunStageB.main World executable subprocess_run).
Local Abbreviation after_generation :=
  (after_generation World executable subprocess_run).

(** X14: The runner starts the generator unless [--test] is given and then the
    tests unless [--gen] is given; the tests run in the world the generator
    left, whether or not it succeeded; the exit code is 0 exactly when every
    subprocess that was started returned 0. With both options nothing is
    started and the exit code is 0. *)
Theorem stage_b_exit_code (verbose generate_only test_only : bool)
  (w : World) :
  let w1 := after_generation verbose test_only w in
  (fst (main verbose generate_only test_only w) = 0%Z <->
   (test_only = true \/
    fst (subprocess_run (RunStageB.generate_command executable)
           (negb verbose) w) = 0%Z) /\
   (generate_only = true \/
    fst (subprocess_run (RunStageB.test_command executable verbose)
           (negb verbose) w1) = 0%Z)) /\
  (fst (main verbose generate_only test_only w) = 0%Z \/
   fst (main verbose generate_only test_only w) = 1%Z) /\
  snd (main verbose generate_only test_only w) =
    (if generate_only then w1
     else snd (subprocess_run (RunStageB.test_command executable verbose)
                 (negb verbose) w1)) /\
  (generate_only = true -> test_only = true ->
   main verbose generate_only test_only w = (0%Z, w)).
Proof.
  unfold RunStageB.main, RunStageB.run_command, after_generation.
  destruct test_only, generate_only; cbn [negb].
  - cbn. repeat split; auto.
  - destruct (subprocess_run (RunStageB.test_command executable verbose)
                (negb verbose) w) as (rc, w') eqn:T.
    cbn [app forallb fst snd andb].
    destruct (Z.eqb_spec rc 0); repeat split; auto; try tauto;
      try discriminate.
    intros (_ & [H | H]); [discriminate H | contradiction].
  - destruct (subprocess_run (RunStageB.generate_command executable)
                (negb verbose) w) as (rc, w') eqn:G.
    cbn [app forallb fst snd andb].
    destruct (Z.eqb_spec rc 0); repeat split; auto; try tauto;
      try discriminate.
    intros ([H | H] & _); [discriminate H | contradiction].
  - destruct (subprocess_run (RunStageB.generate_command executable)
                (negb verbose) w) as (rc, w') eqn:G.
    cbn [snd fst].
    destruct (subprocess_run (RunStageB.test_command executable verbose)
                (negb verbose) w') as (rc2, w2) eqn:T.
    cbn [app forallb fst snd andb].
    destruct (Z.eqb_spec rc 0), (Z.eqb_spec rc2 0); cbn [andb];
      repeat split; auto; try tauto; try discriminate;
      intros ([H | H] & [H' | H']); try discriminate; contradiction.
Qed.

End RunnerProperties.

(** ** Codes and severities *)

Lemma returns_Ok {A} (P : A -> Prop) (a : A) : P a -> returns P (Ok a).
Proof. intros H b [= <-]. exact H. Qed.

Lemma returns_Raise {A} (P : A -> Prop) (e : exn) : returns P (Raise e).
Proof. intros a H. discriminate H. Qed.

Lemma returns_bind {A B} (Q : A -> Prop) (P : B -> Prop) (c : result A)
  (k : A -> result B) :
  returns Q c -> (forall a, Q a -> returns P (k a)) ->
  returns P (bind c k).
Proof.
  intros Hc Hk b H. apply bind_Ok in H. destruct H as (a & Ha & H).
  exact (Hk a (Hc a Ha) b H).
Qed.

Lemma returns_for_each {A} (G : LintIssue -> Prop)
  (body : A -> result (list LintIssue)) (l : list A) :
  (forall x, returns (Forall G) (body x)) ->
  returns (Forall G) (for_each body l).
Proof.
  intros H out. apply for_each_Forall. intros x o _. apply H.
Qed.

Lemma returns_for_state {A S} (G : LintIssue -> Prop)
  (body : S -> A -> result (S * list LintIssue)) (l : list A) :
  (forall s x, returns (fun p => Forall G (snd p)) (body s x)) ->
  forall s, returns (fun p => Forall G (snd p)) (for_state body s l).
Proof.
  intros H. induction l as [| x l IH]; intros s; cbn [for_state].
  - apply returns_Ok. constructor.
  - apply (returns_bind (fun p => Forall G (snd p))); [apply H |].
    intros (s1, a) Ha.
    apply (returns_bind (fun p => Forall G (snd p))); [apply IH |].
    intros (s2, b) Hb. apply returns_Ok. cbn [snd] in *.
    apply Forall_app. auto.
Qed.

(** Settle that the findings a check returns all satisfy [G]. *)
Ltac returns_findings G :=
  repeat first
    [ match goal with
      | |- returns _ (Ok _) => apply returns_Ok; cbn beta; cbn [snd]
      | |- returns _ (Raise _) => apply returns_Raise
      | |- returns _ (for_each _ _) => apply returns_for_each; intros ?
      | |- returns _ (for_state _ _ _) =>
          apply returns_for_state; intros ? ?
      | |- returns _ (bind ?c _) =>
          match type of c with
          | result (list LintIssue) =>
              apply (returns_bind (Forall G)); [| intros ? ?]
          | result (_ * list LintIssue)%type =>
              apply (returns_bind (fun p => Forall G (snd p)));
              [| intros [? ?] ?]
          | _ =>
              apply (returns_bind (fun _ => True));
              [intros ? _; exact I | intros ? _]
          end
      | |- returns _ (if ?b then _ else _) => destruct b
      | |- returns _ (let (_, _) := ?p in _) => destruct p
      | |- returns _ (match ?x with _ => _ end) => destruct x
      | |- Forall _ (_ ++ _) => apply Forall_app; split
      | |- Forall _ (when _ _) => apply Forall_when; cbn beta
      | |- Forall _ [] => constructor
      | |- Forall _ (_ :: _) => constructor; cbn beta
      | |- Forall _ _ => assumption
      | |- coherent _ = true => reflexivity
      | |- coherent (mkIssue (if ?b then _ else _) _ _ _) = true =>
          destruct b; reflexivity
      end ].

Lemma run_checks_coherent (self : validator) (data : json) :
  returns (Forall (fun x => coherent x = true)) (run_checks self data).
Proof.
  unfold run_checks, _check_required_fields, _check_schema_block,
    _check_module_identity, _check_parameters, _check_constraints,
    _check_validation_rules, _check_error_codes, _check_algorithm,
    _check_io_contract, _check_test_cases, _check_policies, _check_relations,
    glossary_step, _check_glossary_coverage,
    check_parameter, check_constraint, check_rule, check_error_code,
    check_step, check_uses, check_artifact, check_test_case.
  returns_findings (fun x => coherent x = true).
Qed.

(** X15: Every finding of a validation has a code that starts with the letter
    of its severity: the [errors] of a result carry [E] codes and its
    [warnings] carry [W] codes. *)
Theorem codes_agree_with_severity (self : validator) (fs : filesystem)
  (path : string) (r : LintResult) :
  validate_contract self fs path = Ok r ->
  Forall (fun x => severity x = ERROR /\ prefix_of "E" (code x) = true)
    (errors r) /\
  Forall (fun x => severity x = WARNING /\ prefix_of "W" (code x) = true)
    (warnings r).
Proof.
  intros H. destruct (validate_contract_Ok _ _ _ _ H) as (d & i & _ & R & ->).
  pose proof (run_checks_coherent self d i R) as C.
  rewrite Forall_forall in C.
  unfold build_result; cbn [errors warnings].
  split; apply Forall_forall; intros x Hx; apply filter_In in Hx;
    destruct Hx as (Hi & Hs); specialize (C x Hi);
    unfold coherent, is_error, is_warning in *;
    destruct (severity x); try discriminate Hs; auto.
Qed.

Lemma codes_agree_with_severity_witness :
  Forall (fun x => severity x = ERROR /\ prefix_of "E" (code x) = true)
    (errors Samples.defective_result) /\
  Forall (fun x => severity x = WARNING /\ prefix_of "W" (code x) = true)
    (warnings Samples.defective_result).
Proof.
  apply (codes_agree_with_severity Samples.no_glossary
           (Samples.holding Samples.defective) "c.json"
           Samples.defective_result).
  vm_compute. reflexivity.
Defined.

(** ** Relations and policies *)

(** X16: [_check_relations] never raises on a document object; it reports at
    most three findings, all errors with code E017, and none exactly when the
    relations block is an object whose three lists are arrays. *)
Theorem relations_check (m : list (string * json)) :
  exists issues,
    _check_relations (JObj m) = Ok issues /\
    (List.length issues <= 3)%nat /\
    all_errors "E017" issues /\
    (issues = [] <-> relations_ok m = true).
Proof.
  unfold _check_relations, relations_ok, all_errors. cbn [py_get bind].
  destruct (lookup "relations" m) as [[| | | | | | r] |];
    try (eexists; split; [reflexivity |]; split; [cbn; lia |];
         split; [repeat constructor | split; discriminate]).
  - cbn [for_each bind]. unfold relation_ok.
    destruct (lookup "depends_on" r) as [[] |];
      destruct (lookup "influences" r) as [[] |];
      destruct (lookup "conflicts_with" r) as [[] |];
      cbn [isinstance_list negb when bind app andb];
      (eexists; split; [reflexivity |]; split; [cbn; lia |];
       split; [repeat constructor | split; try discriminate; reflexivity]).
Qed.

(** X17: [_check_policies] never raises on a document object; its findings are
    errors with code E016, and there is none exactly when the policies block
    is an object with its four fields and the unit policy "strict". *)
Theorem policies_check (m : list (string * json)) :
  exists issues,
    _check_policies (JObj m) = Ok issues /\
    (List.length issues <= 5)%nat /\
    all_errors "E016" issues /\
    (issues = [] <-> policies_ok m = true).
Proof.
  unfold _check_policies, policies_ok, all_errors. cbn [py_get bind].
  assert (D : forall p : list (string * json),
            exists issues,
              (if negb (isinstance_dict (JObj p))
               then Ok [mkIssue "E016" ERROR [Txt "policies must be an object"]
                          "$.policies"]
               else
                 i1 <- for_each (fun f =>
                         present <- py_in f (JObj p) ;;
                         Ok (when (negb present)
                               (mkIssue "E016" ERROR
                                  [Txt "policies missing '"; Fmt (JStr f);
                                   Txt "'"]
                                  ("$.policies." ++ f))))
                         ["unit_policy"; "constraints_dsl"; "glossary_policy";
                          "i18n_policy"] ;;
                 unit_policy <- py_get (JObj p) "unit_policy" JNull ;;
                 Ok (i1 ++ when (negb (eq_str unit_policy "strict"))
                              (mkIssue "E016" ERROR
                                 [Txt "policies.unit_policy must be 'strict'"]
                                 "$.policies.unit_policy"))) = Ok issues /\
              (List.length issues <= 5)%nat /\
              Forall (fun x => code x = "E016" /\ severity x = ERROR) issues /\
              (issues = [] <->
               negb (lacks p "unit_policy") && negb (lacks p "constraints_dsl")
               && negb (lacks p "glossary_policy")
               && negb (lacks p "i18n_policy")
               && eq_str (field p "unit_policy" JNull) "strict" = true)).
  { intros p. cbn [isinstance_dict negb for_each bind py_in py_get].
    unfold lacks, field.
    destruct (lookup "unit_policy" p) as [u |];
      destruct (lookup "constraints_dsl" p);
      destruct (lookup "glossary_policy" p);
      destruct (lookup "i18n_policy" p);
      cbn [negb when bind app andb];
      try destruct (eq_str u "strict");
      cbn [negb when bind app andb eq_str];
      (eexists; split; [reflexivity |]; split; [cbn; lia |];
       split; [repeat constructor | split; try discriminate; reflexivity]). }
  destruct (lookup "policies" m) as [[| | | | | | p] |];
    try (eexists; split; [reflexivity |]; split; [cbn; lia |];
         split; [repeat constructor | split; discriminate]).
  apply D.
Qed.

(** ** Findings of one kind, in order *)

Lemma for_each_filter {A} (q : LintIssue -> bool) (g : A -> list LintIssue)
  (body : A -> result (list LintIssue)) (l : list A) :
  (forall x o, body x = Ok o -> filter q o = g x) ->
  forall out, for_each body l = Ok out -> filter q out = flat_map g l.
Proof.
  intros Hb. induction l as [| x l IH]; cbn [for_each flat_map]; intros out H.
  - apply Ok_inj in H. now subst.
  - apply bind_Ok in H. destruct H as (a & Ea & H).
    apply bind_Ok in H. destruct H as (b & Eb & H).
    apply Ok_inj in H. subst out.
    now rewrite filter_app, (Hb _ _ Ea), (IH _ Eb).
Qed.

Lemma for_state_filter {A S} (q : LintIssue -> bool) (g : A -> list LintIssue)
  (body : S -> A -> result (S * list LintIssue)) (l : list A) :
  (forall s x s' o, body s x = Ok (s', o) -> filter q o = g x) ->
  forall s s' out, for_state body s l = Ok (s', out) ->
  filter q out = flat_map g l.
Proof.
  intros Hb. induction l as [| x l IH]; cbn [for_state flat_map];
    intros s s' out H.
  - apply Ok_inj in H. injection H as _ <-. reflexivity.
  - apply bind_Ok in H. destruct H as ((s1, a) & Ea & H).
    apply bind_Ok in H. destruct H as ((s2, b) & Eb & H).
    apply Ok_inj in H. injection H as _ <-.
    now rewrite filter_app, (Hb _ _ _ _ Ea), (IH _ _ _ Eb).
Qed.

Lemma collect_groups_mem (vals : list json) :
  forall s s', collect_groups s vals = Ok s' ->
  forall c, set_mem c s' =
            set_mem c s ||
            set_mem c (flat_map (fun v => match v with JArr l => l | _ => [] end)
                         vals).
Proof.
  induction vals as [| v vals IH]; cbn [collect_groups flat_map];
    intros s s' H c.
  - apply Ok_inj in H. subst. cbn. now rewrite orb_false_r.
  - apply bind_Ok in H. destruct H as (s1 & E & H).
    rewrite (IH _ _ H), set_mem_app, orb_assoc. f_equal.
    destruct v; try (apply Ok_inj in E; subst s1; cbn;
                     now rewrite orb_false_r).
    apply (set_update_mem _ _ _ E).
Qed.

Lemma membership_loop (mk : string -> LintIssue) (s : pyset)
  (names : list string) :
  forall out,
  for_each (fun pname =>
    grouped <- py_in_set (JStr pname) s ;;
    Ok (when (negb grouped) (mk pname))) names = Ok out ->
  out = map mk (filter (fun n => negb (set_mem (JStr n) s)) names).
Proof.
  induction names as [| n names IH]; cbn [for_each filter map]; intros out H.
  - apply Ok_inj in H. now subst.
  - apply bind_Ok in H. destruct H as (a & Ea & H).
    apply bind_Ok in H. destruct H as (b & Eb & H).
    apply Ok_inj in H. subst out. rewrite (IH _ Eb).
    cbn in Ea. apply Ok_inj in Ea. subst a.
    now destruct (set_mem (JStr n) s).
Qed.

Lemma check_parameter_errors (x : string * json) :
  returns (Forall (fun i => is_warning i = false)) (check_parameter x).
Proof.
  unfold check_parameter.
  returns_findings (fun i => is_warning i = false); reflexivity.
Qed.

(** X18: The warnings of [_check_parameters] are the W020 findings, one for
    each parameter name that no list of [parameter_groups] holds, in the order
    of the parameters. *)
Theorem ungrouped_parameters (data : json) (items groups : list (string * json))
  (issues : list LintIssue) :
  py_get data "parameters" (JObj []) = Ok (JObj items) ->
  py_get data "parameter_groups" (JObj []) = Ok (JObj groups) ->
  _check_parameters data = Ok issues ->
  filter is_warning issues =
  map ungrouped_finding (filter (ungrouped groups) (map fst items)).
Proof.
  intros Hp Hg H. unfold _check_parameters in H. rewrite Hp in H.
  cbn [bind] in H. destruct items as [| it items].
  { apply Ok_inj in H. now subst. }
  apply bind_Ok in H. destruct H as (i1 & E1 & H).
  rewrite Hg in H. cbn [bind py_values] in H.
  apply bind_Ok in H. destruct H as (s & Es & H).
  apply bind_Ok in H. destruct H as (i2 & E2 & H).
  apply Ok_inj in H. subst issues.
  apply (membership_loop ungrouped_finding) in E2. rewrite filter_app.
  rewrite (filter_none _ i1).
  2:{ revert E1. apply for_each_Forall. intros x o _.
      apply check_parameter_errors. }
  rewrite E2. cbn [app].
  assert (M : forall n, negb (set_mem (JStr n) s) = ungrouped groups n).
  { intros n. unfold ungrouped, grouped_names.
    now rewrite (collect_groups_mem _ _ _ Es). }
  rewrite (filter_ext _ _ M).
  induction (filter (ungrouped groups) (map fst (it :: items))) as [| a l IH];
    cbn [map filter]; [reflexivity |].
  replace (is_warning (ungrouped_finding a)) with true by reflexivity.
  now f_equal.
Qed.

Lemma ungrouped_parameters_witness :
  filter is_warning (Samples.findings_of (_check_parameters Samples.defective))
  = map ungrouped_finding
      (filter (ungrouped Samples.defective_groups)
         (map fst Samples.defective_parameters)).
Proof.
  apply (ungrouped_parameters Samples.defective); vm_compute; reflexivity.
Defined.

(** ** Codes cited outside the registry *)

Lemma set_of_field_mem (f : string) (l : list json) :
  forall s s', set_of_field f s l = Ok s' ->
  forall c, set_mem c s' = set_mem c s || set_mem c (map (get_field f) l).
Proof.
  induction l as [| e l IH]; cbn [set_of_field map]; intros s s' H c.
  - apply Ok_inj in H. subst. cbn. now rewrite orb_false_r.
  - apply bind_Ok in H. destruct H as (v & Ev & H).
    apply bind_Ok in H. destruct H as (s1 & E1 & H).
    rewrite (IH _ _ H), (set_add_mem _ _ _ E1).
    destruct e; try discriminate Ev.
    cbn [py_get] in Ev. apply Ok_inj in Ev. subst v.
    cbn [set_mem existsb get_field]. unfold field.
    now rewrite orb_assoc.
Qed.

Ltac cited_cases H :=
  repeat match type of H with
         | (if ?b then _ else _) = _ => destruct b eqn:?
         | bind (Raise _) _ = _ => discriminate H
         | Raise _ = _ => discriminate H
         | bind (Ok _) _ = _ => cbn [bind] in H
         | bind (re_match _ _) _ = _ => cbn [re_match bind] in H
         | bind (py_in_set _ _) _ = _ => cbn [py_in_set hashable bind] in H
         end.

Lemma check_constraint_spec (defined : pyset) (i : nat) (c : json)
  (o : list LintIssue) :
  check_constraint defined (i, c) = Ok o ->
  filter (has_code "E031") o =
  when (matches ERROR_CODE_PATTERN (cited_code c) &&
        negb (set_mem (cited_code c) defined))
    (constraint_code_finding i (cited_code c)).
Proof.
  unfold check_constraint.
  destruct c as [| | | | | | m];
    try (intros H; apply Ok_inj in H; subst o; reflexivity).
  cbn [isinstance_dict negb py_in py_get bind cited_code]. unfold field.
  intros H. apply bind_Ok in H. destruct H as (i2 & E2 & H).
  apply Ok_inj in H. subst o. rewrite filter_app, filter_when.
  match goal with
  | |- context [has_code "E031" ?x] => change (has_code "E031" x) with false
  end.
  rewrite andb_false_r. cbn [when app].
  destruct (match lookup "error_code" m with Some v => v | None => JStr "" end)
    as [| b | z | q | s | l | n];
    cbn [truthy negb matches andb when] in *; cited_cases E2;
    apply Ok_inj in E2; subst i2; try reflexivity.
  - rewrite negb_involutive in Heqb. apply String.eqb_eq in Heqb.
    now subst s.
  - apply negb_true_iff in Heqb0. rewrite Heqb0. reflexivity.
  - apply negb_false_iff in Heqb0. rewrite Heqb0. cbn [andb].
    rewrite filter_when. unfold constraint_code_finding.
    match goal with
    | |- context [has_code "E031" ?x] => change (has_code "E031" x) with true
    end.
    now rewrite andb_true_r.
Qed.

Lemma citations_loop (p : string -> bool) (mk : nat -> json -> LintIssue)
  (c : string) (body : pyset -> nat * json -> result (list LintIssue))
  (data : json) (entries l : list json) (out : list LintIssue) :
  (forall defined i x o, body defined (i, x) = Ok o ->
     filter (has_code c) o =
     when (matches p (cited_code x) && negb (set_mem (cited_code x) defined))
       (mk i (cited_code x))) ->
  py_get data "error_codes" (JArr []) = Ok (JArr entries) ->
  (error_codes <- py_get data "error_codes" (JArr []) ;;
   error_codes_defined <- set_comprehension "code" error_codes ;;
   for_each (body error_codes_defined) (enumerate l)) = Ok out ->
  filter (has_code c) out = unregistered_citations p mk entries l.
Proof.
  intros Hb He H. rewrite He in H. cbn [bind set_comprehension py_iter] in H.
  apply bind_Ok in H. destruct H as (defined & Ed & H).
  unfold unregistered_citations.
  apply (for_each_filter (has_code c)) with (body := body defined);
    [| exact H].
  intros (i, x) o Ho. rewrite (Hb _ _ _ _ Ho). cbn [fst snd].
  unfold cites_unregistered, registered_codes.
  now rewrite (set_of_field_mem _ _ _ _ Ed).
Qed.

(** X19: The E031 findings of [_check_constraints] are, in the order of the
    constraints, one for each constraint whose [error_code] has the form E###
    and is the code of no entry of [error_codes]. *)
Theorem undeclared_constraint_codes (data : json) (l entries : list json)
  (issues : list LintIssue) :
  py_get data "constraints" (JArr []) = Ok (JArr l) ->
  py_get data "error_codes" (JArr []) = Ok (JArr entries) ->
  _check_constraints data = Ok issues ->
  filter (has_code "E031") issues =
  unregistered_citations ERROR_CODE_PATTERN constraint_code_finding entries l.
Proof.
  intros Hl He H. unfold _check_constraints in H. rewrite Hl in H.
  cbn [bind] in H. destruct l as [| c l].
  { apply Ok_inj in H. now subst. }
  apply (citations_loop _ _ _ check_constraint data entries _ _
           check_constraint_spec He H).
Qed.

Lemma undeclared_constraint_codes_witness :
  filter (has_code "E031")
    (Samples.findings_of (_check_constraints Samples.defective))
  = unregistered_citations ERROR_CODE_PATTERN constraint_code_finding
      Samples.defective_registry Samples.defective_constraints.
Proof.
  apply (undeclared_constraint_codes Samples.defective);
    vm_compute; reflexivity.
Defined.

Lemma check_rule_spec (defined : pyset) (i : nat) (c : json)
  (o : list LintIssue) :
  check_rule defined (i, c) = Ok o ->
  filter (has_code "E041") o =
  when (matches WARNING_CODE_PATTERN (cited_code c) &&
        negb (set_mem (cited_code c) defined))
    (rule_code_finding i (cited_code c)).
Proof.
  unfold check_rule.
  destruct c as [| | | | | | m];
    try (intros H; apply Ok_inj in H; subst o; reflexivity).
  cbn [isinstance_dict negb bind cited_code].
  intros H. apply bind_Ok in H. destruct H as (i1 & E1 & H).
  apply presence_loop_code in E1.
  cbn [py_get bind] in H. unfold field.
  apply bind_Ok in H. destruct H as (i3 & E3 & H).
  apply Ok_inj in H. subst o. rewrite !filter_app, filter_when.
  rewrite (filter_none _ i1).
  2:{ eapply Forall_impl; [| exact E1]. intros x Hx.
      unfold has_code. now rewrite Hx. }
  match goal with
  | |- context [has_code "E041" ?x] => change (has_code "E041" x) with false
  end.
  rewrite andb_false_r. cbn [when app].
  destruct (match lookup "error_code" m with Some v => v | None => JStr "" end)
    as [| b | z | q | s | l | n];
    cbn [truthy negb matches andb when] in *; cited_cases E3;
    apply Ok_inj in E3; subst i3; try reflexivity.
  - apply negb_true_iff in Heqb0. rewrite Heqb0. reflexivity.
  - apply negb_false_iff in Heqb0. rewrite Heqb0. cbn [andb].
    rewrite filter_when. unfold rule_code_finding.
    match goal with
    | |- context [has_code "E041" ?x] => change (has_code "E041" x) with true
    end.
    now rewrite andb_true_r.
  - apply negb_false_iff, String.eqb_eq in Heqb. now subst s.
Qed.

(** X20: The E041 findings of [_check_validation_rules] are, in the order of
    the rules, one for each rule whose [error_code] has the form W### and is
    the code of no entry of [error_codes]. *)
Theorem undeclared_rule_codes (data validation : json) (l entries : list json)
  (issues : list LintIssue) :
  py_get data "validation" (JObj []) = Ok validation ->
  py_get validation "rules" (JArr []) = Ok (JArr l) ->
  py_get data "error_codes" (JArr []) = Ok (JArr entries) ->
  _check_validation_rules data = Ok issues ->
  filter (has_code "E041") issues =
  unregistered_citations WARNING_CODE_PATTERN rule_code_finding entries l.
Proof.
  intros Hv Hl He H. unfold _check_validation_rules in H.
  rewrite Hv in H. cbn [bind] in H. rewrite Hl in H. cbn [bind] in H.
  apply (citations_loop _ _ _ check_rule data entries _ _
           check_rule_spec He H).
Qed.

Lemma undeclared_rule_codes_witness :
  filter (has_code "E041")
    (Samples.findings_of (_check_validation_rules Samples.defective))
  = unregistered_citations WARNING_CODE_PATTERN rule_code_finding
      Samples.defective_registry Samples.defective_rules.
Proof.
  apply (undeclared_rule_codes Samples.defective
           (JObj [("rules", JArr Samples.defective_rules)]));
    vm_compute; reflexivity.
Defined.

(** ** Scope of the outputs *)

Lemma check_artifact_spec (direction : string) (i : nat) (art : json)
  (o : list LintIssue) :
  check_artifact direction (i, art) = Ok o ->
  filter (has_code "E071") o =
  if direction =? "outputs"
  then when (negb (is_public art)) (scope_finding i art)
  else [].
Proof.
  unfold check_artifact. intros H.
  apply bind_Ok in H. destruct H as (i1 & E1 & H).
  apply presence_loop_code in E1.
  apply bind_Ok in H. destruct H as (i2 & E2 & H).
  apply Ok_inj in H. subst o. rewrite filter_app.
  rewrite (filter_none _ i1).
  2:{ eapply Forall_impl; [| exact E1]. intros x Hx.
      unfold has_code. now rewrite Hx. }
  cbn [app]. destruct (direction =? "outputs").
  2:{ apply Ok_inj in E2. now subst. }
  destruct art as [| | | | | | a]; try discriminate E2.
  cbn [py_get bind is_public] in *. unfold field.
  destruct (eq_str _ "public"); cbn [negb bind when] in *;
    apply Ok_inj in E2; subst i2; reflexivity.
Qed.

(** X21: The E071 findings of [_check_io_contract] are, in the order of the
    outputs, one for each output whose [scope] is not "public". *)
Theorem output_scopes (data : json) (io : list (string * json))
  (issues : list LintIssue) :
  py_get data "io_contract" (JObj []) = Ok (JObj io) ->
  _check_io_contract data = Ok issues ->
  filter (has_code "E071") issues =
  flat_map (fun iart : nat * json =>
              when (negb (is_public (snd iart)))
                (scope_finding (fst iart) (snd iart)))
    (enumerate (outputs_of io)).
Proof.
  intros Hio H. unfold _check_io_contract in H. rewrite Hio in H.
  cbn [bind isinstance_dict negb for_each py_get] in H.
  apply bind_Ok in H. destruct H as (a & Ea & H).
  apply bind_Ok in H. destruct H as (b & Eb & H).
  apply Ok_inj in H. subst issues.
  apply bind_Ok in Eb. destruct Eb as (b1 & Eb & H).
  apply Ok_inj in H. subst b.
  rewrite app_nil_r, filter_app.
  assert (A : filter (has_code "E071") a = []).
  { destruct (match lookup "inputs" io with Some v => v | None => JArr [] end)
      as [| | | | | [| x l] |]; try (apply Ok_inj in Ea; now subst a).
    apply (for_each_filter (has_code "E071") (fun _ => [])) in Ea.
    - rewrite Ea. generalize (enumerate (x :: l)). intros e.
      now induction e.
    - intros (i, art) o Ho. now rewrite (check_artifact_spec _ _ _ _ Ho). }
  rewrite A. cbn [app]. unfold outputs_of.
  destruct (lookup "outputs" io) as [[| | | | | [| x l] |] |];
    try (apply Ok_inj in Eb; now subst b1).
  apply (for_each_filter (has_code "E071")) with (2 := Eb).
  intros (i, art) o Ho. now rewrite (check_artifact_spec _ _ _ _ Ho).
Qed.

Lemma output_scopes_witness :
  filter (has_code "E071")
    (Samples.findings_of (_check_io_contract Samples.defective))
  = flat_map (fun iart : nat * json =>
                when (negb (is_public (snd iart)))
                  (scope_finding (fst iart) (snd iart)))
      (enumerate (outputs_of Samples.defective_io)).
Proof.
  apply (output_scopes Samples.defective); vm_compute; reflexivity.
Defined.

(** ** Coverage of the test cases *)

Lemma atom_eqb_string (t : string) (v : json) :
  atom_eqb (JStr t) v = eq_str v t.
Proof. destruct v; try reflexivity. cbn. apply String.eqb_sym. Qed.

Lemma check_test_case_spec (s s' : pyset) (i : nat) (tc : json)
  (o : list LintIssue) :
  check_test_case s (i, tc) = Ok (s', o) ->
  filter (at_path "$.test_cases") o = [] /\
  forall t, set_mem (JStr t) s' = set_mem (JStr t) s || has_type t tc.
Proof.
  unfold check_test_case.
  destruct tc as [| | | | | | m];
    try (intros H; apply Ok_inj in H; injection H as <- <-;
         split; [reflexivity | intros t; now rewrite orb_false_r]).
  cbn [isinstance_dict negb]. intros H.
  apply bind_Ok in H. destruct H as (i1 & E1 & H).
  cbn [py_get bind] in H.
  apply bind_Ok in H. destruct H as (valid & Ev & H).
  apply bind_Ok in H. destruct H as (s1 & Es & H).
  apply Ok_inj in H. injection H as <- <-. split.
  - rewrite filter_app, filter_when.
    rewrite (filter_none _ i1).
    2:{ revert E1. apply for_each_Forall. intros f o _ Ho.
        apply bind_Ok in Ho. destruct Ho as (present & _ & Ho).
        apply Ok_inj in Ho. subst o. now apply Forall_when. }
    match goal with
    | |- context [at_path "$.test_cases" ?x] =>
        change (at_path "$.test_cases" x) with false
    end.
    now rewrite andb_false_r.
  - intros t. rewrite (set_add_mem _ _ _ Es). cbn [has_type]. unfold field.
    now rewrite atom_eqb_string.
Qed.

Lemma test_case_loop (l : list json) :
  forall (k : nat) (s s' : pyset) (out : list LintIssue),
  for_state check_test_case s (enumerate_from k l) = Ok (s', out) ->
  filter (at_path "$.test_cases") out = [] /\
  forall t, set_mem (JStr t) s' = set_mem (JStr t) s || existsb (has_type t) l.
Proof.
  induction l as [| tc l IH]; cbn [enumerate_from for_state existsb];
    intros k s s' out H.
  - apply Ok_inj in H. injection H as <- <-.
    split; [reflexivity | intros t; now rewrite orb_false_r].
  - apply bind_Ok in H. destruct H as ((s1, a) & Ea & H).
    apply bind_Ok in H. destruct H as ((s2, b) & Eb & H).
    apply Ok_inj in H. injection H as <- <-.
    destruct (check_test_case_spec _ _ _ _ _ Ea) as (Fa & Ma).
    destruct (IH _ _ _ _ Eb) as (Fb & Mb). split.
    + now rewrite filter_app, Fa, Fb.
    + intros t. now rewrite Mb, Ma, orb_assoc.
Qed.

(** X22: On three test cases or more, the findings of [_check_test_cases] at
    the path of the list itself are the coverage findings: an error for no
    case of type "positive", an error for no case of type "negative", a
    warning for no case of type "warning", in this order. *)
Theorem test_case_coverage (data : json) (l : list json)
  (issues : list LintIssue) :
  py_get data "test_cases" (JArr []) = Ok (JArr l) ->
  (3 <= List.length l)%nat ->
  _check_test_cases data = Ok issues ->
  filter (at_path "$.test_cases") issues =
  when (negb (existsb (has_type "positive") l)) (coverage_error "positive") ++
  when (negb (existsb (has_type "negative") l)) (coverage_error "negative") ++
  when (negb (existsb (has_type "warning") l)) coverage_warning.
Proof.
  intros Hl L H. unfold _check_test_cases in H. rewrite Hl in H.
  cbn [bind] in H.
  destruct l as [| a [| b [| c l]]]; cbn [List.length] in L; try lia.
  apply bind_Ok in H. destruct H as ((s, i1) & E & H).
  apply Ok_inj in H. subst issues.
  destruct (test_case_loop _ _ _ _ _ E) as (F & M).
  rewrite !filter_app, F, !filter_when, !M. cbn [set_mem existsb orb app].
  repeat match goal with
         | |- context [at_path "$.test_cases" ?x] =>
             change (at_path "$.test_cases" x) with true
         end.
  rewrite !andb_true_r. reflexivity.
Qed.

Lemma test_case_coverage_witness :
  filter (at_path "$.test_cases")
    (Samples.findings_of (_check_test_cases Samples.defective))
  = when (negb (existsb (has_type "positive") Samples.defective_tests))
      (coverage_error "positive") ++
    when (negb (existsb (has_type "negative") Samples.defective_tests))
      (coverage_error "negative") ++
    when (negb (existsb (has_type "warning") Samples.defective_tests))
      coverage_warning.
Proof.
  apply (test_case_coverage Samples.defective);
    [reflexivity | cbn; lia | vm_compute; reflexivity].
Defined.

(** ** Levels of the registered codes *)

Lemma check_error_code_levels (s : pyset) (ie : nat * json) (s' : pyset)
  (o : list LintIssue) :
  check_error_code s ie = Ok (s', o) ->
  filter level_finding o = entry_levels ie.
Proof.
  destruct ie as (i, e). unfold check_error_code, entry_levels. cbn [fst snd].
  destruct e as [| | | | | | ec];
    try (intros H; apply Ok_inj in H; injection H as _ <-; reflexivity).
  cbn [isinstance_dict negb py_get bind]. unfold field.
  set (code := match lookup "code" ec with Some v => v | None => JStr "" end).
  set (level := match lookup "level" ec with Some v => v | None => JStr "" end).
  intros H.
  apply bind_Ok in H. destruct H as (i1 & E1 & H).
  apply bind_Ok in H. destruct H as (bad & _ & H).
  apply bind_Ok in H. destruct H as (is_e & Ee & H).
  apply bind_Ok in H. destruct H as (is_w & Ew & H).
  apply bind_Ok in H. destruct H as (seen & _ & H).
  apply bind_Ok in H. destruct H as (s1 & _ & H).
  apply Ok_inj in H. injection H as _ <-.
  rewrite !filter_app, !filter_when.
  rewrite (filter_none _ i1).
  2:{ revert E1. apply for_each_Forall. intros f o _ Ho.
      apply bind_Ok in Ho. destruct Ho as (present & _ & Ho).
      apply Ok_inj in Ho. subst o. now apply Forall_when. }
  destruct code; try discriminate Ee.
  cbn [startswith starts] in *.
  apply Ok_inj in Ee. apply Ok_inj in Ew. subst is_e is_w.
  unfold level_finding; cbn [message idx].
  change (substring_of "must have level"
            "] code must match E### or W### format") with false.
  change (substring_of "must have level" " must have level 'error'")
    with true.
  change (substring_of "must have level" " must have level 'warning'")
    with true.
  rewrite !andb_false_r, !andb_true_r. cbn [when app].
  now rewrite app_nil_r.
Qed.

(** X23: The level findings of [_check_error_codes] are, in the order of the
    registry, those of its entries: one for a code that starts with E and has
    a level other than "error", one for a code that starts with W and has a
    level other than "warning". *)
Theorem code_levels (data : json) (l : list json) (issues : list LintIssue) :
  py_get data "error_codes" (JArr []) = Ok (JArr l) ->
  _check_error_codes data = Ok issues ->
  filter level_finding issues = flat_map entry_levels (enumerate l).
Proof.
  intros Hl H. unfold _check_error_codes in H. rewrite Hl in H.
  cbn [bind] in H. destruct l as [| e l].
  { apply Ok_inj in H. now subst. }
  apply bind_Ok in H. destruct H as ((s, out) & E & H).
  apply Ok_inj in H. subst out.
  apply (for_state_filter level_finding entry_levels check_error_code
           _ check_error_code_levels _ _ _ E).
Qed.

Lemma code_levels_witness :
  filter level_finding
    (Samples.findings_of (_check_error_codes Samples.defective))
  = flat_map entry_levels (enumerate Samples.defective_registry).
Proof.
  apply (code_levels Samples.defective); vm_compute; reflexivity.
Defined.

(** ** Registry entries whose code is no string *)

Lemma check_error_code_raises (s : pyset) (i : nat)
  (ec : list (string * json)) :
  is_string (field ec "code" (JStr "")) = false ->
  exists e, check_error_code s (i, JObj ec) = Raise e.
Proof.
  unfold check_error_code, field.
  cbn [isinstance_dict negb py_get bind py_in for_each].
  destruct (match lookup "code" ec with Some v => v | None => JStr "" end)
    as [| b | z | q | c | a | m]; try discriminate; intros _;
    cbn [truthy re_match startswith bind].
  - eauto.
  - destruct b; cbn [bind]; eauto.
  - destruct (negb (z =? 0)%Z); cbn [bind]; eauto.
  - destruct (negb (Qeq_bool q 0)); cbn [bind]; eauto.
  - destruct a; cbn [bind]; eauto.
  - destruct m; cbn [bind]; eauto.
Qed.

Lemma error_code_loop_raises (ec : list (string * json)) (l : list json) :
  is_string (field ec "code" (JStr "")) = false ->
  In (JObj ec) l ->
  forall k s, exists e,
    for_state check_error_code s (enumerate_from k l) = Raise e.
Proof.
  intros Hc. induction l as [| e0 l IH]; intros Hin k s; [destruct Hin |].
  cbn [enumerate_from for_state].
  destruct Hin as [-> | Hin].
  - destruct (check_error_code_raises s k ec Hc) as (e & ->). cbn. eauto.
  - destruct (check_error_code s (k, e0)) as [(s1, a) | e]; cbn [bind];
      [| eauto].
    destruct (IH Hin (S k) s1) as (e & ->). cbn. eauto.
Qed.

(** X24: A loaded document whose [error_codes] list has an object entry whose
    [code] is not a string is never given a result: the validation raises. *)
Theorem malformed_code_raises (self : validator) (fs : filesystem)
  (path : string) (data : json) (l : list json) (ec : list (string * json)) :
  fs path = Holds data ->
  py_get data "error_codes" (JArr []) = Ok (JArr l) ->
  In (JObj ec) l ->
  is_string (field ec "code" (JStr "")) = false ->
  exists e, validate_contract self fs path = Raise e.
Proof.
  intros Hf Hl Hin Hc. unfold validate_contract, exists_, _load_json.
  rewrite Hf. cbn [negb bind].
  enough (Q : exists e, run_checks self data = Raise e)
    by (destruct Q as (e & ->); cbn [bind]; eauto).
  unfold run_checks.
  assert (R : exists e, _check_error_codes data = Raise e).
  { unfold _check_error_codes. rewrite Hl. cbn [bind].
    destruct l as [| e0 l]; [destruct Hin |].
    destruct (error_code_loop_raises ec _ Hc Hin 0 []) as (e & E).
    unfold enumerate. rewrite E. cbn. eauto. }
  destruct R as (e & R). rewrite R.
  repeat match goal with
         | |- exists _, bind (Raise _) _ = _ => cbn [bind]; eauto
         | |- exists _, bind ?c _ = _ =>
             destruct c; cbn [bind]; [| eauto]
         end.
  eauto.
Qed.

Lemma malformed_code_raises_witness :
  exists e,
    validate_contract Samples.no_glossary (Samples.holding Samples.null_code)
      "c.json" = Raise e.
Proof.
  apply (malformed_code_raises Samples.no_glossary
           (Samples.holding Samples.null_code) "c.json" Samples.null_code
           [Samples.error_code "E001" "error"; JObj Samples.null_code_entry]
           Samples.null_code_entry).
  - reflexivity.
  - reflexivity.
  - right. left. reflexivity.
  - reflexivity.
Defined.

(** ** The two code formats *)

(** X25: A code of the form E### starts with E and is not of the form W###; a
    code of the form W### starts with W and is not of the form E###: the
    format check and the level rules of [_check_error_codes] sort every
    well-formed code the same way. *)
Theorem code_formats_disjoint (s : string) :
  (ERROR_CODE_PATTERN s = true ->
   prefix_of "E" s = true /\ prefix_of "W" s = false /\
   WARNING_CODE_PATTERN s = false) /\
  (WARNING_CODE_PATTERN s = true ->
   prefix_of "W" s = true /\ prefix_of "E" s = false /\
   ERROR_CODE_PATTERN s = false).
Proof.
  unfold ERROR_CODE_PATTERN, WARNING_CODE_PATTERN, letter_3digits.
  destruct s as [| c s]; cbn [list_ascii_of_string lit prefix_of];
    [split; discriminate |].
  split; intros H; apply andb_true_iff in H; destruct H as (H & _);
    apply Ascii.eqb_eq in H; subst c; cbn; auto.
Qed.
